(** * SingleSliceSegmentation: the plugin's callbacks and logic helper

    A shallow embedding of
    [SlicerExtension/LiveUltrasoundAi/SingleSliceSegmentation/SingleSliceSegmentation.py].

    The module is glue code over a host application.  The embedding keeps
    the plugin's own control flow (guards, branches, loops, exceptions) and
    returns, with every result, the calls made on the host.  The parts of the
    scene the plugin itself reads and writes (node attributes, the data nodes
    stored in a sequence, the Red slice foreground opacity) are concrete; how
    the host reacts to the other calls (browsing, recording, exporting) is a
    parameter, so the theorems hold for every host. *)

From stdpp Require Import gmap strings list pretty.
From Stdlib Require Import ZArith QArith Ascii.

Close Scope Q_scope.

Set Default Proof Using "Type".

(** ** Scene data *)

(** A host scene node, as a Python object reference (compared by identity). *)
Definition Node := positive.

(** The attributes of the nodes: [node.GetAttribute(name)], [None] when the
    node has no such attribute. *)
Definition Attributes : Type := Node → string → option string.

Definition noAttributes : Attributes := λ _ _, None.

(** [node.SetAttribute(name, value)] *)
Definition setAttribute (n : Node) (name value : string) (a : Attributes) : Attributes :=
  λ n' name', if decide (n' = n ∧ name' = name) then Some value else a n' name'.

(** One item of a [vtkMRMLSequenceNode]: index value and stored data node. *)
Definition SequenceItem : Type := string * Node.

Record World (H O : Type) := mkWorld {
  attributes : Attributes;
  (** the nodes of the scene with their class name, in scene order *)
  sceneNodes : list (Node * string);
  (** the items stored in each sequence node *)
  sequences : gmap Node (list SequenceItem);
  (** foreground opacity of the Red slice composite node *)
  foregroundOpacity : O;
  (** everything else the host keeps (browser positions, files, ...) *)
  hidden : H
}.
Arguments mkWorld {H O}.
Arguments attributes {H O}.
Arguments sceneNodes {H O}.
Arguments sequences {H O}.
Arguments foregroundOpacity {H O}.
Arguments hidden {H O}.

(** The widget's own members: the selectors of [self.ui] and
    [self.lastForegroundOpacity]. *)
Record Widget (O : Type) := mkWidget {
  inputSequenceBrowserSelector : option Node;
  inputVolumeSelector : option Node;
  inputSegmentationSelector : option Node;
  segmentationBrowserSelector : option Node;
  skipImagesSpinBox : Z;
  outputDirectoryButton : string;
  filenamePrefixEdit : string;
  exportTransformCheckBox : bool;
  convertValueSpinBox : Z;
  lastForegroundOpacity : O
}.
Arguments mkWidget {O}.
Arguments inputSequenceBrowserSelector {O}.
Arguments inputVolumeSelector {O}.
Arguments inputSegmentationSelector {O}.
Arguments segmentationBrowserSelector {O}.
Arguments skipImagesSpinBox {O}.
Arguments outputDirectoryButton {O}.
Arguments filenamePrefixEdit {O}.
Arguments exportTransformCheckBox {O}.
Arguments convertValueSpinBox {O}.
Arguments lastForegroundOpacity {O}.

(** ** Calls on the host

    Every effect of the plugin on its environment, in the order issued.
    [GetSelectedItemNumber] and [SelectNextItem] carry the value the host
    returned, because the wraparound check compares the two.
    [ScaleLabelmap] stands for reading the labelmap array, multiplying it by
    the factor and writing it back; [PngWrite] for the cast and the write of
    one file; [EraseSegment] for filling one segment's labelmap with zeros
    and putting it back.  [convertSegmentationSequenceToVolumeSequence] is
    recorded as one call with its arguments; so is the array work of
    [exportNumpySlice] and of [exportTransformToWorldSequence] (the browsing
    of the sequences, the numpy arrays and the files saved), which starts
    once the method has passed its own checks. *)
Inductive Call :=
  | LoggingError (msg : string)
  | LoggingWarning (msg : string)
  | LoggingDebug (msg : string)
  | MessageBox (text informative : string)
  | SetAttribute (n : Node) (name value : string)
  | GetSelectedItemNumber (browser : Node) (returned : Z)
  | SelectNextItem (browser : Node) (increment returned : Z)
  | SelectFirstItem (browser : Node)
  | SetSelectedItemNumber (browser : Node) (item : Z)
  | SaveProxyNodesState (browser : Node)
  | SetDataNodeAtValue (sequence dataNode : Node) (indexValue : string)
  | UpdateAllProxyNodes
  | AddNewNodeByClass (className : string) (returned : Node)
  | ExportVisibleSegmentsToLabelmapNode (segmentation labelmap reference : Node)
  | ScaleLabelmap (labelmap : Node) (factor : Z)
  | PngWrite (fileName : string) (source : Node)
  | EraseSegment (segmentation : Node) (segment : Z)
  | Modified (n : Node)
  | ConvertSegmentationSequenceToVolumeSequence
      (browser segmentation ultrasound : Node) (value : Z)
  | ExportNumpySlice (image : Node) (imageSequence : option Node)
      (segmentation segmentationSequence : Node) (folder baseName : string)
  | ExportTransformToWorldSequence (image : Node) (imageSequence : option Node)
      (segmentation segmentationSequence : Node) (folder baseName : string).

Global Instance Call_eq_dec : EqDecision Call.
Proof. solve_decision. Defined.

(** ** Python exceptions *)

Inductive PyExn := NameError | AttributeError | TypeError | ValueError | OverflowError.

(** What a call gives: its value, or the exception it raised. *)
Inductive Result (A : Type) :=
  | Ok (a : A)
  | Raise (e : PyExn).
Arguments Ok {A}.
Arguments Raise {A}.

(** ** The host interface *)

(** A [vtkOrientedImageData] object, as a reference. *)
Definition Labelmap := positive.

Class Host (H O : Type) := {
  (** [browser.GetSequenceNode(proxy)] *)
  hostGetSequenceNode : World H O → Node → option Node → option Node;
  (** [browser.GetSelectedItemNumber()] *)
  hostSelectedItemNumber : World H O → Node → Z;
  (** value returned by [browser.SelectNextItem(increment)] *)
  hostSelectNextItem : World H O → Node → Z → Z;
  (** [browser.GetNumberOfItems()] *)
  hostGetNumberOfItems : World H O → Node → Z;
  (** [slicer.modules.sequences.toolBar().activeBrowserNode()] *)
  hostActiveBrowserNode : World H O → option Node;
  (** [segmentation.GetSegmentation().GetNumberOfSegments()] *)
  hostGetNumberOfSegments : World H O → Node → Z;
  (** [segmentation.GetBinaryLabelmapRepresentation(segmentId)] for the
      segment at an index: the call raises where the host has no such method,
      and returns [None] for a segment without a binary labelmap *)
  hostGetBinaryLabelmapRepresentation : World H O → Node → Z → Result (option Labelmap);
  (** [segmentation.GetBinaryLabelmapInternalRepresentation(segmentId)],
      likewise *)
  hostGetBinaryLabelmapInternalRepresentation :
    World H O → Node → Z → Result (option Labelmap);
  (** [image.GetTransformNodeID()] *)
  hostGetTransformNodeID : World H O → Node → option string;
  (** the exception, if any, in which the array work recorded as
      [ExportNumpySlice] or [ExportTransformToWorldSequence] ends *)
  hostArrayWorkRaises : Call → World H O → option PyExn;
  (** [node.GetName()] *)
  hostGetName : World H O → Node → string;
  (** [os.path.exists(folder)] *)
  hostPathExists : World H O → string → bool;
  (** node returned by [slicer.mrmlScene.AddNewNodeByClass(className)] *)
  hostNewNode : World H O → string → Node;
  (** whether [browser.SetSelectedItemNumber(item)] raises *)
  hostSetSelectedItemNumberRaises : World H O → Node → Z → bool;
  (** Python's [int(s)] on a string; [None] when it raises [ValueError] *)
  py_int : string → option Z;
  (** [os.path.join] *)
  path_join : string → string → string;
  (** the value a [QSpinBox] keeps when assigned (its range is in the .ui file) *)
  spinBoxBound : Z → Z;
  (** the float [0.0] and the test [x == 0] *)
  opacityZero : O;
  opacityIsZero : O → bool;
  opacityZero_isZero : opacityIsZero opacityZero = true;
  (** how the scene changes on a call that the model does not interpret *)
  hostReact : Call → World H O → World H O
}.

(** ** The callback monad: state, Python exceptions and the calls issued *)

Record State (H O : Type) := mkState {
  world : World H O;
  widget : Widget O
}.
Arguments mkState {H O}.
Arguments world {H O}.
Arguments widget {H O}.

(** What running a piece of code gives: its value or the exception it
    raised, the state it leaves, and the calls it issued, in order. *)
Record Run (H O A : Type) := mkRun {
  outcome : Result A;
  after : State H O;
  calls : list Call
}.
Arguments mkRun {H O A}.
Arguments outcome {H O A}.
Arguments after {H O A}.
Arguments calls {H O A}.

Definition M (H O A : Type) : Type := State H O → Run H O A.

Global Instance M_ret {H O} : MRet (M H O) := λ A a st, mkRun (Ok a) st [].

Global Instance M_bind {H O} : MBind (M H O) := λ A B f c st,
  let r := c st in
  match outcome r with
  | Ok a => let r' := f a (after r) in
            mkRun (outcome r') (after r') (calls r ++ calls r')
  | Raise e => mkRun (Raise e) (after r) (calls r)
  end.

(** ** Attribute names (class members of the widget) *)

Definition ATTRIBUTE_PREFIX : string := "SingleSliceSegmentation_".
Definition EXPORT_FOLDER : string := ATTRIBUTE_PREFIX +:+ "FilenamePrefix".
Definition INPUT_BROWSER : string := ATTRIBUTE_PREFIX +:+ "InputBrowser".
Definition INPUT_SKIP_NUMBER : string := ATTRIBUTE_PREFIX +:+ "InputSkipNumber".
Definition DEFAULT_INPUT_SKIP_NUMBER : Z := 4.
Definition INPUT_LAST_INDEX : string := ATTRIBUTE_PREFIX +:+ "InputLastIndex".
Definition INPUT_IMAGE_ID : string := ATTRIBUTE_PREFIX +:+ "InputImageId".
Definition SEGMENTATION : string := ATTRIBUTE_PREFIX +:+ "Segmentation".
Definition OUTPUT_BROWSER : string := ATTRIBUTE_PREFIX +:+ "OutputBrowser".
Definition ORIGINAL_IMAGE_INDEX : string := ATTRIBUTE_PREFIX +:+ "OriginalImageIndex".

Definition BROWSER_CLASS : string := "vtkMRMLSequenceBrowserNode".
Definition SEGMENTATION_CLASS : string := "vtkMRMLSegmentationNode".
Definition LABELMAP_CLASS : string := "vtkMRMLLabelMapVolumeNode".

(** Python's [str(i)] and ["%04d" % i] on an int. *)
Definition py_str (i : Z) : string := pretty i.

Definition zfill (width : nat) (s : string) : string :=
  String.concat "" (replicate (width - String.length s) "0") +:+ s.

Definition fmt_04d (i : Z) : string :=
  if decide (i < 0)%Z then "-" +:+ zfill 3 (pretty (- i)%Z) else zfill 4 (pretty i).

Section Plugin.
Context {H O : Type} `{!Host H O}.

Local Abbreviation St := (State H O).
Local Abbreviation Prog := (M H O).

(** *** Primitive steps *)

Definition applyCall (c : Call) (w : World H O) : World H O :=
  match c with
  | SetAttribute n name value =>
      mkWorld (setAttribute n name value (attributes w)) (sceneNodes w)
              (sequences w) (foregroundOpacity w) (hidden w)
  | LoggingError _ | LoggingWarning _ | LoggingDebug _
  | GetSelectedItemNumber _ _ => w
  | _ => hostReact c w
  end.

Definition perform (c : Call) : Prog unit := λ st,
  mkRun (Ok ()) (mkState (applyCall c (world st)) (widget st)) [c].

Definition raise {A} (e : PyExn) : Prog A := λ st, mkRun (Raise e) st [].

(** [try: c  except: handler] with a bare [except]. *)
Definition try_except {A} (c handler : Prog A) : Prog A := λ st,
  let r := c st in
  match outcome r with
  | Ok a => r
  | Raise _ => let r' := handler (after r) in
               mkRun (outcome r') (after r') (calls r ++ calls r')
  end.

Definition ask {A} (f : World H O → A) : Prog A := λ st, mkRun (Ok (f (world st))) st [].
Definition self {A} (f : Widget O → A) : Prog A := λ st, mkRun (Ok (f (widget st))) st [].

(** A method call on a reference that may be [None]. *)
Definition deref (o : option Node) : Prog Node :=
  match o with
  | Some n => mret n
  | None => raise AttributeError
  end.

Definition GetAttribute (n : Node) (name : string) : Prog (option string) :=
  ask (λ w, attributes w n name).

Definition readSelectedItemNumber (browser : Node) : Prog Z :=
  v ← ask (λ w, hostSelectedItemNumber w browser);
  perform (GetSelectedItemNumber browser v);;
  mret v.

Definition callSelectNextItem (browser : Node) (increment : Z) : Prog Z :=
  v ← ask (λ w, hostSelectNextItem w browser increment);
  perform (SelectNextItem browser increment v);;
  mret v.

Definition sequenceItems (w : World H O) (sequence : Node) : list SequenceItem :=
  default [] (sequences w !! sequence).

Definition GetNumberOfDataNodes (sequence : Node) : Prog Z :=
  ask (λ w, Z.of_nat (length (sequenceItems w sequence))).

Definition nthItem (w : World H O) (sequence : Node) (i : Z) : option SequenceItem :=
  if decide (0 ≤ i)%Z then sequenceItems w sequence !! Z.to_nat i else None.

(** [None] out of range. *)
Definition GetNthDataNode (sequence : Node) (i : Z) : Prog (option Node) :=
  ask (λ w, snd <$> nthItem w sequence i).

(** The empty string out of range. *)
Definition nthIndexValue (w : World H O) (sequence : Node) (i : Z) : string :=
  default "" (fst <$> nthItem w sequence i).

Definition GetNthIndexValue (sequence : Node) (i : Z) : Prog string :=
  ask (λ w, nthIndexValue w sequence i).

Definition nodesByClass (w : World H O) (className : string) : list Node :=
  (filter (λ nc, nc.2 = className) (sceneNodes w)).*1.

(** [slicer.util.getNodesByClass(className)] *)
Definition getNodesByClass (className : string) : Prog (list Node) :=
  ask (λ w, nodesByClass w className).

(** [for x in l: body x] *)
Fixpoint for_each {A} (l : list A) (body : A → Prog unit) : Prog unit :=
  match l with
  | [] => mret ()
  | x :: rest => body x;; for_each rest body
  end.

(** [range(n)] *)
Definition range (n : Z) : list Z := seqZ 0 n.

(** [int(x)] where [x] is [None] or already an int. *)
Definition int_of_object (x : option Z) : Prog Z :=
  match x with
  | Some i => mret i
  | None => raise TypeError
  end.

(** [int(s)] on a string. *)
Definition int_of_string (s : string) : Prog Z :=
  match py_int s with
  | Some i => mret i
  | None => raise ValueError
  end.

(** ** SingleSliceSegmentationLogic *)

(** The search loop of [captureSlice]: the first [i] whose stored node has
    the same [ORIGINAL_IMAGE_INDEX] value as the current segmentation. *)
Fixpoint findRecordedOriginalIndex (segmentationSequenceNode : Node)
    (originalIndex : option string) (indices : list Z) : Prog (option Z) :=
  match indices with
  | [] => mret None
  | i :: rest =>
      segmentationNode ← GetNthDataNode segmentationSequenceNode i ≫= deref;
      savedIndex ← GetAttribute segmentationNode ORIGINAL_IMAGE_INDEX;
      if decide (originalIndex = savedIndex) then mret (Some i)
      else findRecordedOriginalIndex segmentationSequenceNode originalIndex rest
  end.

Definition captureSlice (segmentationSequenceBrowser selectedSegmentation : Node)
    (inputImage : option Node) : Prog unit :=
  inputImageSequenceNode ←
    ask (λ w, hostGetSequenceNode w segmentationSequenceBrowser inputImage);
  match inputImageSequenceNode with
  | None =>
      image ← deref inputImage;
      name ← ask (λ w, hostGetName w image);
      perform (LoggingError ("Sequence not found for input image: " +:+ name))
  | Some inputImageSequenceNode =>
      segmentationSequenceNode ←
        ask (λ w, hostGetSequenceNode w segmentationSequenceBrowser
                    (Some selectedSegmentation));
      match segmentationSequenceNode with
      | None =>
          name ← ask (λ w, hostGetName w selectedSegmentation);
          perform (LoggingError ("Sequence not found for segmentation: " +:+ name))
      | Some segmentationSequenceNode =>
          originalIndex ← GetAttribute selectedSegmentation ORIGINAL_IMAGE_INDEX;
          numSegmentationNodes ← GetNumberOfDataNodes segmentationSequenceNode;
          recordedOriginalIndex ←
            findRecordedOriginalIndex segmentationSequenceNode originalIndex
              (range numSegmentationNodes);
          recordedOriginalIndex ←
            try_except (i ← int_of_object recordedOriginalIndex; mret (Some i))
                       (mret None);
          match recordedOriginalIndex with
          | None => perform (SaveProxyNodesState segmentationSequenceBrowser)
          | Some recordedOriginalIndex =>
              recordedIndexValue ←
                GetNthIndexValue inputImageSequenceNode recordedOriginalIndex;
              perform (SetDataNodeAtValue segmentationSequenceNode
                         selectedSegmentation recordedIndexValue)
          end
      end
  end.

(** A value the host computed, or the exception the call raised. *)
Definition returned {A} (r : Result A) : Prog A :=
  match r with
  | Ok a => mret a
  | Raise e => raise e
  end.

(** [try: labelMapRep = GetBinaryLabelmapRepresentation(segmentId)]
    [except: labelMapRep = GetBinaryLabelmapInternalRepresentation(segmentId)] *)
Definition getLabelMapRep (selectedSegmentation : Node) (i : Z)
    : Prog (option Labelmap) :=
  try_except
    (ask (λ w, hostGetBinaryLabelmapRepresentation w selectedSegmentation i)
       ≫= returned)
    (ask (λ w, hostGetBinaryLabelmapInternalRepresentation w selectedSegmentation i)
       ≫= returned).

(** [labelMapRep.GetExtent()] *)
Definition GetExtent (labelMapRep : option Labelmap) : Prog unit :=
  match labelMapRep with
  | Some _ => mret ()
  | None => raise AttributeError
  end.

(** The body of the loop of [eraseCurrentSegmentation] for segment [i]. *)
Definition eraseSegment (selectedSegmentation : Node) (i : Z) : Prog unit :=
  labelMapRep ← getLabelMapRep selectedSegmentation i;
  GetExtent labelMapRep;;
  perform (EraseSegment selectedSegmentation i).

Definition eraseCurrentSegmentation (selectedSegmentation : Node) : Prog unit :=
  num_segments ← ask (λ w, hostGetNumberOfSegments w selectedSegmentation);
  for_each (range num_segments) (eraseSegment selectedSegmentation);;
  if decide (1 < num_segments)%Z then perform (Modified selectedSegmentation)
  else mret ().

Definition addNewNodeByClass (className : string) : Prog Node :=
  n ← ask (λ w, hostNewNode w className);
  perform (AddNewNodeByClass className n);;
  mret n.

Definition callSetSelectedItemNumber (browser : Node) (item : Z) : Prog unit :=
  raises ← ask (λ w, hostSetSelectedItemNumberRaises w browser item);
  if raises : bool then raise OverflowError
  else perform (SetSelectedItemNumber browser item).

Definition segmentationFileName (baseName : string) (i : Z) : string :=
  baseName +:+ "_" +:+ fmt_04d i +:+ "_segmentation" +:+ ".png".

Definition ultrasoundFileName (baseName : string) (i : Z) : string :=
  baseName +:+ "_" +:+ fmt_04d i +:+ "_ultrasound" +:+ ".png".

(** The part of the loop body of [exportPngSequence] before the export:
    [true] to go on, [false] for [continue]. *)
Definition selectOriginalImage (selectedImageSequence : option Node)
    (selectedSegmentation : Node) (i : Z) : Prog bool :=
  originalIndex ← GetAttribute selectedSegmentation ORIGINAL_IMAGE_INDEX;
  match originalIndex with
  | None =>
      perform (LoggingWarning
        "Input image index attribute not found in segmentation. Input sequence will not be used.");;
      mret true
  | Some originalIndex =>
      try_except
        (browser ← deref selectedImageSequence;
         item ← int_of_string originalIndex;
         callSetSelectedItemNumber browser item;;
         mret true)
        (perform (LoggingError ("Original image not found for segmentation "
                                  +:+ py_str i +:+ " - skipping"));;
         mret false)
  end.

(** The body of the loop of [exportPngSequence] for item [i]. *)
Definition exportPngItem (selectedImage : Node) (selectedImageSequence : option Node)
    (selectedSegmentation selectedSegmentationSequence : Node)
    (outputFolder baseName : string) (labelmapNode : Node) (i : Z) : Prog unit :=
  proceed ← selectOriginalImage selectedImageSequence selectedSegmentation i;
  if proceed : bool then
    perform UpdateAllProxyNodes;;
    perform (ExportVisibleSegmentsToLabelmapNode selectedSegmentation labelmapNode
               selectedImage);;
    perform (ScaleLabelmap labelmapNode 255);;
    let segmentationFullname :=
      path_join outputFolder (segmentationFileName baseName i) in
    let ultrasoundFullname :=
      path_join outputFolder (ultrasoundFileName baseName i) in
    perform (PngWrite segmentationFullname labelmapNode);;
    perform (PngWrite ultrasoundFullname selectedImage);;
    callSelectNextItem selectedSegmentationSequence 1;;
    perform UpdateAllProxyNodes
  else mret ().

Definition exportPngSequence (selectedImage : Node) (selectedImageSequence : option Node)
    (selectedSegmentation selectedSegmentationSequence : Node)
    (outputFolder baseName : string) : Prog unit :=
  folderExists ← ask (λ w, hostPathExists w outputFolder);
  if folderExists : bool then
    labelmapNode ← addNewNodeByClass LABELMAP_CLASS;
    num_items ← ask (λ w, hostGetNumberOfItems w selectedSegmentationSequence);
    perform (SelectFirstItem selectedSegmentationSequence);;
    for_each (range num_items)
      (exportPngItem selectedImage selectedImageSequence selectedSegmentation
         selectedSegmentationSequence outputFolder baseName labelmapNode)
  else perform (LoggingError ("Export folder does not exist " +:+ outputFolder)).

(** The exception, if any, the host's array work ends in; the work is
    recorded with what it did up to there. *)
Definition arrayWork (c : Call) : Prog unit :=
  failure ← ask (hostArrayWorkRaises c);
  perform c;;
  match failure with
  | Some e => raise e
  | None => mret ()
  end.

Definition exportNumpySlice (selectedImage : Node) (selectedImageSequence : option Node)
    (selectedSegmentation selectedSegmentationSequence : Node)
    (outputFolder baseName : string) : Prog unit :=
  folderExists ← ask (λ w, hostPathExists w outputFolder);
  if folderExists : bool then
    addNewNodeByClass LABELMAP_CLASS;;
    (* [num_items = selectedImageSequence.GetNumberOfItems()] *)
    deref selectedImageSequence;;
    arrayWork (ExportNumpySlice selectedImage selectedImageSequence selectedSegmentation
                 selectedSegmentationSequence outputFolder baseName)
  else perform (LoggingError ("Export folder does not exist " +:+ outputFolder)).

Definition exportTransformToWorldSequence (selectedImage : Node)
    (selectedImageSequence : option Node)
    (selectedSegmentation selectedSegmentationSequence : Node)
    (outputFolder baseName : string) : Prog unit :=
  folderExists ← ask (λ w, hostPathExists w outputFolder);
  if folderExists : bool then
    imageTransformID ← ask (λ w, hostGetTransformNodeID w selectedImage);
    match imageTransformID with
    | None =>
        perform (LoggingWarning
          "Image is not transformed; no transform to world will be exported.")
    | Some _ =>
        (* [num_items = selectedImageSequence.GetNumberOfItems()] *)
        deref selectedImageSequence;;
        arrayWork (ExportTransformToWorldSequence selectedImage selectedImageSequence
                     selectedSegmentation selectedSegmentationSequence outputFolder
                     baseName)
    end
  else perform (LoggingError ("Export folder does not exist " +:+ outputFolder)).

(** ** SingleSliceSegmentationWidget *)

Definition setSkipImagesSpinBoxField (v : Z) : Prog unit := λ st,
  let wd := widget st in
  mkRun (Ok ())
    (mkState (world st)
       (mkWidget (inputSequenceBrowserSelector wd) (inputVolumeSelector wd)
          (inputSegmentationSelector wd) (segmentationBrowserSelector wd) v
          (outputDirectoryButton wd) (filenamePrefixEdit wd)
          (exportTransformCheckBox wd) (convertValueSpinBox wd)
          (lastForegroundOpacity wd)))
    [].

Definition setLastForegroundOpacity (v : O) : Prog unit := λ st,
  let wd := widget st in
  mkRun (Ok ())
    (mkState (world st)
       (mkWidget (inputSequenceBrowserSelector wd) (inputVolumeSelector wd)
          (inputSegmentationSelector wd) (segmentationBrowserSelector wd)
          (skipImagesSpinBox wd) (outputDirectoryButton wd) (filenamePrefixEdit wd)
          (exportTransformCheckBox wd) (convertValueSpinBox wd) v))
    [].

(** [compositeNode.SetForegroundOpacity(v)] *)
Definition SetForegroundOpacity (v : O) : Prog unit := λ st,
  let w := world st in
  mkRun (Ok ())
    (mkState (mkWorld (attributes w) (sceneNodes w) (sequences w) v (hidden w))
       (widget st))
    [].

Definition onSkipImagesNumChanged (value : Z) : Prog unit :=
  inputBrowserNode ← self inputSequenceBrowserSelector;
  match inputBrowserNode with
  | Some inputBrowserNode =>
      perform (SetAttribute inputBrowserNode INPUT_SKIP_NUMBER (py_str value))
  | None => mret ()
  end.

(** [ui.skipImagesSpinBox.value = v]: the spin box keeps the value within
    its range and, when its value changes, emits [valueChanged(int)], which
    is connected to [onSkipImagesNumChanged]. *)
Definition assignSkipImagesSpinBox (v : Z) : Prog unit :=
  old ← self skipImagesSpinBox;
  let v' := spinBoxBound v in
  setSkipImagesSpinBoxField v';;
  if decide (v' = old) then mret () else onSkipImagesNumChanged v'.

Definition onInputBrowserChanged (currentNode : option Node) : Prog unit :=
  browserNodes ← getNodesByClass BROWSER_CLASS;
  for_each browserNodes (λ browser, perform (SetAttribute browser INPUT_BROWSER "False"));;
  match currentNode with
  | None => mret ()
  | Some currentNode =>
      perform (SetAttribute currentNode INPUT_BROWSER "True");;
      savedSkip ← GetAttribute currentNode INPUT_SKIP_NUMBER;
      match savedSkip with
      | Some savedSkip => int_of_string savedSkip ≫= assignSkipImagesSpinBox
      | None =>
          numSkip ← self skipImagesSpinBox;
          perform (SetAttribute currentNode INPUT_SKIP_NUMBER (py_str numSkip))
      end;;
      name ← ask (λ w, hostGetName w currentNode);
      perform (LoggingDebug ("onSequenceBrowserSelected: " +:+ name))
  end.

Definition onSegmentationChanged (currentNode : option Node) : Prog unit :=
  segmentationNodes ← getNodesByClass SEGMENTATION_CLASS;
  for_each segmentationNodes
    (λ segmentation, perform (SetAttribute segmentation SEGMENTATION "False"));;
  match currentNode with
  | None => mret ()
  | Some currentNode => perform (SetAttribute currentNode SEGMENTATION "True")
  end.

Definition onSegmentationBrowserChanged (currentNode : option Node) : Prog unit :=
  browserNodes ← getNodesByClass BROWSER_CLASS;
  for_each browserNodes (λ browser, perform (SetAttribute browser OUTPUT_BROWSER "False"));;
  match currentNode with
  | None => mret ()
  | Some currentNode => perform (SetAttribute currentNode OUTPUT_BROWSER "True")
  end.

(** Names bound at module level: the imports and the module's own
    definitions.  No Python builtin is called [inputBrowserNode] either. *)
Definition moduleGlobals : list string :=
  ["print_function"; "os"; "vtk"; "qt"; "ctk"; "slicer"; "logging"; "np";
   "ScriptedLoadableModule"; "ScriptedLoadableModuleWidget";
   "ScriptedLoadableModuleLogic"; "ScriptedLoadableModuleTest";
   "VTKObservationMixin"; "DEFAULT_INPUT_IMAGE_NAME"; "SingleSliceSegmentation";
   "SingleSliceSegmentationWidget"; "SingleSliceSegmentationLogic";
   "SingleSliceSegmentationTest"].

(** Loading a name on which a node method is then called: [nodeLocals] are
    the local variables that hold node references, [otherLocals] the other
    local names.  A name bound nowhere raises [NameError]; an object that is
    not a node has no node method. *)
Definition loadNode (nodeLocals : list (string * option Node))
    (otherLocals : list string) (name : string) : Prog Node :=
  match list_find (λ b, b.1 = name) nodeLocals with
  | Some (_, (_, value)) => deref value
  | None =>
      if decide (name ∈ otherLocals ++ moduleGlobals) then raise AttributeError
      else raise NameError
  end.

Definition onImageChange (browserNode : option Node) : Prog unit :=
  browser ← deref browserNode;
  (* the host returns an int, so [inputImageIndex is not None] holds *)
  inputImageIndex ← readSelectedItemNumber browser;
  inputBrowserNode ←
    loadNode [("browserNode", browserNode)] ["self"; "inputImageIndex"]
      "inputBrowserNode";
  perform (SetAttribute inputBrowserNode ORIGINAL_IMAGE_INDEX (py_str inputImageIndex)).

Definition WRAPPED_TEXT : string := "Sequence wrapped around!".
Definition WRAPPED_INFORMATIVE_TEXT : string :=
  "Please save the scene before closing the application!".

(** The tail shared by [onCaptureButton] and [onSkipButton]. *)
Definition checkWrappedAround (newItemNum currentItemNum : Z) : Prog unit :=
  if decide (newItemNum < currentItemNum)%Z then
    perform (LoggingDebug WRAPPED_TEXT);;
    perform (MessageBox WRAPPED_TEXT WRAPPED_INFORMATIVE_TEXT)
  else mret ().

(** [s is None or s == "None" or s == ""] *)
Definition isNoneOrEmpty (s : option string) : bool :=
  match s with
  | None => true
  | Some s => bool_decide (s = "None") || bool_decide (s = "")
  end.

Definition onCaptureButton : Prog unit :=
  inputBrowserNode ← self inputSequenceBrowserSelector;
  inputImage ← self inputVolumeSelector;
  outputBrowserNode ← self segmentationBrowserSelector;
  selectedSegmentation ← self inputSegmentationSelector;
  numSkip ← self skipImagesSpinBox;
  match inputBrowserNode with
  | None => perform (LoggingError "No browser node selected!")
  | Some inputBrowserNode =>
  match selectedSegmentation with
  | None => perform (LoggingError "No segmentation selected!")
  | Some selectedSegmentation =>
  match outputBrowserNode with
  | None => perform (LoggingError "No segmentation sequence browser selected!")
  | Some outputBrowserNode =>
      original_index_str ← GetAttribute selectedSegmentation ORIGINAL_IMAGE_INDEX;
      activeBrowserNode ← ask hostActiveBrowserNode;
      let original_index_str :=
        if decide (activeBrowserNode = Some inputBrowserNode) then None
        else original_index_str in
      '(currentItemNum, newItemNum) ←
        (if isNoneOrEmpty original_index_str then
           inputImageIndex ← readSelectedItemNumber inputBrowserNode;
           perform (SetAttribute selectedSegmentation ORIGINAL_IMAGE_INDEX
                      (py_str inputImageIndex));;
           captureSlice outputBrowserNode selectedSegmentation inputImage;;
           eraseCurrentSegmentation selectedSegmentation;;
           perform (SetAttribute selectedSegmentation ORIGINAL_IMAGE_INDEX "None");;
           currentItemNum ← readSelectedItemNumber inputBrowserNode;
           newItemNum ← callSelectNextItem inputBrowserNode numSkip;
           mret (currentItemNum, newItemNum)
         else
           captureSlice outputBrowserNode selectedSegmentation inputImage;;
           currentItemNum ← readSelectedItemNumber outputBrowserNode;
           newItemNum ← callSelectNextItem outputBrowserNode 1;
           mret (currentItemNum, newItemNum));
      checkWrappedAround newItemNum currentItemNum
  end end end.

Definition onSkipButton : Prog unit :=
  inputBrowserNode ← self inputSequenceBrowserSelector;
  selectedSegmentation ← self inputSegmentationSelector;
  outputBrowserNode ← self segmentationBrowserSelector;
  numSkip ← self skipImagesSpinBox;
  match inputBrowserNode with
  | None => perform (LoggingError "No browser node selected!")
  | Some inputBrowserNode =>
  match selectedSegmentation with
  | None => perform (LoggingError "No segmentation selected!")
  | Some selectedSegmentation =>
      activeBrowserNode ← ask hostActiveBrowserNode;
      '(currentItemNum, newItemNum) ←
        (if decide (activeBrowserNode = outputBrowserNode) then
           browser ← deref outputBrowserNode;
           currentItemNum ← readSelectedItemNumber browser;
           newItemNum ← callSelectNextItem browser 1;
           mret (currentItemNum, newItemNum)
         else
           eraseCurrentSegmentation selectedSegmentation;;
           currentItemNum ← readSelectedItemNumber inputBrowserNode;
           newItemNum ← callSelectNextItem inputBrowserNode numSkip;
           mret (currentItemNum, newItemNum));
      checkWrappedAround newItemNum currentItemNum
  end end.

Definition onConvertButton : Prog unit :=
  inputBrowserNode ← self segmentationBrowserSelector;
  match inputBrowserNode with
  | None => perform (LoggingError "No browser node selected!")
  | Some inputBrowserNode =>
  segmentationNode ← self inputSegmentationSelector;
  match segmentationNode with
  | None => perform (LoggingError "No segmentation selected!")
  | Some segmentationNode =>
  ultrasoundNode ← self inputVolumeSelector;
  match ultrasoundNode with
  | None => perform (LoggingError "No ultrasound volume selected!")
  | Some ultrasoundNode =>
      value ← self convertValueSpinBox;
      perform (ConvertSegmentationSequenceToVolumeSequence inputBrowserNode
                 segmentationNode ultrasoundNode value)
  end end end.

Definition onExportButton : Prog unit :=
  selectedSegmentationSequence ← self segmentationBrowserSelector;
  selectedSegmentation ← self inputSegmentationSelector;
  selectedImage ← self inputVolumeSelector;
  selectedImageSequence ← self inputSequenceBrowserSelector;
  outputFolder ← self outputDirectoryButton;
  baseName ← self filenamePrefixEdit;
  match selectedSegmentation with
  | None => perform (LoggingError "No segmentation selected!")
  | Some segmentation =>
  match selectedSegmentationSequence with
  | None => perform (LoggingError "No segmentation sequence browser selected!")
  | Some segmentationSequence =>
  match selectedImage with
  | None => perform (LoggingError "No image selected!")
  | Some image =>
  (* the source tests [selectedImage] a second time here *)
  match selectedImage with
  | None => perform (LoggingError "No image sequence browser selected!")
  | Some _ =>
      exportTransform ← self exportTransformCheckBox;
      if exportTransform : bool then
        exportNumpySlice image selectedImageSequence segmentation
          segmentationSequence outputFolder baseName;;
        exportTransformToWorldSequence image selectedImageSequence
          segmentation segmentationSequence outputFolder baseName
      else
        exportPngSequence image selectedImageSequence segmentation
          segmentationSequence outputFolder baseName
  end end end end.

Definition onOverlayClicked : Prog unit :=
  currentOpacity ← ask foregroundOpacity;
  if opacityIsZero currentOpacity then
    saved ← self lastForegroundOpacity;
    SetForegroundOpacity saved
  else
    setLastForegroundOpacity currentOpacity;;
    SetForegroundOpacity opacityZero.

End Plugin.


(** ** More of the widget *)

(** The host queries about slice views and named nodes that the callbacks
    below make. *)
Class ViewHost (H O : Type) := {
  (** [compositeNode.GetLayoutName()] *)
  hostGetLayoutName : World H O → Node → option string;
  (** [layoutManager.sliceViewNames()] *)
  hostSliceViewNames : World H O → list string;
  (** [compositeNode.GetBackgroundVolumeID()] *)
  hostGetBackgroundVolumeID : World H O → Node → option string;
  (** [compositeNode.GetForegroundVolumeID()] *)
  hostGetForegroundVolumeID : World H O → Node → option string;
  (** [slicer.util.getFirstNodeByClassByName(className, name)] *)
  hostGetFirstNodeByClassByName : World H O → string → string → option Node
}.

Definition COMPOSITE_CLASS : string := "vtkMRMLSliceCompositeNode".

(** The truth value Python gives a string, and a string that may be [None]. *)
Definition truthy (s : string) : bool := negb (bool_decide (s = "")).

Definition truthyOption (s : option string) : bool :=
  match s with
  | Some s => truthy s
  | None => false
  end.

(** The layout [onLayoutSelectButton] switches to, from the current one. *)
Definition nextLayout (currentLayout : Z) : Z :=
  if decide (currentLayout = 501)%Z then 502%Z
  else if decide (currentLayout = 502)%Z then 6%Z
  else 501%Z.

Section MoreWidget.
Context {H O : Type} `{!Host H O} `{!ViewHost H O}.

Local Abbreviation Prog := (M H O).

Definition onClearButton : Prog unit :=
  selectedSegmentation ← self inputSegmentationSelector;
  match selectedSegmentation with
  | None => perform (LoggingError "No segmentation selected!")
  | Some selectedSegmentation => eraseCurrentSegmentation selectedSegmentation
  end.

(** [slicer.mrmlScene.GetNthNodeByClass(n, className)]; [None] out of range. *)
Definition GetNthNodeByClass (n : Z) (className : string) : Prog (option Node) :=
  ask (λ w, if decide (0 ≤ n)%Z then nodesByClass w className !! Z.to_nat n else None).

(** The loop of [getCompositeNode]: [continue] on a node of another layout,
    [return compNode] otherwise; falling off the loop returns [None]. *)
Fixpoint getCompositeNodeLoop (layoutName : string) (indices : list Z)
    : Prog (option Node) :=
  match indices with
  | [] => mret None
  | n :: rest =>
      compNode ← GetNthNodeByClass n COMPOSITE_CLASS;
      otherLayout ←
        (if truthy layoutName then
           node ← deref compNode;
           name ← ask (λ w, hostGetLayoutName w node);
           mret (bool_decide (name ≠ Some layoutName))
         else mret false);
      if otherLayout : bool then getCompositeNodeLoop layoutName rest
      else mret compNode
  end.

Definition getCompositeNode (layoutName : string) : Prog (option Node) :=
  count ← ask (λ w, Z.of_nat (length (nodesByClass w COMPOSITE_CLASS)));
  getCompositeNodeLoop layoutName (range count).

(** One loop of [getDefaultMasterVolumeNodeID] over the slice view names:
    the first volume ID that is true, [None] when the loop ends without
    returning. *)
Fixpoint firstVolumeID (GetVolumeID : World H O → Node → option string)
    (layoutNames : list string) : Prog (option string) :=
  match layoutNames with
  | [] => mret None
  | layoutName :: rest =>
      compositeNode ← getCompositeNode layoutName ≫= deref;
      volumeID ← ask (λ w, GetVolumeID w compositeNode);
      if truthyOption volumeID then mret volumeID
      else firstVolumeID GetVolumeID rest
  end.

Definition getDefaultMasterVolumeNodeID : Prog (option string) :=
  background ← ask hostSliceViewNames ≫= firstVolumeID hostGetBackgroundVolumeID;
  match background with
  | Some volumeID => mret (Some volumeID)
  | None =>
      foreground ← ask hostSliceViewNames ≫= firstVolumeID hostGetForegroundVolumeID;
      match foreground with
      | Some volumeID => mret (Some volumeID)
      | None => mret None
      end
  end.

(** The search for the landmarking browser in [onLayoutSelectButton]
    (the [while not found and i < 6] loop); [fuel] bounds the turns. *)
Fixpoint landmarkingScanLoop (fuel : nat) (i : Z) (found : bool)
    (browser : option Node) : Prog (option Node) :=
  match fuel with
  | 0%nat => mret browser
  | S fuel =>
      if negb found && bool_decide (i < 6)%Z then
        match browser with
        | None =>
            browser ← ask (λ w, hostGetFirstNodeByClassByName w BROWSER_CLASS
                                  ("LandmarkingScan_" +:+ py_str i));
            landmarkingScanLoop fuel (i + 1)
              (if browser is Some _ then true else false) browser
        | Some _ => landmarkingScanLoop fuel (i + 1) true browser
        end
      else mret browser
  end.

Definition landmarkingScanBrowser (fuel : nat) : Prog (option Node) :=
  browser ← ask (λ w, hostGetFirstNodeByClassByName w BROWSER_CLASS "LandmarkingScan");
  landmarkingScanLoop fuel 1 false browser.

End MoreWidget.

(** ** A reference host

    A small host in which the programs above run on concrete scenes:
    browsers keep a selected item number and wrap around at the end of
    their sequence, as a looping [vtkMRMLSequenceBrowserNode] does. *)
Module Reference.

Record Hidden := mkHidden {
  (** selected item number of each sequence browser *)
  selected : gmap Node Z;
  (** number of items of each sequence browser *)
  itemCount : gmap Node Z;
  (** (browser, proxy node) to the synchronized sequence node *)
  proxies : gmap (Node * Node) Node;
  (** active browser of the sequences toolbar *)
  activeBrowser : option Node;
  (** number of segments of each segmentation *)
  segmentCount : gmap Node Z;
  (** existing folders *)
  folders : list string;
  (** the segments, by segmentation and index, that have no binary labelmap *)
  unlabelled : list (Node * Z)
}.

Definition Scene : Type := World Hidden Q.

Definition digitValue (c : ascii) : option Z :=
  let n := nat_of_ascii c in
  if (48 <=? n) && (n <=? 57) then Some (Z.of_nat (n - 48)) else None.

Fixpoint parseDigits (s : string) (acc : Z) : option Z :=
  match s with
  | EmptyString => Some acc
  | String c rest =>
      match digitValue c with
      | Some d => parseDigits rest (10 * acc + d)%Z
      | None => None
      end
  end.

(** Decimal integers with an optional minus sign. *)
Definition parseInt (s : string) : option Z :=
  match s with
  | EmptyString => None
  | String "-"%char EmptyString => None
  | String "-"%char rest => Z.opp <$> parseDigits rest 0
  | _ => parseDigits s 0
  end.

Definition selectedItem (w : Scene) (browser : Node) : Z :=
  default 0%Z (selected (hidden w) !! browser).

Definition numberOfItems (w : Scene) (browser : Node) : Z :=
  default 0%Z (itemCount (hidden w) !! browser).

(** [SelectNextItem]: [-1] on an empty sequence, else the new item number,
    wrapping around past the last item. *)
Definition selectNextItem (w : Scene) (browser : Node) (increment : Z) : Z :=
  let n := numberOfItems w browser in
  if decide (n ≤ 0)%Z then (-1)%Z
  else ((selectedItem w browser + increment) `mod` n)%Z.

Definition setSelected (browser : Node) (item : Z) (w : Scene) : Scene :=
  let h := hidden w in
  mkWorld (attributes w) (sceneNodes w) (sequences w) (foregroundOpacity w)
    (mkHidden (<[browser := item]> (selected h)) (itemCount h) (proxies h)
       (activeBrowser h) (segmentCount h) (folders h) (unlabelled h)).

Definition freshNode (w : Scene) : Node :=
  Pos.succ (foldr Pos.max 1%positive (sceneNodes w).*1).

(** The labelmap of a segment: [None] for the segments listed as
    [unlabelled]. *)
Definition binaryLabelmap (w : Scene) (s : Node) (i : Z) : Result (option Labelmap) :=
  if decide ((s, i) ∈ unlabelled (hidden w)) then Ok None else Ok (Some 1%positive).

Definition react (c : Call) (w : Scene) : Scene :=
  match c with
  | SelectNextItem browser _ returned =>
      if decide (0 ≤ returned)%Z then setSelected browser returned w else w
  | SelectFirstItem browser =>
      if decide (0 < numberOfItems w browser)%Z then setSelected browser 0 w else w
  | SetSelectedItemNumber browser item => setSelected browser item w
  | AddNewNodeByClass className n =>
      mkWorld (attributes w) (sceneNodes w ++ [(n, className)]) (sequences w)
        (foregroundOpacity w) (hidden w)
  | _ => w
  end.

Global Instance host : Host Hidden Q := {|
  hostGetSequenceNode w browser proxy :=
    match proxy with
    | Some p => proxies (hidden w) !! (browser, p)
    | None => None
    end;
  hostSelectedItemNumber := selectedItem;
  hostSelectNextItem := selectNextItem;
  hostGetNumberOfItems := numberOfItems;
  hostActiveBrowserNode w := activeBrowser (hidden w);
  hostGetNumberOfSegments w s := default 1%Z (segmentCount (hidden w) !! s);
  hostGetBinaryLabelmapRepresentation w s i := binaryLabelmap w s i;
  hostGetBinaryLabelmapInternalRepresentation w s i := binaryLabelmap w s i;
  hostGetTransformNodeID _ _ := None;
  hostArrayWorkRaises _ _ := None;
  hostGetName w n := "Node" +:+ pretty (Zpos n);
  hostPathExists w folder := bool_decide (folder ∈ folders (hidden w));
  hostNewNode w _ := freshNode w;
  hostSetSelectedItemNumberRaises w _ item :=
    bool_decide (item < - 2 ^ 31 ∨ 2 ^ 31 ≤ item)%Z;
  py_int := parseInt;
  path_join folder name := folder +:+ "/" +:+ name;
  spinBoxBound v := Z.max 0 (Z.min 99 v);
  opacityZero := 0%Q;
  opacityIsZero q := Qeq_bool q 0;
  opacityZero_isZero := eq_refl;
  hostReact := react
|}.

(** *** A scene

    Browser 1 plays the input images (10 frames, proxy volume 3); browser 2
    holds the captured pairs (sequence 5 of images, sequence 6 of
    segmentations, proxies 3 and 4).  Node 4 is the segmentation. *)
Definition inputBrowser : Node := 1%positive.
Definition outputBrowser : Node := 2%positive.
Definition volume : Node := 3%positive.
Definition segmentation : Node := 4%positive.
Definition imageSequence : Node := 5%positive.
Definition segmentationSequence : Node := 6%positive.

Definition hidden0 (position : Z) (active : option Node) : Hidden :=
  mkHidden {[ inputBrowser := position; outputBrowser := 0%Z ]}
    {[ inputBrowser := 10%Z; outputBrowser := 1%Z ]}
    {[ (outputBrowser, volume) := imageSequence;
       (outputBrowser, segmentation) := segmentationSequence ]}
    active
    {[ segmentation := 1%Z ]}
    ["/data"]
    [].

Definition nodes0 : list (Node * string) :=
  [(inputBrowser, BROWSER_CLASS); (outputBrowser, BROWSER_CLASS);
   (volume, "vtkMRMLScalarVolumeNode"); (segmentation, SEGMENTATION_CLASS);
   (imageSequence, "vtkMRMLSequenceNode");
   (segmentationSequence, "vtkMRMLSequenceNode")].

(** One captured pair, stored as the data nodes [storedImage] and
    [storedSegmentation] at index value "0"; [stored] holds the attributes of
    the stored nodes and of the segmentation proxy. *)
Definition storedImage : Node := 21%positive.
Definition storedSegmentation : Node := 22%positive.

Definition scene (stored : Attributes) (position : Z)
    (active : option Node) : Scene :=
  mkWorld stored nodes0
    {[ imageSequence := [("0", storedImage)];
       segmentationSequence := [("0", storedSegmentation)] ]}
    (1 # 2)%Q (hidden0 position active).

Definition ui (inputBrowserSel volumeSel segmentationSel outputBrowserSel : option Node)
    : Widget Q :=
  mkWidget inputBrowserSel volumeSel segmentationSel outputBrowserSel 4
    "/data" "scan" false 1 (3 # 10)%Q.

Definition allSelected : Widget Q :=
  ui (Some inputBrowser) (Some volume) (Some segmentation) (Some outputBrowser).

(** The input browser is active on its last frame; no index attribute is set. *)
Definition lastFrame : State Hidden Q :=
  mkState (scene noAttributes 9 (Some inputBrowser)) allSelected.

(** The current segmentation and the stored one both come from frame 3. *)
Definition recaptured : State Hidden Q :=
  mkState (scene (setAttribute segmentation ORIGINAL_IMAGE_INDEX "3"
                    (setAttribute storedSegmentation ORIGINAL_IMAGE_INDEX "3"
                       noAttributes))
             3 (Some outputBrowser))
    allSelected.

(** Neither the current nor the stored segmentation has the index attribute. *)
Definition unindexed : State Hidden Q :=
  mkState (scene noAttributes 0 None) allSelected.


(** No output browser is selected. *)
Definition noOutputBrowser : State Hidden Q :=
  mkState (scene noAttributes 9 (Some inputBrowser))
    (ui (Some inputBrowser) (Some volume) (Some segmentation) None).

(** No input browser is selected. *)
Definition noInputBrowser : State Hidden Q :=
  mkState (scene (setAttribute segmentation ORIGINAL_IMAGE_INDEX "3" noAttributes)
             9 (Some outputBrowser))
    (ui None (Some volume) (Some segmentation) (Some outputBrowser)).

(** *** Slice views

    The reference host keeps what it knows of a node's name, layout name and
    volume IDs in the attribute store, under keys of its own; the slice views
    are Red, Yellow and Green. *)
Definition NAME_KEY : string := "name".
Definition LAYOUT_NAME_KEY : string := "layoutName".
Definition BACKGROUND_KEY : string := "backgroundVolumeID".
Definition FOREGROUND_KEY : string := "foregroundVolumeID".

Global Instance viewHost : ViewHost Hidden Q := {|
  hostGetLayoutName w n := attributes w n LAYOUT_NAME_KEY;
  hostSliceViewNames _ := ["Red"; "Yellow"; "Green"];
  hostGetBackgroundVolumeID w n := attributes w n BACKGROUND_KEY;
  hostGetForegroundVolumeID w n := attributes w n FOREGROUND_KEY;
  hostGetFirstNodeByClassByName w className name :=
    snd <$> list_find (λ n, attributes w n NAME_KEY = Some name)
              (nodesByClass w className)
|}.

Definition redComposite : Node := 31%positive.
Definition yellowComposite : Node := 32%positive.
Definition greenComposite : Node := 33%positive.

(** The layout names of the three composite nodes, over [stored]. *)
Definition layoutNames (stored : Attributes) : Attributes :=
  setAttribute redComposite LAYOUT_NAME_KEY "Red"
    (setAttribute yellowComposite LAYOUT_NAME_KEY "Yellow"
       (setAttribute greenComposite LAYOUT_NAME_KEY "Green" stored)).

Definition views (composites : list Node) (stored : Attributes) : State Hidden Q :=
  mkState
    (mkWorld (layoutNames stored)
       (nodes0 ++ ((λ n, (n, COMPOSITE_CLASS)) <$> composites))
       (sequences (scene noAttributes 0 None)) (1 # 2)%Q (hidden0 0 None))
    allSelected.

(** Red shows a foreground volume only, Yellow a background volume. *)
Definition backgroundInYellow : State Hidden Q :=
  views [redComposite; yellowComposite; greenComposite]
    (setAttribute redComposite FOREGROUND_KEY "vtkMRMLScalarVolumeNode2"
       (setAttribute yellowComposite BACKGROUND_KEY "vtkMRMLScalarVolumeNode1"
          noAttributes)).

(** The Green view has no composite node, and no view shows a volume. *)
Definition greenMissing : State Hidden Q :=
  views [redComposite; yellowComposite] noAttributes.

(** No view has a background volume; Red has an empty foreground volume ID
    and Yellow a foreground volume. *)
Definition foregroundInYellow : State Hidden Q :=
  views [redComposite; yellowComposite; greenComposite]
    (setAttribute redComposite FOREGROUND_KEY ""
       (setAttribute yellowComposite FOREGROUND_KEY "vtkMRMLScalarVolumeNode2"
          noAttributes)).

(** No view shows a volume. *)
Definition emptyViews : State Hidden Q :=
  views [redComposite; yellowComposite; greenComposite] noAttributes.

(** The output browser is called "LandmarkingScan_2". *)
Definition landmarking : State Hidden Q :=
  mkState (scene (setAttribute outputBrowser NAME_KEY "LandmarkingScan_2" noAttributes)
             0 None)
    allSelected.

(** No output browser is selected and the toolbar has no active browser. *)
Definition noBrowserActive : State Hidden Q :=
  mkState (scene noAttributes 9 None)
    (ui (Some inputBrowser) (Some volume) (Some segmentation) None).

(** No input volume is selected. *)
Definition noVolume : State Hidden Q :=
  mkState (scene noAttributes 9 (Some inputBrowser))
    (ui (Some inputBrowser) None (Some segmentation) (Some outputBrowser)).


(** A state in which the segmentation has [count] segments, those listed in
    [missing] without a binary labelmap. *)
Definition withSegments (count : Z) (missing : list Z) (st : State Hidden Q)
    : State Hidden Q :=
  let w := world st in
  let h := hidden w in
  mkState
    (mkWorld (attributes w) (sceneNodes w) (sequences w) (foregroundOpacity w)
       (mkHidden (selected h) (itemCount h) (proxies h) (activeBrowser h)
          {[ segmentation := count ]} (folders h)
          ((λ i, (segmentation, i)) <$> missing)))
    (widget st).


(** Three segments, the middle one without a binary labelmap. *)
Definition threeSegments : State Hidden Q := withSegments 3 [1%Z] lastFrame.

End Reference.

(** * Vocabulary of the properties *)

Section Specification.
Context {H O : Type} `{!Host H O}.

Local Abbreviation St := (State H O).
Local Abbreviation Prog := (M H O).

Definition redOpacity (st : St) : O := foregroundOpacity (world st).

(** The state of a role attribute after a selection callback: among the
    nodes of the class, the selected node and no other carries "True". *)
Definition exactlySelected (w : World H O) (className role : string)
    (currentNode : option Node) : Prop :=
  (∀ n, n ∈ nodesByClass w className →
        attributes w n role = Some "True" ↔ currentNode = Some n) ∧
  (∀ c, currentNode = Some c → attributes w c role = Some "True").

(** Steps that leave a role attribute and the scene's node list alone. *)
Definition keepsRole {A} (role : string) (c : Prog A) : Prop :=
  ∀ st, sceneNodes (world (after (c st))) = sceneNodes (world st) ∧
        ∀ n, attributes (world (after (c st))) n role
             = attributes (world st) n role.

(** The [ORIGINAL_IMAGE_INDEX] value of the current segmentation and of a
    stored item; [None] when the attribute is absent. *)
Definition currentIndex (w : World H O) (selectedSegmentation : Node) : option string :=
  attributes w selectedSegmentation ORIGINAL_IMAGE_INDEX.

Definition savedIndex (w : World H O) (item : SequenceItem) : option string :=
  attributes w item.2 ORIGINAL_IMAGE_INDEX.

(** Position [i] is the first item of the sequence whose saved value is
    [original]. *)
Definition earliestMatch (w : World H O) (sequence : Node) (original : option string)
    (i : nat) : Prop :=
  (∃ item, sequenceItems w sequence !! i = Some item ∧ savedIndex w item = original) ∧
  ∀ j item, j < i → sequenceItems w sequence !! j = Some item →
            savedIndex w item ≠ original.

Definition noMatch (w : World H O) (sequence : Node) (original : option string) : Prop :=
  ∀ i item, sequenceItems w sequence !! i = Some item → savedIndex w item ≠ original.

(** What one host call does when run. *)
Definition called (c : Call) (st : St) : Run H O () :=
  mkRun (Ok ()) (mkState (applyCall c (world st)) (widget st)) [c].

(** A run preceded by calls already issued. *)
Definition prepend {A} (cs : list Call) (r : Run H O A) : Run H O A :=
  mkRun (outcome r) (after r) (cs ++ calls r).

(** *** onCaptureButton and onSkipButton, in the words of their description *)

(** The browser advances by [increment] items, and the wraparound check
    follows. *)
Definition advance (browser : Node) (increment : Z) : Prog unit :=
  currentItemNum ← readSelectedItemNumber browser;
  newItemNum ← callSelectNextItem browser increment;
  checkWrappedAround newItemNum currentItemNum.

(** The capture counts as a new segmentation: the attribute is absent,
    "None" or empty, or the toolbar's active browser is the input browser. *)
Definition treatedAsNew (w : World H O) (selectedSegmentation inputBrowserNode : Node)
    : bool :=
  isNoneOrEmpty (attributes w selectedSegmentation ORIGINAL_IMAGE_INDEX)
  || bool_decide (hostActiveBrowserNode w = Some inputBrowserNode).

Definition captureNewSegmentation (inputBrowserNode selectedSegmentation
    outputBrowserNode : Node) (inputImage : option Node) (numSkip : Z) : Prog unit :=
  inputImageIndex ← readSelectedItemNumber inputBrowserNode;
  perform (SetAttribute selectedSegmentation ORIGINAL_IMAGE_INDEX (py_str inputImageIndex));;
  captureSlice outputBrowserNode selectedSegmentation inputImage;;
  eraseCurrentSegmentation selectedSegmentation;;
  perform (SetAttribute selectedSegmentation ORIGINAL_IMAGE_INDEX "None");;
  advance inputBrowserNode numSkip.

Definition overwriteSegmentation (selectedSegmentation outputBrowserNode : Node)
    (inputImage : option Node) : Prog unit :=
  captureSlice outputBrowserNode selectedSegmentation inputImage;;
  advance outputBrowserNode 1.

(** The calls of the wraparound branch. *)
Definition wrappedAroundCalls : list Call :=
  [LoggingDebug WRAPPED_TEXT; MessageBox WRAPPED_TEXT WRAPPED_INFORMATIVE_TEXT].

(** A call that neither advances a browser nor shows a message box. *)
Definition silent (c : Call) : Prop :=
  match c with
  | SelectNextItem _ _ _ | MessageBox _ _ => False
  | _ => True
  end.

(** Every call a program issues satisfies [P]. *)
Definition emits {A} (P : Call → Prop) (c : Prog A) : Prop :=
  ∀ st, Forall P (calls (c st)).

(** The world after a list of calls. *)
Definition worldAfter (cs : list Call) (w : World H O) : World H O :=
  foldl (λ w c, applyCall c w) w cs.

(** The calls of an advance of [browser] by [increment] in the world [w]:
    the item number the browser has in [w] is read, the browser moves on and
    returns the new item number, and the wraparound branch is taken when the
    new number is below the one read. *)
Definition advanceCalls (w : World H O) (browser : Node) (increment : Z) : list Call :=
  let currentItemNum := hostSelectedItemNumber w browser in
  let newItemNum := hostSelectNextItem w browser increment in
  [GetSelectedItemNumber browser currentItemNum;
   SelectNextItem browser increment newItemNum]
  ++ (if decide (newItemNum < currentItemNum)%Z then wrappedAroundCalls else []).

(** The calls [cs] of a callback started in the world [w] with the widget
    [wd] reach the advance: after calls that neither advance a browser nor
    show a message box, one of the two selected browsers is advanced, the
    two item numbers being those the host gives in the world reached by
    then. *)
Definition advancesAndChecks (w : World H O) (wd : Widget O) (cs : list Call) : Prop :=
  ∃ before browser increment,
    let reached := worldAfter before w in
    let currentItemNum := hostSelectedItemNumber reached browser in
    let newItemNum := hostSelectNextItem reached browser increment in
    cs = before
         ++ [GetSelectedItemNumber browser currentItemNum;
             SelectNextItem browser increment newItemNum]
         ++ (if decide (newItemNum < currentItemNum)%Z then wrappedAroundCalls else []) ∧
    Forall silent before ∧
    Some browser ∈ [inputSequenceBrowserSelector wd; segmentationBrowserSelector wd] ∧
    (MessageBox WRAPPED_TEXT WRAPPED_INFORMATIVE_TEXT ∈ cs
       ↔ (newItemNum < currentItemNum)%Z).

(** The world a program leaves is the one its calls lead to. *)
Definition traced {A} (c : Prog A) : Prop :=
  ∀ st, world (after (c st)) = worldAfter (calls (c st)) (world st).

(** *** What a capture records and erases *)



(** The labelmap the loop of [eraseCurrentSegmentation] gets for segment
    [i]: that of the first getter, or of the second when the first raises. *)
Definition labelmapOf (w : World H O) (selectedSegmentation : Node) (i : Z)
    : Result (option Labelmap) :=
  match hostGetBinaryLabelmapRepresentation w selectedSegmentation i with
  | Ok labelMapRep => Ok labelMapRep
  | Raise _ => hostGetBinaryLabelmapInternalRepresentation w selectedSegmentation i
  end.

(** The exception a turn of that loop ends in, if any. *)
Definition eraseFailure (found : Result (option Labelmap)) : option PyExn :=
  match found with
  | Ok (Some _) => None
  | Ok None => Some AttributeError
  | Raise e => Some e
  end.

(** The world in which the loop reaches segment [i]. *)
Definition erasedBelow (w : World H O) (selectedSegmentation : Node) (i : Z) : World H O :=
  worldAfter (EraseSegment selectedSegmentation <$> range i) w.

(** Segment [i] has a binary labelmap when the loop reaches it. *)
Definition erasable (w : World H O) (selectedSegmentation : Node) (i : Z) : Prop :=
  eraseFailure (labelmapOf (erasedBelow w selectedSegmentation i) selectedSegmentation i)
  = None.

Definition allErasable (w : World H O) (selectedSegmentation : Node) : Prop :=
  ∀ i, (0 ≤ i < hostGetNumberOfSegments w selectedSegmentation)%Z →
       erasable w selectedSegmentation i.

(** The calls that erase the [n] segments of a segmentation. *)
Definition eraseCalls (selectedSegmentation : Node) (n : Z) : list Call :=
  (EraseSegment selectedSegmentation <$> range n)
  ++ (if decide (1 < n)%Z then [Modified selectedSegmentation] else []).




(** The calls of a skip on the input side. *)
Definition skipCalls (w : World H O) (inputBrowserNode selectedSegmentation : Node)
    (numSkip : Z) : list Call :=
  let erased :=
    eraseCalls selectedSegmentation (hostGetNumberOfSegments w selectedSegmentation) in
  erased ++ advanceCalls (worldAfter erased w) inputBrowserNode numSkip.

(** *** The null checks of the button callbacks *)

Inductive Callback := CaptureButton | SkipButton | ConvertButton.

Definition callback (cb : Callback) : Prog unit :=
  match cb with
  | CaptureButton => onCaptureButton
  | SkipButton => onSkipButton
  | ConvertButton => onConvertButton
  end.

(** The selector nodes each callback tests against [None]. *)
Definition checkedSelectors (cb : Callback) (wd : Widget O) : list (option Node) :=
  match cb with
  | CaptureButton =>
      [inputSequenceBrowserSelector wd; inputSegmentationSelector wd;
       segmentationBrowserSelector wd]
  | SkipButton => [inputSequenceBrowserSelector wd; inputSegmentationSelector wd]
  | ConvertButton =>
      [segmentationBrowserSelector wd; inputSegmentationSelector wd;
       inputVolumeSelector wd]
  end.

(** *** exportPngSequence *)

(** What the loop body does about the original frame of the current
    segmentation. *)
Inductive FrameChoice :=
  | NoAttribute
  | Reposition (browser : Node) (item : Z)
  | Unusable.

Definition frameChoice (w : World H O) (selectedImageSequence : option Node)
    (selectedSegmentation : Node) : FrameChoice :=
  match attributes w selectedSegmentation ORIGINAL_IMAGE_INDEX with
  | None => NoAttribute
  | Some originalIndex =>
      match selectedImageSequence, py_int originalIndex with
      | Some browser, Some item =>
          if hostSetSelectedItemNumberRaises w browser item then Unusable
          else Reposition browser item
      | _, _ => Unusable
      end
  end.

(** The export of the image/label pair of item [i]. *)
Definition pairExported (selectedImage selectedSegmentation
    selectedSegmentationSequence : Node) (outputFolder baseName : string)
    (labelmapNode : Node) (i : Z) (cs : list Call) : Prop :=
  ∃ returned,
    cs = [UpdateAllProxyNodes;
          ExportVisibleSegmentsToLabelmapNode selectedSegmentation labelmapNode
            selectedImage;
          ScaleLabelmap labelmapNode 255;
          PngWrite (path_join outputFolder (segmentationFileName baseName i))
            labelmapNode;
          PngWrite (path_join outputFolder (ultrasoundFileName baseName i))
            selectedImage;
          SelectNextItem selectedSegmentationSequence 1 returned;
          UpdateAllProxyNodes].

Definition MISSING_INDEX_WARNING : string :=
  "Input image index attribute not found in segmentation. Input sequence will not be used.".

Definition skippingError (i : Z) : string :=
  "Original image not found for segmentation " +:+ py_str i +:+ " - skipping".

(** The files written, in order. *)
Definition pngFiles (cs : list Call) : list string :=
  omap (λ c, match c with PngWrite fileName _ => Some fileName | _ => None end) cs.

(** The items of a loop with the state in which each turn starts. *)
Fixpoint itemStates (body : Z → Prog unit) (indices : list Z) (st : St)
    : list (Z * St) :=
  match indices with
  | [] => []
  | i :: rest => (i, st) :: itemStates body rest (after (body i st))
  end.

(** The state in which the loop of [exportPngSequence] starts. *)
Definition exportLoopStart (selectedSegmentationSequence : Node) (st : St) : St :=
  after ((addNewNodeByClass LABELMAP_CLASS;;
          perform (SelectFirstItem selectedSegmentationSequence)) st).

(** One turn of the loop, as described: the pair of item [i] is exported
    after the warning (attribute absent) or after the image browser has been
    repositioned at the stored frame index; an item whose attribute cannot
    be used is skipped. *)
Definition turnAsDescribed (selectedImage : Node) (selectedImageSequence : option Node)
    (selectedSegmentation selectedSegmentationSequence : Node)
    (outputFolder baseName : string) (labelmapNode : Node) (i : Z) (st : St)
    (r : Run H O ()) : Prop :=
  outcome r = Ok () ∧
  match frameChoice (world st) selectedImageSequence selectedSegmentation with
  | NoAttribute =>
      ∃ cs, calls r = LoggingWarning MISSING_INDEX_WARNING :: cs ∧
            pairExported selectedImage selectedSegmentation
              selectedSegmentationSequence outputFolder baseName labelmapNode i cs
  | Reposition browser item =>
      ∃ cs, calls r = SetSelectedItemNumber browser item :: cs ∧
            pairExported selectedImage selectedSegmentation
              selectedSegmentationSequence outputFolder baseName labelmapNode i cs
  | Unusable => calls r = [LoggingError (skippingError i)] ∧ after r = st
  end.

(** The files of one turn: the pair of item [i], unless the item is skipped. *)
Definition turnFiles (selectedImageSequence : option Node) (selectedSegmentation : Node)
    (outputFolder baseName : string) (turn : Z * St) : list string :=
  match frameChoice (world turn.2) selectedImageSequence selectedSegmentation with
  | Unusable => []
  | _ => [path_join outputFolder (segmentationFileName baseName turn.1);
          path_join outputFolder (ultrasoundFileName baseName turn.1)]
  end.

(** The number of items the loop of [exportPngSequence] runs over. *)
Definition exportItemCount (selectedSegmentationSequence : Node) (st : St) : Z :=
  hostGetNumberOfItems (world (after (addNewNodeByClass LABELMAP_CLASS st)))
    selectedSegmentationSequence.

End Specification.


(** * Vocabulary of the further properties *)

Section MoreSpecification.
Context {H O : Type} `{!Host H O} `{!ViewHost H O}.

Local Abbreviation St := (State H O).
Local Abbreviation Prog := (M H O).

(** A call that records the segmentation in a sequence. *)
Definition recordsSegmentation (c : Call) : Prop :=
  match c with
  | SaveProxyNodesState _ | SetDataNodeAtValue _ _ _ => True
  | _ => False
  end.

(** A call that records nothing: no attribute is set and no sequence is
    written. *)
Definition recordsNothing (c : Call) : Prop :=
  match c with
  | SetAttribute _ _ _ | SaveProxyNodesState _ | SetDataNodeAtValue _ _ _ => False
  | _ => True
  end.

(** A composite node that [getCompositeNode layoutName] accepts. *)
Definition acceptsLayout (w : World H O) (layoutName : string) (compNode : Node) : Prop :=
  layoutName = "" ∨ hostGetLayoutName w compNode = Some layoutName.

Global Instance acceptsLayout_dec w layoutName compNode :
  Decision (acceptsLayout w layoutName compNode).
Proof. unfold acceptsLayout. apply _. Defined.

(** The first composite node of the scene that is accepted. *)
Definition compositeNodeOf (w : World H O) (layoutName : string) : option Node :=
  snd <$> list_find (acceptsLayout w layoutName) (nodesByClass w COMPOSITE_CLASS).

(** The outcome of one loop of [getDefaultMasterVolumeNodeID]: the volume ID
    of the first slice view, in the order of [sliceViewNames], whose
    composite node has one; a view without a composite node on the way
    raises. *)
Fixpoint firstViewWithVolume (w : World H O)
    (GetVolumeID : World H O → Node → option string) (layoutNames : list string)
    : Result (option string) :=
  match layoutNames with
  | [] => Ok None
  | layoutName :: rest =>
      match compositeNodeOf w layoutName with
      | Some compNode =>
          if truthyOption (GetVolumeID w compNode) then Ok (GetVolumeID w compNode)
          else firstViewWithVolume w GetVolumeID rest
      | None => Raise AttributeError
      end
  end.

(** A slice view that has a composite node but no volume of the kind
    [GetVolumeID] asks for. *)
Definition viewWithout (w : World H O)
    (GetVolumeID : World H O → Node → option string) (layoutName : string) : Prop :=
  ∃ compNode, compositeNodeOf w layoutName = Some compNode ∧
              truthyOption (GetVolumeID w compNode) = false.

(** The names [onLayoutSelectButton] tries for the landmarking browser. *)
Definition landmarkingScanNames : list string :=
  ["LandmarkingScan"; "LandmarkingScan_1"; "LandmarkingScan_2"; "LandmarkingScan_3";
   "LandmarkingScan_4"; "LandmarkingScan_5"].

(** The first of a list of names that names a sequence browser. *)
Fixpoint firstBrowserNamed (w : World H O) (names : list string) : option Node :=
  match names with
  | [] => None
  | name :: rest =>
      match hostGetFirstNodeByClassByName w BROWSER_CLASS name with
      | Some browser => Some browser
      | None => firstBrowserNamed w rest
      end
  end.

(** A call that leaves the drawing and the attributes alone: no segment is
    erased and no attribute is set. *)
Definition keepsCanvas (c : Call) : Prop :=
  match c with
  | EraseSegment _ _ | Modified _ | SetAttribute _ _ _ => False
  | _ => True
  end.

(** The selection callbacks, and the attributes each of them writes. *)
Inductive SelectionCallback :=
  | InputBrowserChanged
  | SegmentationBrowserChanged
  | SegmentationChanged.

Definition selectionCallback (cb : SelectionCallback) : option Node → Prog unit :=
  match cb with
  | InputBrowserChanged => onInputBrowserChanged
  | SegmentationBrowserChanged => onSegmentationBrowserChanged
  | SegmentationChanged => onSegmentationChanged
  end.

Definition ownAttributes (cb : SelectionCallback) : list string :=
  match cb with
  | InputBrowserChanged => [INPUT_BROWSER; INPUT_SKIP_NUMBER]
  | SegmentationBrowserChanged => [OUTPUT_BROWSER]
  | SegmentationChanged => [SEGMENTATION]
  end.

(** The message of the fourth guard of [onExportButton]. *)
Definition NO_IMAGE_BROWSER_TEXT : string := "No image sequence browser selected!".

End MoreSpecification.

(** * Properties *)

Section Properties.
Context {H O : Type} `{!Host H O}.

Local Abbreviation St := (State H O).
Local Abbreviation Prog := (M H O).

(** ** Running programs *)

Lemma run_bind {A B} (c : Prog A) (f : A → Prog B) (st : St) :
  (c ≫= f) st =
  match outcome (c st) with
  | Ok a => mkRun (outcome (f a (after (c st)))) (after (f a (after (c st))))
              (calls (c st) ++ calls (f a (after (c st))))
  | Raise e => mkRun (Raise e) (after (c st)) (calls (c st))
  end.
Proof. reflexivity. Qed.

Lemma bind_assoc {A B C} (c : Prog A) (f : A → Prog B) (g : B → Prog C) (st : St) :
  ((c ≫= f) ≫= g) st = (c ≫= λ a, f a ≫= g) st.
Proof.
  rewrite !run_bind. destruct (outcome (c st)) as [a|e]; simpl; [|done].
  rewrite !run_bind. destruct (outcome (f a _)) as [b|e]; simpl; [|done].
  by rewrite app_assoc.
Qed.

Lemma ask_run {A} (f : World H O → A) (st : St) :
  ask f st = mkRun (Ok (f (world st))) st [].
Proof. reflexivity. Qed.

Lemma self_run {A} (f : Widget O → A) (st : St) :
  self f st = mkRun (Ok (f (widget st))) st [].
Proof. reflexivity. Qed.

Lemma ret_run {A} (a : A) (st : St) : (mret a : Prog A) st = mkRun (Ok a) st [].
Proof. reflexivity. Qed.

Lemma raise_run {A} (e : PyExn) (st : St) : (raise e : Prog A) st = mkRun (Raise e) st [].
Proof. reflexivity. Qed.

Lemma setAttribute_eq (n : Node) (name value : string) (a : Attributes) :
  setAttribute n name value a n name = Some value.
Proof. unfold setAttribute. by rewrite decide_True. Qed.

Lemma setAttribute_ne (n n' : Node) (name name' value : string) (a : Attributes) :
  (n', name') ≠ (n, name) → setAttribute n name value a n' name' = a n' name'.
Proof.
  intros Hne. unfold setAttribute. rewrite decide_False; [done|].
  intros [-> ->]. done.
Qed.

Lemma perform_run (c : Call) (st : St) :
  perform c st = mkRun (Ok ()) (mkState (applyCall c (world st)) (widget st)) [c].
Proof. reflexivity. Qed.

(** Runs a program one primitive at a time. *)
Ltac run :=
  repeat first
    [ rewrite run_bind | rewrite ask_run | rewrite self_run | rewrite ret_run
    | rewrite raise_run | rewrite perform_run
    | progress cbn [outcome after calls app] ].

Lemma run_eta {A} (r : Run H O A) : mkRun (outcome r) (after r) (calls r) = r.
Proof. by destruct r. Qed.

Lemma state_eta (st : St) : mkState (world st) (widget st) = st.
Proof. by destruct st. Qed.

Local Arguments perform : simpl never.

(** The callbacks' role attributes are distinct from the skip-number one. *)
Lemma INPUT_SKIP_NUMBER_ne_INPUT_BROWSER : INPUT_SKIP_NUMBER ≠ INPUT_BROWSER.
Proof. by vm_compute. Qed.

(** ** onImageChange *)

(** C9. For every non-null browser node, [onImageChange] reads the
    browser's selected item number and then raises [NameError] when it loads
    the name [inputBrowserNode], which no scope binds; no attribute is
    recorded: the state is left as it was and no [SetAttribute] is issued. *)
Theorem onImageChange_raises_NameError (st : St) (browserNode : Node) :
  let r := onImageChange (Some browserNode) st in
  outcome r = Raise NameError ∧
  after r = st ∧
  calls r = [GetSelectedItemNumber browserNode
               (hostSelectedItemNumber (world st) browserNode)].
Proof.
  unfold onImageChange, loadNode. simpl.
  repeat split. apply state_eta.
Qed.

(** ** onOverlayClicked *)

Lemma onOverlayClicked_nonzero (st : St) :
  opacityIsZero (redOpacity st) = false →
  let r := onOverlayClicked st in
  outcome r = Ok () ∧
  redOpacity (after r) = opacityZero ∧
  lastForegroundOpacity (widget (after r)) = redOpacity st.
Proof.
  intros Hnz. unfold onOverlayClicked, redOpacity in *. simpl.
  rewrite Hnz. by simpl.
Qed.

Lemma onOverlayClicked_zero (st : St) :
  opacityIsZero (redOpacity st) = true →
  let r := onOverlayClicked st in
  outcome r = Ok () ∧
  redOpacity (after r) = lastForegroundOpacity (widget st) ∧
  lastForegroundOpacity (widget (after r)) = lastForegroundOpacity (widget st).
Proof.
  intros Hz. unfold onOverlayClicked, redOpacity in *. simpl.
  rewrite Hz. by simpl.
Qed.

Local Opaque onOverlayClicked.

(** C10. One call of [onOverlayClicked] sets the Red slice foreground
    opacity to 0 when it is nonzero, saving the old value in
    [lastForegroundOpacity], and restores the saved value when the opacity
    is 0.  Two calls in succession give back the starting opacity: the very
    same value when it is nonzero, and a value that is again equal to 0 when
    the starting opacity is equal to 0. *)
Theorem onOverlayClicked_twice (st : St) :
  let start := redOpacity st in
  let one := onOverlayClicked st in
  let two := (onOverlayClicked;; onOverlayClicked) st in
  outcome one = Ok () ∧ outcome two = Ok () ∧
  (if opacityIsZero start
   then redOpacity (after one) = lastForegroundOpacity (widget st)
   else redOpacity (after one) = opacityZero ∧
        lastForegroundOpacity (widget (after one)) = start) ∧
  (if opacityIsZero start
   then opacityIsZero (redOpacity (after two)) = true
   else redOpacity (after two) = start).
Proof.
  simpl. rewrite run_bind.
  destruct (opacityIsZero (redOpacity st)) eqn:Hstart.
  - destruct (onOverlayClicked_zero st Hstart) as (Hok & Hop & Hlast).
    rewrite Hok. simpl. repeat split; [|done|].
    + destruct (opacityIsZero (redOpacity (after (onOverlayClicked st)))) eqn:Hmid.
      * by destruct (onOverlayClicked_zero _ Hmid) as (-> & _).
      * by destruct (onOverlayClicked_nonzero _ Hmid) as (-> & _).
    + destruct (opacityIsZero (redOpacity (after (onOverlayClicked st)))) eqn:Hmid.
      * destruct (onOverlayClicked_zero _ Hmid) as (_ & -> & _).
        by rewrite Hlast, <- Hop.
      * destruct (onOverlayClicked_nonzero _ Hmid) as (_ & -> & _).
        apply opacityZero_isZero.
  - destruct (onOverlayClicked_nonzero st Hstart) as (Hok & Hop & Hlast).
    rewrite Hok. simpl.
    assert (Hmid : opacityIsZero (redOpacity (after (onOverlayClicked st))) = true)
      by (rewrite Hop; apply opacityZero_isZero).
    destruct (onOverlayClicked_zero _ Hmid) as (Hok2 & Hop2 & _).
    repeat split; [done|done|done|]. by rewrite Hop2.
Qed.

Local Transparent onOverlayClicked.

(** ** The selection callbacks *)

(** Marking every node of a list with one attribute value. *)
Lemma for_each_SetAttribute (l : list Node) (name value : string) (st : St) :
  let r := for_each l (λ n, perform (SetAttribute n name value)) st in
  outcome r = Ok () ∧
  widget (after r) = widget st ∧
  sceneNodes (world (after r)) = sceneNodes (world st) ∧
  ∀ n k, attributes (world (after r)) n k =
         if decide (n ∈ l ∧ k = name) then Some value
         else attributes (world st) n k.
Proof.
  revert st. induction l as [|x l IH]; intros st; simpl.
  - by split_and!.
  - set (st1 := mkState _ _).
    destruct (IH st1) as (Hok & Hwd & Hnodes & Hattr).
    rewrite Hok. simpl. split_and!; try done.
    intros n k. rewrite Hattr. subst st1. simpl.
    destruct (decide (n ∈ l ∧ k = name)) as [[Hin ->]|Hnot].
    + rewrite decide_True; [done|]. split; [|done]. apply elem_of_cons. by right.
    + destruct (decide ((x, name) = (n, k))) as [[= <- <-]|Hne].
      * rewrite setAttribute_eq. rewrite decide_True; [done|].
        split; [|done]. apply elem_of_cons. by left.
      * rewrite setAttribute_ne by done.
        rewrite decide_False; [done|].
        intros [Hin ->]. apply Hnot. split; [|done].
        apply elem_of_cons in Hin as [->|Hin]; [congruence|done].
Qed.

Lemma nodesByClass_ext (w1 w2 : World H O) className :
  sceneNodes w1 = sceneNodes w2 → nodesByClass w1 className = nodesByClass w2 className.
Proof. unfold nodesByClass. by intros ->. Qed.

Lemma exactlySelected_intro (w w0 : World H O) className role currentNode :
  sceneNodes w = sceneNodes w0 →
  (∀ n, attributes w n role =
        if decide (currentNode = Some n) then Some "True"
        else if decide (n ∈ nodesByClass w0 className) then Some "False"
        else attributes w0 n role) →
  exactlySelected w className role currentNode.
Proof.
  intros Hnodes Hattr. split.
  - intros n Hn. rewrite (nodesByClass_ext w w0) in Hn by done.
    rewrite Hattr. case_decide; [done|].
    rewrite decide_True by done. done.
  - intros c ->. rewrite Hattr. by rewrite decide_True.
Qed.

(** What the common head of the three callbacks leaves. *)
Lemma mark_selected (className role : string) (currentNode : option Node) (st : St) :
  let r := (nodes ← getNodesByClass className;
            for_each nodes (λ n, perform (SetAttribute n role "False"));;
            match currentNode with
            | None => mret ()
            | Some c => perform (SetAttribute c role "True")
            end) st in
  outcome r = Ok () ∧
  widget (after r) = widget st ∧
  exactlySelected (world (after r)) className role currentNode.
Proof.
  simpl.
  destruct (for_each_SetAttribute (nodesByClass (world st) className) role "False" st)
    as (Hok & Hwd & Hnodes & Hattr).
  rewrite run_bind, Hok.
  destruct currentNode as [c|]; simpl.
  - split; [done|split; [done|]].
    apply (exactlySelected_intro _ (world st)); [done|]. simpl.
    intros n. destruct (decide (Some c = Some n)) as [[= ->]|Hne].
    + by rewrite setAttribute_eq.
    + rewrite setAttribute_ne by congruence. rewrite Hattr.
      destruct (decide (n ∈ nodesByClass (world st) className)).
      * by rewrite decide_True.
      * rewrite decide_False; [done|]. by intros [? _].
  - split; [done|split; [done|]].
    apply (exactlySelected_intro _ (world st)); [done|].
    intros n. rewrite decide_False by done. rewrite Hattr.
    destruct (decide (n ∈ nodesByClass (world st) className)).
    + by rewrite decide_True.
    + rewrite decide_False; [done|]. by intros [? _].
Qed.

Lemma keepsRole_exactlySelected {A} (c : Prog A) className role cur (st : St) :
  keepsRole role c →
  exactlySelected (world st) className role cur →
  exactlySelected (world (after (c st))) className role cur.
Proof.
  intros Hk [Hcls Hcur]. destruct (Hk st) as [Hnodes Hattr].
  split.
  - intros n. unfold nodesByClass. rewrite Hnodes, Hattr. apply Hcls.
  - intros c0 Hc0. rewrite Hattr. by apply Hcur.
Qed.

Lemma keepsRole_bind {A B} role (c : Prog A) (f : A → Prog B) :
  keepsRole role c → (∀ a, keepsRole role (f a)) → keepsRole role (c ≫= f).
Proof.
  intros Hc Hf st. rewrite run_bind.
  destruct (Hc st) as [Hn Ha].
  destruct (outcome (c st)) as [a|e]; simpl; [|done].
  destruct (Hf a (after (c st))) as [Hn' Ha'].
  split; [congruence|]. intros n. by rewrite Ha', Ha.
Qed.

Lemma keepsRole_ret {A} role (a : A) : keepsRole role (mret a : Prog A).
Proof. done. Qed.

Lemma keepsRole_raise {A} role e : keepsRole role (raise e : Prog A).
Proof. done. Qed.

Lemma keepsRole_ask {A} role (f : World H O → A) : keepsRole role (ask f).
Proof. done. Qed.

Lemma keepsRole_self {A} role (f : Widget O → A) : keepsRole role (self f : Prog A).
Proof. done. Qed.

Lemma keepsRole_SetAttribute role n name value :
  name ≠ role → keepsRole role (perform (SetAttribute n name value)).
Proof.
  intros Hne st. simpl. split; [done|].
  intros n'. apply setAttribute_ne. congruence.
Qed.

Lemma keepsRole_LoggingDebug role msg : keepsRole role (perform (LoggingDebug msg)).
Proof. done. Qed.

Lemma keepsRole_assignSkipImagesSpinBox role v :
  INPUT_SKIP_NUMBER ≠ role → keepsRole role (assignSkipImagesSpinBox v).
Proof.
  intros Hne. unfold assignSkipImagesSpinBox, onSkipImagesNumChanged.
  apply keepsRole_bind; [apply keepsRole_self|]. intros old.
  apply keepsRole_bind; [done|]. intros _.
  case_decide; [apply keepsRole_ret|].
  apply keepsRole_bind; [apply keepsRole_self|]. intros [n|].
  - by apply keepsRole_SetAttribute.
  - apply keepsRole_ret.
Qed.

(** C8. After [onInputBrowserChanged], [onSegmentationBrowserChanged] or
    [onSegmentationChanged], among the nodes of the corresponding class the
    role attribute ([INPUT_BROWSER], [OUTPUT_BROWSER], [SEGMENTATION]) has
    the value "True" on the newly selected node and on no other node; with a
    null selection no node of the class carries it. So at most one node of
    the class carries "True". *)
Theorem selection_marks_exactly_one (currentNode : option Node) (st : St) :
  exactlySelected (world (after (onInputBrowserChanged currentNode st)))
    BROWSER_CLASS INPUT_BROWSER currentNode ∧
  exactlySelected (world (after (onSegmentationBrowserChanged currentNode st)))
    BROWSER_CLASS OUTPUT_BROWSER currentNode ∧
  exactlySelected (world (after (onSegmentationChanged currentNode st)))
    SEGMENTATION_CLASS SEGMENTATION currentNode.
Proof.
  split_and!.
  - destruct currentNode as [c|].
    + pose proof (mark_selected BROWSER_CLASS INPUT_BROWSER (Some c) st) as (Hok & _ & Hsel).
      set (tail := (savedSkip ← GetAttribute c INPUT_SKIP_NUMBER;
                    match savedSkip with
                    | Some savedSkip => int_of_string savedSkip ≫= assignSkipImagesSpinBox
                    | None =>
                        numSkip ← self skipImagesSpinBox;
                        perform (SetAttribute c INPUT_SKIP_NUMBER (py_str numSkip))
                    end;;
                    name ← ask (λ w, hostGetName w c);
                    perform (LoggingDebug ("onSequenceBrowserSelected: " +:+ name)))).
      assert (Htail : keepsRole INPUT_BROWSER tail).
      { apply keepsRole_bind; [apply keepsRole_ask|]. intros saved.
        apply keepsRole_bind.
        - destruct saved as [s|].
          + apply keepsRole_bind.
            * unfold int_of_string. destruct (py_int s); [apply keepsRole_ret|apply keepsRole_raise].
            * intros v. apply keepsRole_assignSkipImagesSpinBox, INPUT_SKIP_NUMBER_ne_INPUT_BROWSER.
          + apply keepsRole_bind; [apply keepsRole_self|]. intros numSkip.
            apply keepsRole_SetAttribute, INPUT_SKIP_NUMBER_ne_INPUT_BROWSER.
        - intros _. apply keepsRole_bind; [apply keepsRole_ask|]. intros name.
          apply keepsRole_LoggingDebug. }
      pose proof (keepsRole_exactlySelected tail _ _ _ _ Htail Hsel) as Hfinal.
      unfold onInputBrowserChanged. fold tail.
      rewrite <- !bind_assoc, run_bind.
      rewrite !bind_assoc, Hok. exact Hfinal.
    + apply (mark_selected BROWSER_CLASS INPUT_BROWSER None st).
  - apply (mark_selected BROWSER_CLASS OUTPUT_BROWSER currentNode st).
  - apply (mark_selected SEGMENTATION_CLASS SEGMENTATION currentNode st).
Qed.

(** ** captureSlice *)

Lemma seqZ_S (k n : nat) :
  seqZ (Z.of_nat k) (Z.of_nat (S n)) = Z.of_nat k :: seqZ (Z.of_nat (S k)) (Z.of_nat n).
Proof.
  rewrite seqZ_cons by lia. f_equal. f_equal; lia.
Qed.

Lemma nthItem_of_nat (w : World H O) sequence (k : nat) :
  nthItem w sequence (Z.of_nat k) = sequenceItems w sequence !! k.
Proof.
  unfold nthItem. rewrite decide_True by lia. by rewrite Nat2Z.id.
Qed.

(** One turn of the search loop at an item that exists. *)
Lemma findRecordedOriginalIndex_step (st : St) sequence original (k : nat) rest item :
  sequenceItems (world st) sequence !! k = Some item →
  findRecordedOriginalIndex sequence original (Z.of_nat k :: rest) st =
  if decide (original = savedIndex (world st) item)
  then mkRun (Ok (Some (Z.of_nat k))) st []
  else findRecordedOriginalIndex sequence original rest st.
Proof.
  intros Hk. cbn [findRecordedOriginalIndex].
  unfold GetNthDataNode, GetAttribute. run.
  rewrite nthItem_of_nat, Hk. cbn [fmap option_fmap option_map snd deref]. run.
  unfold savedIndex. case_decide; run; [done|].
  by rewrite run_eta.
Qed.

Lemma findRecordedOriginalIndex_none (st : St) sequence original (n k : nat) :
  k + n ≤ length (sequenceItems (world st) sequence) →
  (∀ j item, k ≤ j → sequenceItems (world st) sequence !! j = Some item →
             savedIndex (world st) item ≠ original) →
  findRecordedOriginalIndex sequence original (seqZ (Z.of_nat k) (Z.of_nat n)) st =
  mkRun (Ok None) st [].
Proof.
  revert k. induction n as [|n IH]; intros k Hlen Hno; [done|].
  rewrite seqZ_S.
  destruct (lookup_lt_is_Some_2 (sequenceItems (world st) sequence) k) as [item Hk]; [lia|].
  rewrite (findRecordedOriginalIndex_step _ _ _ _ _ item) by done.
  rewrite decide_False; [|by intros ->; eapply Hno].
  apply IH; [lia|]. intros j item' Hj. apply Hno. lia.
Qed.

Lemma findRecordedOriginalIndex_some (st : St) sequence original (n k i : nat) :
  k + n ≤ length (sequenceItems (world st) sequence) →
  k ≤ i < k + n →
  earliestMatch (world st) sequence original i →
  findRecordedOriginalIndex sequence original (seqZ (Z.of_nat k) (Z.of_nat n)) st =
  mkRun (Ok (Some (Z.of_nat i))) st [].
Proof.
  revert k. induction n as [|n IH]; intros k Hlen Hi Hfirst; [lia|].
  rewrite seqZ_S.
  destruct (lookup_lt_is_Some_2 (sequenceItems (world st) sequence) k) as [item Hk]; [lia|].
  rewrite (findRecordedOriginalIndex_step _ _ _ _ _ item) by done.
  destruct Hfirst as [(item' & Hitem' & Hsaved) Hbefore].
  destruct (decide (k = i)) as [->|Hne].
  - rewrite Hitem' in Hk. injection Hk as <-. by rewrite decide_True.
  - rewrite decide_False; [|by intros ->; eapply (Hbefore k); [lia|..]].
    apply IH; [lia|lia|]. by split; [exists item'|].
Qed.

(** Either some position is the earliest match or nothing matches. *)
Lemma earliestMatch_or_noMatch (w : World H O) sequence original :
  noMatch w sequence original ∨ ∃ i, earliestMatch w sequence original i.
Proof.
  destruct (list_find (λ item, savedIndex w item = original) (sequenceItems w sequence))
    as [[i item]|] eqn:Hfind.
  - apply list_find_Some in Hfind as (Hi & Hsaved & Hbefore).
    right. exists i. split; [by exists item|].
    intros j item' Hj Hitem'. by eapply Hbefore.
  - left. intros i item Hi Hsaved.
    rewrite list_find_None in Hfind. rewrite Forall_forall in Hfind.
    apply (Hfind item); [|done]. by eapply list_elem_of_lookup_2.
Qed.

(** C1 (amended). For every call of [captureSlice] in which the browser
    yields sequence nodes for the input image and for the segmentation:
    when position [i] holds the earliest stored data node whose
    [ORIGINAL_IMAGE_INDEX] value equals that of the current segmentation
    (two absent attributes compare equal, as [None == None] does), the only
    call issued is [SetDataNodeAtValue] of the segmentation at the index
    value found at position [i] of the input image's sequence, and
    [SaveProxyNodesState] is not called; when no stored node matches, the
    only call is [SaveProxyNodesState] on the browser.  One of the two cases
    always applies. *)
Theorem captureSlice_replaces_or_appends (st : St)
    (segmentationSequenceBrowser selectedSegmentation : Node) (inputImage : option Node)
    (inputImageSequenceNode segmentationSequenceNode : Node) :
  hostGetSequenceNode (world st) segmentationSequenceBrowser inputImage
    = Some inputImageSequenceNode →
  hostGetSequenceNode (world st) segmentationSequenceBrowser (Some selectedSegmentation)
    = Some segmentationSequenceNode →
  let w := world st in
  let original := currentIndex w selectedSegmentation in
  let r := captureSlice segmentationSequenceBrowser selectedSegmentation inputImage st in
  (∀ i, earliestMatch w segmentationSequenceNode original i →
        r = called (SetDataNodeAtValue segmentationSequenceNode selectedSegmentation
                      (nthIndexValue w inputImageSequenceNode (Z.of_nat i))) st) ∧
  (noMatch w segmentationSequenceNode original →
        r = called (SaveProxyNodesState segmentationSequenceBrowser) st) ∧
  (noMatch w segmentationSequenceNode original ∨
   ∃ i, earliestMatch w segmentationSequenceNode original i).
Proof.
  intros Himg Hseg w original r.
  assert (Hhead : ∀ found,
    findRecordedOriginalIndex segmentationSequenceNode original
      (range (Z.of_nat (length (sequenceItems w segmentationSequenceNode)))) st
    = mkRun (Ok found) st [] →
    r = match found with
        | None => called (SaveProxyNodesState segmentationSequenceBrowser) st
        | Some i => called (SetDataNodeAtValue segmentationSequenceNode
                              selectedSegmentation
                              (nthIndexValue w inputImageSequenceNode i)) st
        end).
  { intros found Hfound. subst r. unfold captureSlice.
    unfold GetAttribute, GetNumberOfDataNodes, GetNthIndexValue. run.
    rewrite Himg. run. rewrite Hseg. run.
    fold w. fold (currentIndex w selectedSegmentation). fold original.
    rewrite Hfound. run. unfold try_except.
    destruct found as [i|]; cbn [int_of_object]; run; done. }
  subst w. split_and!.
  - intros i Hi. rewrite (Hhead (Some (Z.of_nat i))); [done|].
    destruct Hi as [(item & Hitem & Hsaved) Hbefore].
    apply (findRecordedOriginalIndex_some st _ _ _ 0 i); [lia| |by split; [exists item|]].
    apply lookup_lt_Some in Hitem. lia.
  - intros Hno. rewrite (Hhead None); [done|].
    apply (findRecordedOriginalIndex_none st _ _ _ 0); [lia|].
    intros j item _. apply Hno.
  - apply earliestMatch_or_noMatch.
Qed.


(** ** Laws of the callback monad *)

Lemma ret_bind {A B} (a : A) (f : A → Prog B) (st : St) : (mret a ≫= f) st = f a st.
Proof. rewrite run_bind. simpl. apply run_eta. Qed.

Lemma ask_bind {A B} (q : World H O → A) (f : A → Prog B) (st : St) :
  (ask q ≫= f) st = f (q (world st)) st.
Proof. rewrite run_bind. simpl. apply run_eta. Qed.

Lemma self_bind {A B} (q : Widget O → A) (f : A → Prog B) (st : St) :
  (self q ≫= f) st = f (q (widget st)) st.
Proof. rewrite run_bind. simpl. apply run_eta. Qed.

Lemma perform_bind {B} (c : Call) (f : unit → Prog B) (st : St) :
  (perform c ≫= f) st
  = prepend [c] (f () (mkState (applyCall c (world st)) (widget st))).
Proof. by rewrite run_bind. Qed.

Lemma bind_run_ok {A B} (c : Prog A) (f : A → Prog B) (st st' : St) a cs :
  c st = mkRun (Ok a) st' cs → (c ≫= f) st = prepend cs (f a st').
Proof. intros Hc. rewrite run_bind, Hc. done. Qed.

(** Runs a straight-line program without copying its continuation. *)
Ltac run_seq :=
  repeat first
    [ rewrite perform_bind | rewrite ask_bind | rewrite self_bind | rewrite ret_bind ];
  rewrite ?perform_run, ?ret_run;
  cbn [prepend outcome after calls app].

Lemma bind_ext {A B} (c : Prog A) (f g : A → Prog B) (st : St) :
  (∀ a st', f a st' = g a st') → (c ≫= f) st = (c ≫= g) st.
Proof.
  intros Hfg. rewrite !run_bind. destruct (outcome (c st)); [|done].
  by rewrite Hfg.
Qed.

(** ** The button callbacks *)

Lemma readSelectedItemNumber_run (browser : Node) (st : St) :
  readSelectedItemNumber browser st =
  mkRun (Ok (hostSelectedItemNumber (world st) browser)) st
    [GetSelectedItemNumber browser (hostSelectedItemNumber (world st) browser)].
Proof. unfold readSelectedItemNumber. run. simpl. by rewrite state_eta. Qed.

Lemma callSelectNextItem_run (browser : Node) (increment : Z) (st : St) :
  let v := hostSelectNextItem (world st) browser increment in
  callSelectNextItem browser increment st =
  mkRun (Ok v) (mkState (applyCall (SelectNextItem browser increment v) (world st))
                  (widget st))
    [SelectNextItem browser increment v].
Proof. unfold callSelectNextItem. by run. Qed.

Lemma checkWrappedAround_run (newItemNum currentItemNum : Z) (st : St) :
  outcome (checkWrappedAround newItemNum currentItemNum st) = Ok () ∧
  calls (checkWrappedAround newItemNum currentItemNum st) =
    if decide (newItemNum < currentItemNum)%Z then wrappedAroundCalls else [].
Proof. unfold checkWrappedAround. case_decide; by run. Qed.

Lemma onCaptureButton_steps (st : St)
    (inputBrowserNode selectedSegmentation outputBrowserNode : Node) :
  inputSequenceBrowserSelector (widget st) = Some inputBrowserNode →
  inputSegmentationSelector (widget st) = Some selectedSegmentation →
  segmentationBrowserSelector (widget st) = Some outputBrowserNode →
  onCaptureButton st =
  if treatedAsNew (world st) selectedSegmentation inputBrowserNode
  then captureNewSegmentation inputBrowserNode selectedSegmentation outputBrowserNode
         (inputVolumeSelector (widget st)) (skipImagesSpinBox (widget st)) st
  else overwriteSegmentation selectedSegmentation outputBrowserNode
         (inputVolumeSelector (widget st)) st.
Proof.
  intros Hib Hseg Hob.
  unfold onCaptureButton, GetAttribute.
  rewrite !self_bind, Hib, Hseg, Hob, !ask_bind.
  assert (Hnew : ∀ st',
    ((inputImageIndex ← readSelectedItemNumber inputBrowserNode;
      perform (SetAttribute selectedSegmentation ORIGINAL_IMAGE_INDEX
                 (py_str inputImageIndex));;
      captureSlice outputBrowserNode selectedSegmentation (inputVolumeSelector (widget st));;
      eraseCurrentSegmentation selectedSegmentation;;
      perform (SetAttribute selectedSegmentation ORIGINAL_IMAGE_INDEX "None");;
      currentItemNum ← readSelectedItemNumber inputBrowserNode;
      newItemNum ← callSelectNextItem inputBrowserNode (skipImagesSpinBox (widget st));
      mret (currentItemNum, newItemNum)) ≫=
     (λ '(currentItemNum, newItemNum), checkWrappedAround newItemNum currentItemNum)) st'
    = captureNewSegmentation inputBrowserNode selectedSegmentation outputBrowserNode
        (inputVolumeSelector (widget st)) (skipImagesSpinBox (widget st)) st').
  { intros st'. unfold captureNewSegmentation, advance.
    repeat (rewrite bind_assoc; apply bind_ext; intros ? ?).
    by rewrite ret_bind. }
  assert (Hover : ∀ st',
    ((captureSlice outputBrowserNode selectedSegmentation (inputVolumeSelector (widget st));;
      currentItemNum ← readSelectedItemNumber outputBrowserNode;
      newItemNum ← callSelectNextItem outputBrowserNode 1;
      mret (currentItemNum, newItemNum)) ≫=
     (λ '(currentItemNum, newItemNum), checkWrappedAround newItemNum currentItemNum)) st'
    = overwriteSegmentation selectedSegmentation outputBrowserNode
        (inputVolumeSelector (widget st)) st').
  { intros st'. unfold overwriteSegmentation, advance.
    repeat (rewrite bind_assoc; apply bind_ext; intros ? ?).
    by rewrite ret_bind. }
  unfold treatedAsNew.
  destruct (decide (hostActiveBrowserNode (world st) = Some inputBrowserNode)) as [Hact|Hact].
  - rewrite (bool_decide_eq_true_2 _ Hact), orb_true_r. cbn [isNoneOrEmpty].
    apply Hnew.
  - rewrite (bool_decide_eq_false_2 _ Hact), orb_false_r.
    destruct (isNoneOrEmpty _); [apply Hnew|apply Hover].
Qed.

Lemma onSkipButton_steps (st : St) (inputBrowserNode selectedSegmentation : Node) :
  inputSequenceBrowserSelector (widget st) = Some inputBrowserNode →
  inputSegmentationSelector (widget st) = Some selectedSegmentation →
  onSkipButton st =
  if decide (hostActiveBrowserNode (world st) = segmentationBrowserSelector (widget st))
  then (browser ← deref (segmentationBrowserSelector (widget st)); advance browser 1) st
  else (eraseCurrentSegmentation selectedSegmentation;;
        advance inputBrowserNode (skipImagesSpinBox (widget st))) st.
Proof.
  intros Hib Hseg. unfold onSkipButton.
  rewrite !self_bind, Hib, Hseg, !ask_bind.
  case_decide; unfold advance;
    repeat (rewrite bind_assoc; apply bind_ext; intros ? ?); by rewrite ret_bind.
Qed.

(** *** Which calls a program can issue *)

Lemma emits_bind {A B} P (c : Prog A) (f : A → Prog B) :
  emits P c → (∀ a, emits P (f a)) → emits P (c ≫= f).
Proof.
  intros Hc Hf st. rewrite run_bind.
  destruct (outcome (c st)); simpl; [|apply Hc].
  apply Forall_app. split; [apply Hc|apply Hf].
Qed.

Lemma emits_ret {A} P (a : A) : emits P (mret a : Prog A).
Proof. intros st. constructor. Qed.

Lemma emits_raise {A} P e : emits P (raise e : Prog A).
Proof. intros st. constructor. Qed.

Lemma emits_ask {A} P (q : World H O → A) : emits P (ask q).
Proof. intros st. constructor. Qed.

Lemma emits_self {A} P (q : Widget O → A) : emits P (self q : Prog A).
Proof. intros st. constructor. Qed.

Lemma emits_perform (P : Call → Prop) c : P c → emits P (perform c).
Proof. intros Hc st. by repeat constructor. Qed.

Lemma emits_try_except {A} P (c handler : Prog A) :
  emits P c → emits P handler → emits P (try_except c handler).
Proof.
  intros Hc Hh st. unfold try_except.
  destruct (outcome (c st)); simpl; [apply Hc|].
  apply Forall_app. split; [apply Hc|apply Hh].
Qed.

Lemma emits_for_each {A} P (l : list A) (body : A → Prog unit) :
  (∀ x, emits P (body x)) → emits P (for_each l body).
Proof.
  intros Hbody. induction l as [|x l IH]; simpl.
  - apply emits_ret.
  - apply emits_bind; [apply Hbody|done].
Qed.

Lemma emits_findRecordedOriginalIndex P sequence original indices :
  emits P (findRecordedOriginalIndex sequence original indices : Prog _).
Proof.
  induction indices as [|i rest IH]; simpl; [apply emits_ret|].
  apply emits_bind.
  - apply emits_bind; [apply emits_ask|]. intros [n|]; [apply emits_ret|apply emits_raise].
  - intros n. apply emits_bind; [apply emits_ask|]. intros saved.
    case_decide; [apply emits_ret|done].
Qed.

Lemma emits_captureSlice browser segmentation image :
  emits silent (captureSlice browser segmentation image).
Proof.
  unfold captureSlice.
  apply emits_bind; [apply emits_ask|]. intros [imageSequence|].
  - apply emits_bind; [apply emits_ask|]. intros [segmentationSequence|].
    + apply emits_bind; [apply emits_ask|]. intros original.
      apply emits_bind; [apply emits_ask|]. intros n.
      apply emits_bind; [apply emits_findRecordedOriginalIndex|]. intros found.
      apply emits_bind.
      * apply emits_try_except; [|apply emits_ret].
        apply emits_bind; [|intros; apply emits_ret].
        destruct found; [apply emits_ret|apply emits_raise].
      * intros [i|]; [|by apply emits_perform].
        apply emits_bind; [apply emits_ask|]. intros v. by apply emits_perform.
    + apply emits_bind; [apply emits_ask|]. intros name. by apply emits_perform.
  - apply emits_bind; [destruct image; [apply emits_ret|apply emits_raise]|].
    intros n. apply emits_bind; [apply emits_ask|]. intros name. by apply emits_perform.
Qed.

Lemma emits_eraseSegment (P : Call → Prop) (selectedSegmentation : Node) (i : Z) :
  P (EraseSegment selectedSegmentation i) →
  emits P (eraseSegment selectedSegmentation i).
Proof.
  intros Herase. unfold eraseSegment, getLabelMapRep, returned.
  apply emits_bind.
  - apply emits_try_except;
      (apply emits_bind; [apply emits_ask|]; intros [l|e];
       [apply emits_ret|apply emits_raise]).
  - intros l. apply emits_bind; [|intros _; by apply emits_perform].
    destruct l; [apply emits_ret|apply emits_raise].
Qed.

Lemma emits_eraseCurrentSegmentation_with (P : Call → Prop) (selectedSegmentation : Node) :
  (∀ i, P (EraseSegment selectedSegmentation i)) →
  P (Modified selectedSegmentation) →
  emits P (eraseCurrentSegmentation selectedSegmentation).
Proof.
  intros Herase Hmodified. unfold eraseCurrentSegmentation.
  apply emits_bind; [apply emits_ask|]. intros n.
  apply emits_bind.
  - apply emits_for_each. intros i. by apply emits_eraseSegment.
  - intros _. case_decide; [by apply emits_perform|apply emits_ret].
Qed.

Lemma emits_eraseCurrentSegmentation segmentation :
  emits silent (eraseCurrentSegmentation segmentation).
Proof. by apply emits_eraseCurrentSegmentation_with. Qed.

Lemma emits_readSelectedItemNumber browser :
  emits silent (readSelectedItemNumber browser).
Proof.
  unfold readSelectedItemNumber.
  apply emits_bind; [apply emits_ask|]. intros v.
  apply emits_bind; [by apply emits_perform|]. intros _. apply emits_ret.
Qed.

(** *** The world follows the calls *)

Lemma worldAfter_app (cs cs' : list Call) (w : World H O) :
  worldAfter (cs ++ cs') w = worldAfter cs' (worldAfter cs w).
Proof. apply foldl_app. Qed.

Lemma traced_bind {A B} (c : Prog A) (f : A → Prog B) :
  traced c → (∀ a, traced (f a)) → traced (c ≫= f).
Proof.
  intros Hc Hf st. rewrite run_bind.
  destruct (outcome (c st)) as [a|e]; cbn [outcome after calls]; [|apply Hc].
  by rewrite worldAfter_app, <- Hc, <- Hf.
Qed.

Lemma traced_ret {A} (a : A) : traced (mret a : Prog A).
Proof. done. Qed.

Lemma traced_raise {A} e : traced (raise e : Prog A).
Proof. done. Qed.

Lemma traced_ask {A} (q : World H O → A) : traced (ask q).
Proof. done. Qed.

Lemma traced_self {A} (q : Widget O → A) : traced (self q : Prog A).
Proof. done. Qed.

Lemma traced_perform (c : Call) : traced (perform c).
Proof. done. Qed.

Lemma traced_try_except {A} (c handler : Prog A) :
  traced c → traced handler → traced (try_except c handler).
Proof.
  intros Hc Hh st. unfold try_except.
  destruct (outcome (c st)); cbn [outcome after calls]; [apply Hc|].
  by rewrite worldAfter_app, <- Hc, <- Hh.
Qed.

Lemma traced_for_each {A} (l : list A) (body : A → Prog unit) :
  (∀ x, traced (body x)) → traced (for_each l body).
Proof.
  intros Hbody. induction l as [|x l IH]; cbn [for_each].
  - apply traced_ret.
  - apply traced_bind; [apply Hbody|done].
Qed.

Lemma traced_findRecordedOriginalIndex sequence original indices :
  traced (findRecordedOriginalIndex sequence original indices : Prog _).
Proof.
  induction indices as [|i rest IH]; cbn [findRecordedOriginalIndex]; [apply traced_ret|].
  apply traced_bind.
  - apply traced_bind; [apply traced_ask|]. intros [n|]; [apply traced_ret|apply traced_raise].
  - intros n. apply traced_bind; [apply traced_ask|]. intros saved.
    case_decide; [apply traced_ret|done].
Qed.

Lemma traced_captureSlice browser segmentation image :
  traced (captureSlice browser segmentation image).
Proof.
  unfold captureSlice.
  apply traced_bind; [apply traced_ask|]. intros [imageSequence|].
  - apply traced_bind; [apply traced_ask|]. intros [segmentationSequence|].
    + apply traced_bind; [apply traced_ask|]. intros original.
      apply traced_bind; [apply traced_ask|]. intros n.
      apply traced_bind; [apply traced_findRecordedOriginalIndex|]. intros found.
      apply traced_bind.
      * apply traced_try_except; [|apply traced_ret].
        apply traced_bind; [|intros; apply traced_ret].
        destruct found; [apply traced_ret|apply traced_raise].
      * intros [i|]; [|apply traced_perform].
        apply traced_bind; [apply traced_ask|]. intros v. apply traced_perform.
    + apply traced_bind; [apply traced_ask|]. intros name. apply traced_perform.
  - apply traced_bind; [destruct image; [apply traced_ret|apply traced_raise]|].
    intros n. apply traced_bind; [apply traced_ask|]. intros name. apply traced_perform.
Qed.

Lemma traced_eraseCurrentSegmentation segmentation :
  traced (eraseCurrentSegmentation segmentation).
Proof.
  unfold eraseCurrentSegmentation.
  apply traced_bind; [apply traced_ask|]. intros n.
  apply traced_bind.
  - apply traced_for_each. intros i. unfold eraseSegment, getLabelMapRep, returned.
    apply traced_bind.
    + apply traced_try_except;
        (apply traced_bind; [apply traced_ask|]; intros [l|e];
         [apply traced_ret|apply traced_raise]).
    + intros l. apply traced_bind; [|intros _; apply traced_perform].
      destruct l; [apply traced_ret|apply traced_raise].
  - intros _. case_decide; [apply traced_perform|apply traced_ret].
Qed.

Lemma traced_readSelectedItemNumber browser : traced (readSelectedItemNumber browser).
Proof.
  unfold readSelectedItemNumber.
  apply traced_bind; [apply traced_ask|]. intros v.
  apply traced_bind; [apply traced_perform|]. intros _. apply traced_ret.
Qed.

(** *** What captureSlice records *)




(** *** What eraseCurrentSegmentation erases *)

Lemma getLabelMapRep_run (selectedSegmentation : Node) (i : Z) (st : St) :
  getLabelMapRep selectedSegmentation i st
  = mkRun (labelmapOf (world st) selectedSegmentation i) st [].
Proof.
  unfold getLabelMapRep, try_except, labelmapOf, returned. rewrite !ask_bind.
  destruct (hostGetBinaryLabelmapRepresentation (world st) selectedSegmentation i)
    as [l|e]; [done|].
  cbn [raise outcome after calls app].
  by destruct (hostGetBinaryLabelmapInternalRepresentation (world st)
                 selectedSegmentation i).
Qed.

Lemma eraseSegment_run (selectedSegmentation : Node) (i : Z) (st : St) :
  eraseSegment selectedSegmentation i st
  = match eraseFailure (labelmapOf (world st) selectedSegmentation i) with
    | None => called (EraseSegment selectedSegmentation i) st
    | Some e => mkRun (Raise e) st []
    end.
Proof.
  unfold eraseSegment. rewrite run_bind, getLabelMapRep_run.
  destruct (labelmapOf (world st) selectedSegmentation i) as [[l|]|e];
    cbn [outcome after calls eraseFailure GetExtent app]; [|done|done].
  by rewrite ret_bind.
Qed.

Lemma eraseSegment_erasable (w : World H O) (selectedSegmentation : Node) (k : nat)
    (st : St) :
  world st = erasedBelow w selectedSegmentation (Z.of_nat k) →
  erasable w selectedSegmentation (Z.of_nat k) →
  eraseSegment selectedSegmentation (Z.of_nat k) st
  = mkRun (Ok ())
      (mkState (applyCall (EraseSegment selectedSegmentation (Z.of_nat k)) (world st))
         (widget st))
      [EraseSegment selectedSegmentation (Z.of_nat k)].
Proof.
  intros Hworld Herasable. unfold erasable in Herasable.
  rewrite eraseSegment_run, Hworld, Herasable. unfold called. by rewrite Hworld.
Qed.

Lemma erasedBelow_S (w : World H O) (selectedSegmentation : Node) (k : nat) :
  erasedBelow w selectedSegmentation (Z.of_nat (S k))
  = applyCall (EraseSegment selectedSegmentation (Z.of_nat k))
      (erasedBelow w selectedSegmentation (Z.of_nat k)).
Proof.
  unfold erasedBelow, range.
  replace (Z.of_nat (S k)) with (Z.of_nat k + 1)%Z by lia.
  rewrite seqZ_app by lia. rewrite fmap_app, worldAfter_app. done.
Qed.

Lemma eraseLoop_completes (w : World H O) (selectedSegmentation : Node)
    (m k : nat) (st : St) :
  world st = erasedBelow w selectedSegmentation (Z.of_nat k) →
  (∀ i : nat, k ≤ i < k + m → erasable w selectedSegmentation (Z.of_nat i)) →
  for_each (seqZ (Z.of_nat k) (Z.of_nat m)) (eraseSegment selectedSegmentation) st
  = mkRun (Ok ())
      (mkState (erasedBelow w selectedSegmentation (Z.of_nat (k + m))) (widget st))
      (EraseSegment selectedSegmentation <$> seqZ (Z.of_nat k) (Z.of_nat m)).
Proof.
  revert k st. induction m as [|m IH]; intros k st Hworld Herasable.
  - cbn [for_each seqZ]. rewrite Nat.add_0_r, <- Hworld. by rewrite state_eta.
  - rewrite seqZ_S. cbn [for_each fmap list_fmap].
    rewrite (bind_run_ok _ _ st _ () _ (eraseSegment_erasable _ _ _ _ Hworld
               (Herasable k ltac:(lia)))).
    rewrite (IH (S k)).
    + unfold prepend. cbn [outcome after calls widget app].
      by replace (S k + m) with (k + S m) by lia.
    + cbn [world]. by rewrite erasedBelow_S, Hworld.
    + intros i Hi. apply Herasable. lia.
Qed.

Lemma eraseLoop_stops (w : World H O) (selectedSegmentation : Node)
    (e : PyExn) (j m k : nat) (st : St) :
  world st = erasedBelow w selectedSegmentation (Z.of_nat k) →
  k ≤ j < k + m →
  (∀ i : nat, k ≤ i < j → erasable w selectedSegmentation (Z.of_nat i)) →
  eraseFailure (labelmapOf (erasedBelow w selectedSegmentation (Z.of_nat j))
                  selectedSegmentation (Z.of_nat j)) = Some e →
  for_each (seqZ (Z.of_nat k) (Z.of_nat m)) (eraseSegment selectedSegmentation) st
  = mkRun (Raise e)
      (mkState (erasedBelow w selectedSegmentation (Z.of_nat j)) (widget st))
      (EraseSegment selectedSegmentation <$> seqZ (Z.of_nat k) (Z.of_nat (j - k))).
Proof.
  revert k st. induction m as [|m IH]; intros k st Hworld Hj Herasable Hfails; [lia|].
  rewrite seqZ_S. cbn [for_each].
  destruct (decide (k = j)) as [->|Hne].
  - rewrite run_bind, eraseSegment_run, Hworld, Hfails, Nat.sub_diag.
    cbn [outcome after calls seqZ fmap list_fmap].
    by rewrite <- Hworld, state_eta.
  - rewrite (bind_run_ok _ _ st _ () _ (eraseSegment_erasable _ _ _ _ Hworld
               (Herasable k ltac:(lia)))).
    rewrite (IH (S k)); [| |lia| |done].
    + unfold prepend. cbn [outcome after calls widget app].
      replace (j - k) with (S (j - S k)) by lia. by rewrite seqZ_S.
    + cbn [world]. by rewrite erasedBelow_S, Hworld.
    + intros i Hi. apply Herasable. lia.
Qed.

Lemma erase_completes_run (selectedSegmentation : Node) (st : St) :
  allErasable (world st) selectedSegmentation →
  let erased := eraseCalls selectedSegmentation
                  (hostGetNumberOfSegments (world st) selectedSegmentation) in
  eraseCurrentSegmentation selectedSegmentation st
  = mkRun (Ok ()) (mkState (worldAfter erased (world st)) (widget st)) erased.
Proof.
  intros Herasable. cbv zeta. unfold eraseCurrentSegmentation, eraseCalls, range.
  rewrite ask_bind.
  set (n := hostGetNumberOfSegments (world st) selectedSegmentation) in *.
  assert (Hloop :
    for_each (seqZ 0 n) (eraseSegment selectedSegmentation) st
    = mkRun (Ok ()) (mkState (erasedBelow (world st) selectedSegmentation n) (widget st))
        (EraseSegment selectedSegmentation <$> seqZ 0 n)).
  { destruct (decide (0 ≤ n)%Z) as [Hn|Hn].
    - pose proof (eraseLoop_completes (world st) selectedSegmentation (Z.to_nat n) 0 st)
        as Hrun.
      rewrite Nat.add_0_l, Z2Nat.id in Hrun by done. apply Hrun; [done|].
      intros i Hi. apply Herasable. fold n. lia.
    - unfold erasedBelow, range. rewrite (seqZ_nil 0 n) by lia.
      cbn [for_each fmap list_fmap worldAfter foldl].
      by rewrite ret_run, state_eta. }
  rewrite (bind_run_ok _ _ _ _ _ _ Hloop).
  unfold erasedBelow, range. rewrite worldAfter_app.
  case_decide; [by rewrite perform_run|].
  rewrite ret_run. cbn [prepend outcome after calls worldAfter foldl]. done.
Qed.

Lemma erase_stops_run (selectedSegmentation : Node) (st : St)
    (k : Z) (e : PyExn) :
  (0 ≤ k < hostGetNumberOfSegments (world st) selectedSegmentation)%Z →
  (∀ i, (0 ≤ i < k)%Z → erasable (world st) selectedSegmentation i) →
  eraseFailure (labelmapOf (erasedBelow (world st) selectedSegmentation k)
                  selectedSegmentation k) = Some e →
  eraseCurrentSegmentation selectedSegmentation st
  = mkRun (Raise e)
      (mkState (erasedBelow (world st) selectedSegmentation k) (widget st))
      (EraseSegment selectedSegmentation <$> range k).
Proof.
  intros Hk Herasable Hfails. unfold eraseCurrentSegmentation, range. rewrite ask_bind.
  set (n := hostGetNumberOfSegments (world st) selectedSegmentation) in *.
  pose proof (eraseLoop_stops (world st) selectedSegmentation e (Z.to_nat k)
                (Z.to_nat n) 0 st) as Hrun.
  rewrite Nat.sub_0_r, !Z2Nat.id in Hrun by lia.
  change (Z.of_nat 0) with 0%Z in Hrun.
  rewrite run_bind, Hrun; [done|done|lia| |done].
  intros i Hi. apply Herasable. lia.
Qed.

(** *** Advancing a browser *)

Lemma advance_run (browser : Node) (increment : Z) (st : St) :
  outcome (advance browser increment st) = Ok () ∧
  calls (advance browser increment st) = advanceCalls (world st) browser increment.
Proof.
  unfold advance, advanceCalls.
  rewrite run_bind, readSelectedItemNumber_run. cbn [outcome after calls].
  rewrite run_bind, callSelectNextItem_run. cbn [outcome after calls].
  pose proof (checkWrappedAround_run
    (hostSelectNextItem (world st) browser increment)
    (hostSelectedItemNumber (world st) browser)
    {| world := applyCall (SelectNextItem browser increment
                             (hostSelectNextItem (world st) browser increment)) (world st);
       widget := widget st |}) as [Hok Hcalls].
  by rewrite Hok, Hcalls.
Qed.

(** *** onCaptureButton *)




(** *** The wraparound check *)

Lemma advancesAndChecks_intro (w : World H O) (wd : Widget O) (before : list Call)
    browser increment :
  Forall silent before →
  Some browser ∈ [inputSequenceBrowserSelector wd; segmentationBrowserSelector wd] →
  advancesAndChecks w wd (before ++ advanceCalls (worldAfter before w) browser increment).
Proof.
  intros Hbefore Hbrowser. exists before, browser, increment. cbv zeta.
  split_and!; [done|done|done|]. unfold advanceCalls. rewrite !elem_of_app. split.
  - intros [Hin|[Hin|Hin]].
    + rewrite Forall_forall in Hbefore. by apply Hbefore in Hin.
    + apply elem_of_cons in Hin as [?|Hin]; [done|].
      apply elem_of_cons in Hin as [?|Hin]; [done|]. by apply elem_of_nil in Hin.
    + case_decide; [done|]. by apply elem_of_nil in Hin.
  - intros Hlt. right. right. rewrite decide_True by done.
    unfold wrappedAroundCalls. apply elem_of_cons. right. apply elem_of_cons. by left.
Qed.

Lemma prefix_then_advance (p : Prog unit) browser increment (st : St) :
  emits silent p →
  traced p →
  Some browser ∈ [inputSequenceBrowserSelector (widget st);
                  segmentationBrowserSelector (widget st)] →
  outcome ((p;; advance browser increment) st) = Ok () →
  advancesAndChecks (world st) (widget st) (calls ((p;; advance browser increment) st)).
Proof.
  intros Hp Htraced Hbrowser. rewrite run_bind. cbv beta.
  destruct (outcome (p st)) as [[]|e] eqn:Hout; cbn [outcome after calls]; [|done].
  intros _.
  destruct (advance_run browser increment (after (p st))) as [_ ->].
  rewrite Htraced. by apply advancesAndChecks_intro; [apply Hp|].
Qed.

Lemma selected_of_not_None (o : option Node) (l : list (option Node)) :
  None ∉ o :: l → (∃ n, o = Some n) ∧ None ∉ l.
Proof.
  intros Hnot. apply not_elem_of_cons in Hnot as [Ho Hl].
  split; [|done]. destruct o; [by eexists|done].
Qed.

(** C3. In [onCaptureButton] and [onSkipButton], once the callback has
    passed its null checks and run to its end, its calls are: some calls
    that neither advance a browser nor show a message box; then the reading
    of the selected item number of one of the two selected browsers, which
    is the number the host gives for that browser in the world those calls
    lead to; then the advance of that browser, with the item number the host
    returns for it in that world; then the wraparound branch.  The
    "Sequence wrapped around!" message box is shown if and only if the item
    number returned by the advance is strictly smaller than the one read
    just before it. *)
Theorem wraparound_detected_iff (cb : Callback) (st : St) :
  cb ≠ ConvertButton →
  None ∉ checkedSelectors cb (widget st) →
  outcome (callback cb st) = Ok () →
  advancesAndChecks (world st) (widget st) (calls (callback cb st)).
Proof.
  intros Hcb Hsel Hok. destruct cb; [| |done]; cbn [callback checkedSelectors] in *.
  - apply selected_of_not_None in Hsel as [[ib Hib] Hsel].
    apply selected_of_not_None in Hsel as [[seg Hseg] Hsel].
    apply selected_of_not_None in Hsel as [[ob Hob] _].
    rewrite (onCaptureButton_steps st ib seg ob) in * by done.
    destruct (treatedAsNew (world st) seg ib).
    + set (p := (inputImageIndex ← readSelectedItemNumber ib;
                 perform (SetAttribute seg ORIGINAL_IMAGE_INDEX (py_str inputImageIndex));;
                 captureSlice ob seg (inputVolumeSelector (widget st));;
                 eraseCurrentSegmentation seg;;
                 perform (SetAttribute seg ORIGINAL_IMAGE_INDEX "None")) : Prog unit).
      assert (Heq : captureNewSegmentation ib seg ob (inputVolumeSelector (widget st))
                      (skipImagesSpinBox (widget st)) st
                    = (p;; advance ib (skipImagesSpinBox (widget st))) st).
      { symmetry. unfold p, captureNewSegmentation.
        repeat (rewrite bind_assoc; apply bind_ext; intros ? ?). done. }
      rewrite Heq in *. apply prefix_then_advance; [| | |done].
      * unfold p. apply emits_bind; [apply emits_readSelectedItemNumber|]. intros idx.
        apply emits_bind; [by apply emits_perform|]. intros _.
        apply emits_bind; [apply emits_captureSlice|]. intros _.
        apply emits_bind; [apply emits_eraseCurrentSegmentation|]. intros _.
        by apply emits_perform.
      * unfold p. apply traced_bind; [apply traced_readSelectedItemNumber|]. intros idx.
        apply traced_bind; [apply traced_perform|]. intros _.
        apply traced_bind; [apply traced_captureSlice|]. intros _.
        apply traced_bind; [apply traced_eraseCurrentSegmentation|]. intros _.
        apply traced_perform.
      * rewrite Hib. apply elem_of_cons. by left.
    + unfold overwriteSegmentation in *.
      apply prefix_then_advance;
        [apply emits_captureSlice|apply traced_captureSlice| |done].
      rewrite Hob. apply elem_of_cons. right. apply elem_of_cons. by left.
  - apply selected_of_not_None in Hsel as [[ib Hib] Hsel].
    apply selected_of_not_None in Hsel as [[seg Hseg] _].
    rewrite (onSkipButton_steps st ib seg) in * by done.
    case_decide.
    + destruct (segmentationBrowserSelector (widget st)) as [ob|] eqn:Hob; [|done].
      cbn [deref] in *. rewrite ret_bind in *.
      destruct (advance_run ob 1 st) as [_ ->].
      apply (advancesAndChecks_intro _ _ []); [done|].
      rewrite Hob. apply elem_of_cons. right. apply elem_of_cons. by left.
    + apply prefix_then_advance;
        [apply emits_eraseCurrentSegmentation|apply traced_eraseCurrentSegmentation|
        |done].
      rewrite Hib. apply elem_of_cons. by left.
Qed.

(** C7 (amended). Each button callback tests its own selector nodes:
    [onCaptureButton] the input browser, the segmentation and the output
    browser; [onSkipButton] the input browser and the segmentation;
    [onConvertButton] the segmentation browser, the segmentation and the
    ultrasound volume.  When one of the nodes a callback tests is null, the
    callback logs one error and returns: no other call is issued and the
    state is unchanged. *)
Theorem null_selector_logs_error_and_returns (cb : Callback) (st : St) :
  None ∈ checkedSelectors cb (widget st) →
  ∃ msg, callback cb st = mkRun (Ok ()) st [LoggingError msg].
Proof.
  intros Hnone.
  assert (Hlog : ∀ msg, perform (LoggingError msg) st
                        = mkRun (Ok ()) st [LoggingError msg]).
  { intros msg. unfold perform. cbn [applyCall]. by rewrite state_eta. }
  destruct cb; cbn [callback checkedSelectors] in *.
  - unfold onCaptureButton. rewrite !self_bind.
    destruct (inputSequenceBrowserSelector (widget st)); [|by eexists].
    destruct (inputSegmentationSelector (widget st)); [|by eexists].
    destruct (segmentationBrowserSelector (widget st)); [|by eexists].
    exfalso. repeat (apply elem_of_cons in Hnone as [?|Hnone]; [done|]).
    by apply elem_of_nil in Hnone.
  - unfold onSkipButton. rewrite !self_bind.
    destruct (inputSequenceBrowserSelector (widget st)); [|by eexists].
    destruct (inputSegmentationSelector (widget st)); [|by eexists].
    exfalso. repeat (apply elem_of_cons in Hnone as [?|Hnone]; [done|]).
    by apply elem_of_nil in Hnone.
  - unfold onConvertButton. rewrite !self_bind.
    destruct (segmentationBrowserSelector (widget st)); [|by eexists].
    rewrite !self_bind.
    destruct (inputSegmentationSelector (widget st)); [|by eexists].
    rewrite !self_bind.
    destruct (inputVolumeSelector (widget st)); [|by eexists].
    exfalso. repeat (apply elem_of_cons in Hnone as [?|Hnone]; [done|]).
    by apply elem_of_nil in Hnone.
Qed.

(** ** onExportButton *)

(** With a segmentation, a segmentation browser and an image selected, the
    export runs whatever the image sequence browser selector holds. *)
Lemma onExportButton_steps (st : St) (segmentation segmentationSequence image : Node) :
  inputSegmentationSelector (widget st) = Some segmentation →
  segmentationBrowserSelector (widget st) = Some segmentationSequence →
  inputVolumeSelector (widget st) = Some image →
  let imageSequence := inputSequenceBrowserSelector (widget st) in
  let outputFolder := outputDirectoryButton (widget st) in
  let baseName := filenamePrefixEdit (widget st) in
  onExportButton st =
  if exportTransformCheckBox (widget st)
  then (exportNumpySlice image imageSequence segmentation segmentationSequence
          outputFolder baseName;;
        exportTransformToWorldSequence image imageSequence segmentation
          segmentationSequence outputFolder baseName) st
  else exportPngSequence image imageSequence segmentation segmentationSequence
         outputFolder baseName st.
Proof.
  intros Hseg Hbrowser Himage. unfold onExportButton.
  rewrite !self_bind, Hseg, Hbrowser, Himage, !self_bind.
  by destruct (exportTransformCheckBox (widget st)).
Qed.

(** ** exportPngSequence *)

Lemma selectOriginalImage_run (selectedImageSequence : option Node)
    (selectedSegmentation : Node) (i : Z) (st : St) :
  selectOriginalImage selectedImageSequence selectedSegmentation i st =
  match frameChoice (world st) selectedImageSequence selectedSegmentation with
  | NoAttribute => mkRun (Ok true) st [LoggingWarning MISSING_INDEX_WARNING]
  | Reposition browser item =>
      mkRun (Ok true)
        (mkState (applyCall (SetSelectedItemNumber browser item) (world st)) (widget st))
        [SetSelectedItemNumber browser item]
  | Unusable => mkRun (Ok false) st [LoggingError (skippingError i)]
  end.
Proof.
  unfold selectOriginalImage, frameChoice, GetAttribute. rewrite ask_bind.
  destruct (attributes (world st) selectedSegmentation ORIGINAL_IMAGE_INDEX)
    as [originalIndex|].
  - unfold try_except, int_of_string, callSetSelectedItemNumber.
    destruct selectedImageSequence as [browser|]; cbn [deref].
    + rewrite ret_bind. destruct (py_int originalIndex) as [item|].
      * rewrite ret_bind, run_bind, ask_bind.
        destruct (hostSetSelectedItemNumberRaises (world st) browser item); run.
        -- cbn [applyCall]. by rewrite state_eta.
        -- done.
      * run. cbn [applyCall]. by rewrite state_eta.
    + run. cbn [applyCall]. by rewrite state_eta.
  - run. cbn [applyCall]. by rewrite state_eta.
Qed.

Lemma exportPngItem_run (selectedImage : Node) (selectedImageSequence : option Node)
    (selectedSegmentation selectedSegmentationSequence : Node)
    (outputFolder baseName : string) (labelmapNode : Node) (i : Z) (st : St) :
  turnAsDescribed selectedImage selectedImageSequence selectedSegmentation
    selectedSegmentationSequence outputFolder baseName labelmapNode i st
    (exportPngItem selectedImage selectedImageSequence selectedSegmentation
       selectedSegmentationSequence outputFolder baseName labelmapNode i st).
Proof.
  unfold turnAsDescribed, exportPngItem.
  rewrite run_bind, selectOriginalImage_run.
  destruct (frameChoice (world st) selectedImageSequence selectedSegmentation);
    cbn [outcome after calls].
  - unfold callSelectNextItem. run_seq. split; [done|].
    eexists. split; [done|]. by eexists.
  - unfold callSelectNextItem. run_seq. split; [done|].
    eexists. split; [done|]. by eexists.
  - by run_seq.
Qed.

Lemma for_each_itemStates (body : Z → Prog unit) (indices : list Z) (st : St) :
  (∀ i s, outcome (body i s) = Ok ()) →
  outcome (for_each indices body st) = Ok () ∧
  calls (for_each indices body st)
    = concat (map (λ turn, calls (body turn.1 turn.2)) (itemStates body indices st)) ∧
  (itemStates body indices st).*1 = indices.
Proof.
  intros Hbody. revert st. induction indices as [|i rest IH]; intros st; [done|].
  cbn [for_each itemStates map concat fmap list_fmap fst snd].
  rewrite run_bind, Hbody. cbn [outcome after calls].
  destruct (IH (after (body i st))) as (-> & -> & Hfst).
  split_and!; [done|done|]. f_equal. exact Hfst.
Qed.

Lemma addNewNodeByClass_run (className : string) (st : St) :
  let n := hostNewNode (world st) className in
  addNewNodeByClass className st =
  mkRun (Ok n) (mkState (applyCall (AddNewNodeByClass className n) (world st)) (widget st))
    [AddNewNodeByClass className n].
Proof. unfold addNewNodeByClass. by run_seq. Qed.

Lemma exportPngSequence_run (selectedImage : Node) (selectedImageSequence : option Node)
    (selectedSegmentation selectedSegmentationSequence : Node)
    (outputFolder baseName : string) (st : St) :
  let r := exportPngSequence selectedImage selectedImageSequence selectedSegmentation
             selectedSegmentationSequence outputFolder baseName st in
  let labelmapNode := hostNewNode (world st) LABELMAP_CLASS in
  let body := exportPngItem selectedImage selectedImageSequence selectedSegmentation
                selectedSegmentationSequence outputFolder baseName labelmapNode in
  let turns := itemStates body (range (exportItemCount selectedSegmentationSequence st))
                 (exportLoopStart selectedSegmentationSequence st) in
  if hostPathExists (world st) outputFolder then
    outcome r = Ok () ∧
    calls r = [AddNewNodeByClass LABELMAP_CLASS labelmapNode;
               SelectFirstItem selectedSegmentationSequence]
              ++ concat (map (λ turn, calls (body turn.1 turn.2)) turns) ∧
    turns.*1 = range (exportItemCount selectedSegmentationSequence st)
  else r = mkRun (Ok ()) st
             [LoggingError ("Export folder does not exist " +:+ outputFolder)].
Proof.
  cbv zeta. unfold exportPngSequence. rewrite ask_bind.
  destruct (hostPathExists (world st) outputFolder).
  - unfold exportItemCount, exportLoopStart.
    rewrite !(bind_run_ok _ _ _ _ _ _ (addNewNodeByClass_run LABELMAP_CLASS st)).
    rewrite addNewNodeByClass_run.
    run_seq.
    match goal with
    | |- context [for_each ?l ?b ?s] =>
        destruct (for_each_itemStates b l s) as (Hok & Hcalls & Hfst)
    end.
    { intros i s. apply exportPngItem_run. }
    rewrite Hok, Hcalls. done.
  - unfold perform. cbn [applyCall]. by rewrite state_eta.
Qed.

(** C4. When the output folder exists, [exportPngSequence] runs one turn
    per item of the segmentation sequence browser, in order, and in every
    turn: if the current segmentation's [ORIGINAL_IMAGE_INDEX] holds a frame
    index that can be used, the image sequence browser is repositioned to
    that index before the image/label pair is exported; if the attribute is
    absent, a warning is logged and the pair is exported without any
    repositioning of the image sequence; if the attribute cannot be used to
    select a frame, the item is skipped (an error is logged and the state is
    untouched). *)
Theorem exportPngSequence_repositions_image_browser
    (selectedImage : Node) (selectedImageSequence : option Node)
    (selectedSegmentation selectedSegmentationSequence : Node)
    (outputFolder baseName : string) (st : St) :
  hostPathExists (world st) outputFolder = true →
  let labelmapNode := hostNewNode (world st) LABELMAP_CLASS in
  let body := exportPngItem selectedImage selectedImageSequence selectedSegmentation
                selectedSegmentationSequence outputFolder baseName labelmapNode in
  let count := exportItemCount selectedSegmentationSequence st in
  let turns := itemStates body (range count)
                 (exportLoopStart selectedSegmentationSequence st) in
  calls (exportPngSequence selectedImage selectedImageSequence selectedSegmentation
           selectedSegmentationSequence outputFolder baseName st)
    = [AddNewNodeByClass LABELMAP_CLASS labelmapNode;
       SelectFirstItem selectedSegmentationSequence]
      ++ concat (map (λ turn, calls (body turn.1 turn.2)) turns) ∧
  turns.*1 = range count ∧
  ∀ i s, turnAsDescribed selectedImage selectedImageSequence selectedSegmentation
           selectedSegmentationSequence outputFolder baseName labelmapNode i s
           (body i s).
Proof.
  intros Hfolder. cbv zeta.
  pose proof (exportPngSequence_run selectedImage selectedImageSequence
    selectedSegmentation selectedSegmentationSequence outputFolder baseName st) as Hrun.
  cbv zeta in Hrun. rewrite Hfolder in Hrun. destruct Hrun as (_ & Hcalls & Hturns).
  split_and!; [done|done|]. intros i s. apply exportPngItem_run.
Qed.

Lemma pngFiles_turn (selectedImage : Node) (selectedImageSequence : option Node)
    (selectedSegmentation selectedSegmentationSequence : Node)
    (outputFolder baseName : string) (labelmapNode : Node) (turn : Z * St) :
  pngFiles (calls (exportPngItem selectedImage selectedImageSequence
                     selectedSegmentation selectedSegmentationSequence outputFolder
                     baseName labelmapNode turn.1 turn.2))
  = turnFiles selectedImageSequence selectedSegmentation outputFolder baseName turn.
Proof.
  destruct (exportPngItem_run selectedImage selectedImageSequence selectedSegmentation
    selectedSegmentationSequence outputFolder baseName labelmapNode turn.1 turn.2)
    as [_ Hturn].
  unfold turnFiles.
  destruct (frameChoice (world turn.2) selectedImageSequence selectedSegmentation).
  - destruct Hturn as (cs & -> & r & ->). done.
  - destruct Hturn as (cs & -> & r & ->). done.
  - destruct Hturn as [-> _]. done.
Qed.

Lemma pngFiles_concat (css : list (list Call)) :
  pngFiles (concat css) = concat (map pngFiles css).
Proof.
  induction css as [|cs css IH]; [done|].
  cbn [concat map]. unfold pngFiles in *. by rewrite omap_app, IH.
Qed.


(** ["%04d" % i] pads with zeros to four digits and keeps longer numbers. *)
Lemma fmt_04d_examples :
  fmt_04d 0 = "0000" ∧ fmt_04d 7 = "0007" ∧ fmt_04d 42 = "0042" ∧
  fmt_04d 123 = "0123" ∧ fmt_04d 9999 = "9999" ∧ fmt_04d 12345 = "12345".
Proof. repeat split; reflexivity. Qed.

(** ** When the logic helpers return *)

Lemma findRecordedOriginalIndex_ok (st : St) sequence original (n k : nat) :
  k + n ≤ length (sequenceItems (world st) sequence) →
  ∃ found,
    findRecordedOriginalIndex sequence original (seqZ (Z.of_nat k) (Z.of_nat n)) st
    = mkRun (Ok found) st [].
Proof.
  revert k. induction n as [|n IH]; intros k Hlen; [by exists None|].
  rewrite seqZ_S.
  destruct (lookup_lt_is_Some_2 (sequenceItems (world st) sequence) k) as [item Hk]; [lia|].
  rewrite (findRecordedOriginalIndex_step _ _ _ _ _ item) by done.
  case_decide; [by eexists|]. apply IH. lia.
Qed.

(** [captureSlice] raises only in one case: no input image is given and
    the browser has no sequence for it, so that formatting the error message
    calls [GetName] on [None]. *)
Lemma captureSlice_outcome (st : St)
    (segmentationSequenceBrowser selectedSegmentation : Node) (inputImage : option Node) :
  outcome (captureSlice segmentationSequenceBrowser selectedSegmentation inputImage st)
  = match hostGetSequenceNode (world st) segmentationSequenceBrowser inputImage,
          inputImage with
    | None, None => Raise AttributeError
    | _, _ => Ok ()
    end.
Proof.
  unfold captureSlice. rewrite ask_bind.
  destruct (hostGetSequenceNode (world st) segmentationSequenceBrowser inputImage)
    as [imageSequence|].
  - rewrite ask_bind.
    destruct (hostGetSequenceNode (world st) segmentationSequenceBrowser
                (Some selectedSegmentation)) as [segmentationSequence|].
    + unfold GetAttribute, GetNumberOfDataNodes, GetNthIndexValue.
      rewrite !ask_bind.
      destruct (findRecordedOriginalIndex_ok st segmentationSequence
                  (attributes (world st) selectedSegmentation ORIGINAL_IMAGE_INDEX)
                  (length (sequenceItems (world st) segmentationSequence)) 0)
        as [found Hfound]; [lia|].
      unfold range. rewrite (bind_run_ok _ _ _ _ _ _ Hfound).
      cbn [prepend outcome]. unfold try_except.
      destruct found as [i|]; cbn [int_of_object]; by run.
    + by rewrite ask_bind.
  - destruct inputImage as [image|]; cbn [deref]; [|done].
    by rewrite ret_bind, ask_bind.
Qed.

(** * Further properties *)

Context `{!ViewHost H O}.

(** ** captureSlice and eraseCurrentSegmentation *)

Lemma captureSlice_found (st : St)
    (segmentationSequenceBrowser selectedSegmentation : Node) (inputImage : option Node)
    (inputImageSequenceNode segmentationSequenceNode : Node) :
  hostGetSequenceNode (world st) segmentationSequenceBrowser inputImage
    = Some inputImageSequenceNode →
  hostGetSequenceNode (world st) segmentationSequenceBrowser (Some selectedSegmentation)
    = Some segmentationSequenceNode →
  ∃ c, recordsSegmentation c ∧
       captureSlice segmentationSequenceBrowser selectedSegmentation inputImage st
       = called c st.
Proof.
  intros Himage Hsegmentation. unfold captureSlice.
  rewrite ask_bind, Himage, ask_bind, Hsegmentation.
  unfold GetAttribute, GetNumberOfDataNodes, GetNthIndexValue. rewrite !ask_bind.
  destruct (findRecordedOriginalIndex_ok st segmentationSequenceNode
              (attributes (world st) selectedSegmentation ORIGINAL_IMAGE_INDEX)
              (length (sequenceItems (world st) segmentationSequenceNode)) 0)
    as [found Hfound]; [lia|].
  unfold range. rewrite (bind_run_ok _ _ _ _ _ _ Hfound). unfold try_except.
  destruct found as [i|]; cbn [int_of_object]; run; cbn [prepend outcome after calls app];
    (eexists; split; [|reflexivity]); exact I.
Qed.

(** X1. [captureSlice] with a missing sequence: when the browser has no
    sequence for the input image, the error naming the image is logged and
    nothing else happens, except that with no input image at all the call
    raises [AttributeError] while building that message; when only the
    segmentation's sequence is missing, the error naming the segmentation is
    logged and nothing else happens.  With both sequences found the call
    returns after exactly one call, which records the segmentation. *)
Theorem captureSlice_missing_sequence (st : St)
    (segmentationSequenceBrowser selectedSegmentation : Node) (inputImage : option Node) :
  let w := world st in
  let r := captureSlice segmentationSequenceBrowser selectedSegmentation inputImage st in
  match hostGetSequenceNode w segmentationSequenceBrowser inputImage, inputImage with
  | None, None => r = mkRun (Raise AttributeError) st []
  | None, Some image =>
      r = mkRun (Ok ()) st
            [LoggingError ("Sequence not found for input image: " +:+ hostGetName w image)]
  | Some _, _ =>
      match hostGetSequenceNode w segmentationSequenceBrowser (Some selectedSegmentation) with
      | None =>
          r = mkRun (Ok ()) st
                [LoggingError ("Sequence not found for segmentation: "
                                 +:+ hostGetName w selectedSegmentation)]
      | Some _ => outcome r = Ok () ∧ ∃ c, calls r = [c] ∧ recordsSegmentation c
      end
  end.
Proof.
  cbv zeta.
  destruct (hostGetSequenceNode (world st) segmentationSequenceBrowser inputImage)
    as [imageSequence|] eqn:Himage.
  - destruct (hostGetSequenceNode (world st) segmentationSequenceBrowser
                (Some selectedSegmentation)) as [segmentationSequence|] eqn:Hsegmentation.
    + destruct (captureSlice_found st _ _ _ _ _ Himage Hsegmentation) as (c & Hc & ->).
      split; [done|]. by exists c.
    + unfold captureSlice. rewrite ask_bind, Himage, ask_bind, Hsegmentation, ask_bind.
      rewrite perform_run. cbn [applyCall]. by rewrite state_eta.
  - unfold captureSlice. rewrite ask_bind, Himage.
    destruct inputImage as [image|]; cbn [deref].
    + rewrite ret_bind, ask_bind, perform_run. cbn [applyCall]. by rewrite state_eta.
    + by rewrite run_bind.
Qed.

(** X2. [eraseCurrentSegmentation], when every segment has a binary
    labelmap as the loop reaches it (from either getter): it returns
    normally, its calls are the clearing of the segments [0 .. n-1], each
    once and in order, followed by [Modified] only when there is more than
    one segment, and it leaves the world these calls lead to and the
    selectors as they were. *)
Theorem eraseCurrentSegmentation_erases_all (selectedSegmentation : Node) (st : St) :
  allErasable (world st) selectedSegmentation →
  let n := hostGetNumberOfSegments (world st) selectedSegmentation in
  let erased := (EraseSegment selectedSegmentation <$> range n)
                ++ (if decide (1 < n)%Z then [Modified selectedSegmentation] else []) in
  eraseCurrentSegmentation selectedSegmentation st
  = mkRun (Ok ()) (mkState (worldAfter erased (world st)) (widget st)) erased.
Proof. apply erase_completes_run. Qed.

(** X24. [eraseCurrentSegmentation] stops at the first segment without a
    binary labelmap: when the segments before [k] have one and the labelmap
    got for segment [k] is [None] (or both getters raise), the call raises
    ([AttributeError] for [None], from [labelMapRep.GetExtent()]) after
    clearing the segments [0 .. k-1]; segment [k] and the later ones are not
    cleared and [Modified] is not called. *)
Theorem eraseCurrentSegmentation_stops_at_missing_labelmap
    (selectedSegmentation : Node) (st : St) (k : Z) (e : PyExn) :
  (0 ≤ k < hostGetNumberOfSegments (world st) selectedSegmentation)%Z →
  (∀ i, (0 ≤ i < k)%Z → erasable (world st) selectedSegmentation i) →
  eraseFailure (labelmapOf (erasedBelow (world st) selectedSegmentation k)
                  selectedSegmentation k) = Some e →
  eraseCurrentSegmentation selectedSegmentation st
  = mkRun (Raise e)
      (mkState (worldAfter (EraseSegment selectedSegmentation <$> range k) (world st))
         (widget st))
      (EraseSegment selectedSegmentation <$> range k).
Proof. apply erase_stops_run. Qed.

(** X3. [onClearButton]: with no segmentation selected it logs one error
    and changes nothing; with a segmentation selected, each of whose
    segments has a binary labelmap, it returns normally after clearing the
    segments [0 .. n-1] in order, with [Modified] only for more than one
    segment: no browser is advanced, nothing is recorded and the selectors
    are left alone. *)
Theorem onClearButton_erases_only (st : St) :
  (∀ selectedSegmentation,
     inputSegmentationSelector (widget st) = Some selectedSegmentation →
     allErasable (world st) selectedSegmentation) →
  onClearButton st =
  match inputSegmentationSelector (widget st) with
  | None => mkRun (Ok ()) st [LoggingError "No segmentation selected!"]
  | Some selectedSegmentation =>
      let n := hostGetNumberOfSegments (world st) selectedSegmentation in
      let erased := (EraseSegment selectedSegmentation <$> range n)
                    ++ (if decide (1 < n)%Z then [Modified selectedSegmentation]
                        else []) in
      mkRun (Ok ()) (mkState (worldAfter erased (world st)) (widget st)) erased
  end.
Proof.
  intros Herasable. unfold onClearButton. rewrite self_bind.
  destruct (inputSegmentationSelector (widget st)) as [selectedSegmentation|].
  - by apply erase_completes_run, Herasable.
  - rewrite perform_run. cbn [applyCall]. by rewrite state_eta.
Qed.

(** ** onSkipButton *)

Lemma skip_input_run (st : St) (inputBrowserNode selectedSegmentation : Node)
    (numSkip : Z) :
  allErasable (world st) selectedSegmentation →
  let r := (eraseCurrentSegmentation selectedSegmentation;;
            advance inputBrowserNode numSkip) st in
  outcome r = Ok () ∧
  calls r = skipCalls (world st) inputBrowserNode selectedSegmentation numSkip.
Proof.
  intros Herasable. cbv zeta. unfold skipCalls.
  rewrite (bind_run_ok _ _ _ _ _ _
             (erase_completes_run selectedSegmentation st Herasable)).
  match goal with
  | |- context [advance ?b ?k ?s] => destruct (advance_run b k s) as [Hok Hcalls]
  end.
  unfold prepend. cbn [outcome after calls world] in *. by rewrite Hok, Hcalls.
Qed.

(** X4. [onSkipButton] with the input browser, the segmentation and an
    output browser selected returns normally.  When the toolbar's active
    browser is the output browser, its calls are those of an advance of the
    output browser by one item, and nothing is erased.  Otherwise, each
    segment having a binary labelmap, the segments are cleared in order
    (with [Modified] for more than one) and the input browser is then
    advanced by the skip number.  The item numbers are those the host gives
    when the advance starts, and the wraparound branch follows from them. *)
Theorem onSkipButton_output_or_input (st : St)
    (inputBrowserNode selectedSegmentation outputBrowserNode : Node) :
  inputSequenceBrowserSelector (widget st) = Some inputBrowserNode →
  inputSegmentationSelector (widget st) = Some selectedSegmentation →
  segmentationBrowserSelector (widget st) = Some outputBrowserNode →
  (hostActiveBrowserNode (world st) ≠ Some outputBrowserNode →
   allErasable (world st) selectedSegmentation) →
  let w := world st in
  let r := onSkipButton st in
  outcome r = Ok () ∧
  calls r =
    if decide (hostActiveBrowserNode w = Some outputBrowserNode)
    then [GetSelectedItemNumber outputBrowserNode
            (hostSelectedItemNumber w outputBrowserNode);
          SelectNextItem outputBrowserNode 1 (hostSelectNextItem w outputBrowserNode 1)]
         ++ (if decide (hostSelectNextItem w outputBrowserNode 1
                        < hostSelectedItemNumber w outputBrowserNode)%Z
             then wrappedAroundCalls else [])
    else
      let n := hostGetNumberOfSegments w selectedSegmentation in
      let erased := (EraseSegment selectedSegmentation <$> range n)
                    ++ (if decide (1 < n)%Z then [Modified selectedSegmentation]
                        else []) in
      erased
      ++ advanceCalls (worldAfter erased w) inputBrowserNode
           (skipImagesSpinBox (widget st)).
Proof.
  intros Hib Hseg Hob Herasable. cbv zeta.
  rewrite (onSkipButton_steps st _ _ Hib Hseg), Hob.
  case_decide.
  - cbn [deref]. rewrite ret_bind. apply advance_run.
  - by apply skip_input_run, Herasable.
Qed.

(** X5. [onSkipButton] with no output browser selected (and the input
    browser and the segmentation selected): when the toolbar has no active
    browser either, the comparison [None == None] sends the callback to the
    output branch and it raises [AttributeError] before doing anything;
    when some browser is active, each segment having a binary labelmap, the
    callback returns normally after clearing the segments in order (with
    [Modified] for more than one) and advancing the input browser by the
    skip number. *)
Theorem onSkipButton_unselected_output (st : St)
    (inputBrowserNode selectedSegmentation : Node) :
  inputSequenceBrowserSelector (widget st) = Some inputBrowserNode →
  inputSegmentationSelector (widget st) = Some selectedSegmentation →
  segmentationBrowserSelector (widget st) = None →
  (hostActiveBrowserNode (world st) ≠ None →
   allErasable (world st) selectedSegmentation) →
  let w := world st in
  let r := onSkipButton st in
  match hostActiveBrowserNode w with
  | None => r = mkRun (Raise AttributeError) st []
  | Some _ =>
      let n := hostGetNumberOfSegments w selectedSegmentation in
      let erased := (EraseSegment selectedSegmentation <$> range n)
                    ++ (if decide (1 < n)%Z then [Modified selectedSegmentation]
                        else []) in
      outcome r = Ok () ∧
      calls r = erased
                ++ advanceCalls (worldAfter erased w) inputBrowserNode
                     (skipImagesSpinBox (widget st))
  end.
Proof.
  intros Hib Hseg Hob Herasable. cbv zeta.
  rewrite (onSkipButton_steps st _ _ Hib Hseg), Hob.
  destruct (hostActiveBrowserNode (world st)) as [active|].
  - rewrite decide_False by done. by apply skip_input_run, Herasable.
  - rewrite decide_True by done. cbn [deref]. by rewrite run_bind.
Qed.

Lemma emits_advance (P : Call → Prop) (browser : Node) (increment : Z) :
  (∀ v, P (GetSelectedItemNumber browser v)) →
  (∀ v, P (SelectNextItem browser increment v)) →
  Forall P wrappedAroundCalls →
  emits P (advance browser increment).
Proof.
  intros Hget Hnext Hwrapped st.
  destruct (advance_run browser increment st) as [_ ->]. unfold advanceCalls.
  repeat constructor; [apply Hget|apply Hnext|].
  case_decide; [done|constructor].
Qed.

(** X6. [onSkipButton] records nothing, whatever is selected: it never
    sets an attribute, never saves the proxy nodes' state and never writes a
    data node into a sequence. *)
Theorem onSkipButton_records_nothing (st : St) :
  Forall recordsNothing (calls (onSkipButton st)).
Proof.
  destruct (inputSequenceBrowserSelector (widget st)) as [ib|] eqn:Hib;
    [destruct (inputSegmentationSelector (widget st)) as [seg|] eqn:Hseg|].
  - rewrite (onSkipButton_steps st ib seg Hib Hseg).
    assert (Hwrapped : Forall recordsNothing wrappedAroundCalls)
      by (by repeat constructor).
    case_decide.
    + apply (emits_bind recordsNothing).
      * destruct (segmentationBrowserSelector (widget st));
          [apply emits_ret|apply emits_raise].
      * intros b. by apply emits_advance.
    + apply (emits_bind recordsNothing).
      * by apply emits_eraseCurrentSegmentation_with.
      * intros _. by apply emits_advance.
  - unfold onSkipButton. rewrite !self_bind, Hib, Hseg. by repeat constructor.
  - unfold onSkipButton. rewrite !self_bind, Hib. by repeat constructor.
Qed.

(** ** onCaptureButton without an input volume *)

Lemma captureSlice_no_image (st : St)
    (segmentationSequenceBrowser selectedSegmentation : Node) :
  hostGetSequenceNode (world st) segmentationSequenceBrowser None = None →
  captureSlice segmentationSequenceBrowser selectedSegmentation None st
  = mkRun (Raise AttributeError) st [].
Proof.
  intros Hnone. unfold captureSlice. rewrite ask_bind, Hnone. cbn [deref].
  by rewrite run_bind.
Qed.

(** X7. [onCaptureButton] with the two browsers and the segmentation
    selected but no input volume, on a host that has no sequence for a null
    proxy node: the callback raises [AttributeError] inside [captureSlice].
    On the new-segmentation path this happens after [ORIGINAL_IMAGE_INDEX]
    was set to the input browser's item number: the attribute is left at
    that value, the canvas is not erased and no browser advances.  On the
    overwrite path nothing at all is done. *)
Theorem onCaptureButton_without_volume (st : St)
    (inputBrowserNode selectedSegmentation outputBrowserNode : Node) :
  inputSequenceBrowserSelector (widget st) = Some inputBrowserNode →
  inputSegmentationSelector (widget st) = Some selectedSegmentation →
  segmentationBrowserSelector (widget st) = Some outputBrowserNode →
  inputVolumeSelector (widget st) = None →
  (∀ w, hostGetSequenceNode w outputBrowserNode None = None) →
  let r := onCaptureButton st in
  let inputImageIndex := hostSelectedItemNumber (world st) inputBrowserNode in
  outcome r = Raise AttributeError ∧
  if treatedAsNew (world st) selectedSegmentation inputBrowserNode then
    calls r = [GetSelectedItemNumber inputBrowserNode inputImageIndex;
               SetAttribute selectedSegmentation ORIGINAL_IMAGE_INDEX
                 (py_str inputImageIndex)] ∧
    attributes (world (after r)) selectedSegmentation ORIGINAL_IMAGE_INDEX
      = Some (py_str inputImageIndex)
  else calls r = [] ∧ after r = st.
Proof.
  intros Hib Hseg Hob Hvolume Hnone. cbv zeta.
  rewrite (onCaptureButton_steps st _ _ _ Hib Hseg Hob), Hvolume.
  destruct (treatedAsNew (world st) selectedSegmentation inputBrowserNode).
  - unfold captureNewSegmentation.
    rewrite (bind_run_ok _ _ _ _ _ _ (readSelectedItemNumber_run inputBrowserNode st)).
    rewrite perform_bind, run_bind, captureSlice_no_image by apply Hnone.
    cbn [prepend outcome after calls app world applyCall attributes].
    split; [done|]. split; [done|]. apply setAttribute_eq.
  - unfold overwriteSegmentation.
    rewrite run_bind, captureSlice_no_image by apply Hnone. done.
Qed.

(** ** The saved skip number *)

(** What [onInputBrowserChanged] does with the skip number once the
    selected browser is marked: [tail] is the rest of the callback. *)
Lemma onInputBrowserChanged_marked (currentNode : Node) (st : St) :
  ∃ st1 : St,
    widget st1 = widget st ∧
    (∀ n, attributes (world st1) n INPUT_SKIP_NUMBER
          = attributes (world st) n INPUT_SKIP_NUMBER) ∧
    let tail : Prog unit :=
      (savedSkip ← GetAttribute currentNode INPUT_SKIP_NUMBER;
       match savedSkip with
       | Some savedSkip => int_of_string savedSkip ≫= assignSkipImagesSpinBox
       | None =>
           numSkip ← self skipImagesSpinBox;
           perform (SetAttribute currentNode INPUT_SKIP_NUMBER (py_str numSkip))
       end;;
       name ← ask (λ w, hostGetName w currentNode);
       perform (LoggingDebug ("onSequenceBrowserSelected: " +:+ name))) in
    outcome (onInputBrowserChanged (Some currentNode) st) = outcome (tail st1) ∧
    after (onInputBrowserChanged (Some currentNode) st) = after (tail st1).
Proof.
  destruct (for_each_SetAttribute (nodesByClass (world st) BROWSER_CLASS)
              INPUT_BROWSER "False" st) as (Hok & Hwd & _ & Hattr).
  eexists (mkState (applyCall (SetAttribute currentNode INPUT_BROWSER "True") _) _).
  split; [exact Hwd|]. split.
  - intros n. cbn [world applyCall attributes].
    rewrite setAttribute_ne by
      (intros [= _ Hname]; by apply INPUT_SKIP_NUMBER_ne_INPUT_BROWSER).
    rewrite Hattr. rewrite decide_False; [done|].
    intros [_ Hname]. by apply INPUT_SKIP_NUMBER_ne_INPUT_BROWSER.
  - cbv zeta. unfold onInputBrowserChanged, getNodesByClass.
    rewrite ask_bind, run_bind, Hok. rewrite perform_bind.
    cbn [prepend outcome after calls]. done.
Qed.

Lemma assignSkipImagesSpinBox_run (v : Z) (st : St) :
  outcome (assignSkipImagesSpinBox v st) = Ok () ∧
  skipImagesSpinBox (widget (after (assignSkipImagesSpinBox v st))) = spinBoxBound v.
Proof.
  unfold assignSkipImagesSpinBox, onSkipImagesNumChanged.
  rewrite self_bind, run_bind. cbn [setSkipImagesSpinBoxField outcome after calls].
  case_decide; [done|]. rewrite self_bind.
  cbn [widget inputSequenceBrowserSelector].
  by destruct (inputSequenceBrowserSelector (widget st)).
Qed.

(** X8. [onInputBrowserChanged] on a browser: with no saved
    [INPUT_SKIP_NUMBER] the spin box keeps its value, which is written to the
    browser as a string; with a saved value that [int] rejects the callback
    raises [ValueError], the spin box and the saved value staying as they
    were; with a saved integer the spin box takes it, bounded to the spin
    box's range. *)
Theorem onInputBrowserChanged_skip_number (currentNode : Node) (st : St) :
  let r := onInputBrowserChanged (Some currentNode) st in
  let spin := skipImagesSpinBox (widget st) in
  match attributes (world st) currentNode INPUT_SKIP_NUMBER with
  | None =>
      outcome r = Ok () ∧
      skipImagesSpinBox (widget (after r)) = spin ∧
      attributes (world (after r)) currentNode INPUT_SKIP_NUMBER = Some (py_str spin)
  | Some savedSkip =>
      match py_int savedSkip with
      | None =>
          outcome r = Raise ValueError ∧
          skipImagesSpinBox (widget (after r)) = spin ∧
          attributes (world (after r)) currentNode INPUT_SKIP_NUMBER = Some savedSkip
      | Some v =>
          outcome r = Ok () ∧
          skipImagesSpinBox (widget (after r)) = spinBoxBound v
      end
  end.
Proof.
  cbv zeta.
  destruct (onInputBrowserChanged_marked currentNode st)
    as (st1 & Hwd & Hattr & Hout & Hafter).
  cbv zeta in Hout, Hafter. rewrite Hout, Hafter. clear Hout Hafter.
  rewrite <- (Hattr currentNode), <- Hwd.
  unfold GetAttribute. rewrite ask_bind.
  destruct (attributes (world st1) currentNode INPUT_SKIP_NUMBER) as [savedSkip|] eqn:Hsaved.
  - unfold int_of_string. destruct (py_int savedSkip) as [v|].
    + rewrite run_bind, run_bind, ret_run. cbn [outcome after calls].
      destruct (assignSkipImagesSpinBox_run v st1) as [Hok Hspin].
      rewrite Hok. cbn [outcome after calls]. rewrite ask_bind.
      cbn [perform outcome after widget]. done.
    + rewrite run_bind, run_bind, raise_run. cbn [outcome after calls]. done.
  - rewrite run_bind, self_bind. cbn [perform outcome after calls].
    rewrite ask_bind. cbn [perform outcome after calls widget world applyCall attributes].
    split; [done|]. split; [done|]. apply setAttribute_eq.
Qed.

(** X9. The skip number survives a round trip through the browser's
    attribute: after [onSkipImagesNumChanged v] stored [v] on the selected
    input browser, selecting that browser again puts [v], bounded to the
    spin box's range, back into the spin box, provided [int] reads back what
    [str] wrote. *)
Theorem skip_number_round_trip (inputBrowserNode : Node) (v : Z) (st : St) :
  inputSequenceBrowserSelector (widget st) = Some inputBrowserNode →
  py_int (py_str v) = Some v →
  let r := (onSkipImagesNumChanged v;;
            onInputBrowserChanged (Some inputBrowserNode)) st in
  outcome r = Ok () ∧
  skipImagesSpinBox (widget (after r)) = spinBoxBound v.
Proof.
  intros Hib Hint. cbv zeta. unfold onSkipImagesNumChanged.
  rewrite bind_assoc, self_bind, Hib, perform_bind.
  cbn [prepend outcome after calls].
  set (st0 := mkState _ _).
  destruct (onInputBrowserChanged_marked inputBrowserNode st0)
    as (st1 & Hwd & Hattr & Hout & Hafter).
  cbv zeta in Hout, Hafter. rewrite Hout, Hafter. clear Hout Hafter.
  unfold GetAttribute. rewrite ask_bind, (Hattr inputBrowserNode).
  subst st0. cbn [world applyCall attributes]. rewrite setAttribute_eq.
  unfold int_of_string. rewrite Hint.
  rewrite run_bind, run_bind, ret_run. cbn [outcome after calls].
  destruct (assignSkipImagesSpinBox_run v st1) as [Hok Hspin].
  rewrite Hok. cbn [outcome after calls]. rewrite ask_bind.
  cbn [perform outcome after widget]. done.
Qed.

(** ** exportPngSequence: skipped items *)

Lemma exportPngItem_unusable (selectedImage : Node) (selectedImageSequence : option Node)
    (selectedSegmentation selectedSegmentationSequence : Node)
    (outputFolder baseName : string) (labelmapNode : Node) (i : Z) (st : St) :
  frameChoice (world st) selectedImageSequence selectedSegmentation = Unusable →
  exportPngItem selectedImage selectedImageSequence selectedSegmentation
    selectedSegmentationSequence outputFolder baseName labelmapNode i st
  = mkRun (Ok ()) st [LoggingError (skippingError i)].
Proof.
  intros Hunusable. unfold exportPngItem.
  rewrite (bind_run_ok _ _ st st false [LoggingError (skippingError i)])
    by (by rewrite selectOriginalImage_run, Hunusable).
  by rewrite ret_run.
Qed.

Lemma for_each_unusable (selectedImage : Node) (selectedImageSequence : option Node)
    (selectedSegmentation selectedSegmentationSequence : Node)
    (outputFolder baseName : string) (labelmapNode : Node) (indices : list Z) (st : St) :
  frameChoice (world st) selectedImageSequence selectedSegmentation = Unusable →
  for_each indices
    (exportPngItem selectedImage selectedImageSequence selectedSegmentation
       selectedSegmentationSequence outputFolder baseName labelmapNode) st
  = mkRun (Ok ()) st ((λ i, LoggingError (skippingError i)) <$> indices).
Proof.
  intros Hunusable. induction indices as [|i rest IH]; [done|].
  cbn [for_each].
  rewrite (bind_run_ok _ _ st st () [LoggingError (skippingError i)])
    by (by apply exportPngItem_unusable).
  by rewrite IH.
Qed.

Lemma for_each_app_ok {A} (done rest : list A) (body : A → Prog unit) (st : St) :
  (∀ x s, outcome (body x s) = Ok ()) →
  for_each (done ++ rest) body st
  = prepend (calls (for_each done body st))
      (for_each rest body (after (for_each done body st))).
Proof.
  intros Hbody. revert st. induction done as [|x done IH]; intros st.
  - cbn [app for_each]. rewrite ret_run. unfold prepend.
    cbn [outcome after calls app]. by rewrite run_eta.
  - cbn [app for_each]. rewrite !run_bind, Hbody, IH.
    unfold prepend. cbn [outcome after calls]. by rewrite app_assoc.
Qed.

(** X10. In the loop of [exportPngSequence] a skipped item is never
    followed by an exported one: a skipped turn leaves the state as it was
    (the segmentation browser does not advance), so once a turn starts with
    an [ORIGINAL_IMAGE_INDEX] that cannot be used, that turn and every later
    one only logs its error, and the loop ends in that same state. *)
Theorem exportPngSequence_skip_repeats
    (selectedImage : Node) (selectedImageSequence : option Node)
    (selectedSegmentation selectedSegmentationSequence : Node)
    (outputFolder baseName : string) (labelmapNode : Node)
    (done rest : list Z) (st : St) :
  let body := exportPngItem selectedImage selectedImageSequence selectedSegmentation
                selectedSegmentationSequence outputFolder baseName labelmapNode in
  frameChoice (world (after (for_each done body st)))
    selectedImageSequence selectedSegmentation = Unusable →
  let r := for_each (done ++ rest) body st in
  outcome r = Ok () ∧
  after r = after (for_each done body st) ∧
  calls r = calls (for_each done body st)
            ++ ((λ i, LoggingError (skippingError i)) <$> rest).
Proof.
  cbv zeta. intros Hunusable.
  rewrite for_each_app_ok by (intros i s; apply exportPngItem_run).
  rewrite (for_each_unusable _ _ _ _ _ _ _ rest _ Hunusable).
  unfold prepend. cbn [outcome after calls]. done.
Qed.

(** X11. [exportPngSequence] without an image sequence browser, when the
    segmentation carries [ORIGINAL_IMAGE_INDEX] as the loop starts and the
    output folder exists: every item is skipped.  The labelmap node is
    created, the segmentation browser is rewound, one error is logged per
    item and no file is written. *)
Theorem exportPngSequence_no_browser_no_files
    (selectedImage selectedSegmentation selectedSegmentationSequence : Node)
    (outputFolder baseName originalIndex : string) (st : St) :
  hostPathExists (world st) outputFolder = true →
  attributes (world (exportLoopStart selectedSegmentationSequence st))
    selectedSegmentation ORIGINAL_IMAGE_INDEX = Some originalIndex →
  let r := exportPngSequence selectedImage None selectedSegmentation
             selectedSegmentationSequence outputFolder baseName st in
  outcome r = Ok () ∧
  calls r = [AddNewNodeByClass LABELMAP_CLASS (hostNewNode (world st) LABELMAP_CLASS);
             SelectFirstItem selectedSegmentationSequence]
            ++ ((λ i, LoggingError (skippingError i))
                <$> range (exportItemCount selectedSegmentationSequence st)) ∧
  pngFiles (calls r) = [].
Proof.
  intros Hfolder Hattribute. cbv zeta.
  assert (Hrun :
    exportPngSequence selectedImage None selectedSegmentation
      selectedSegmentationSequence outputFolder baseName st
    = mkRun (Ok ()) (exportLoopStart selectedSegmentationSequence st)
        ([AddNewNodeByClass LABELMAP_CLASS (hostNewNode (world st) LABELMAP_CLASS);
          SelectFirstItem selectedSegmentationSequence]
         ++ ((λ i, LoggingError (skippingError i))
             <$> range (exportItemCount selectedSegmentationSequence st)))).
  { revert Hattribute. unfold exportPngSequence, exportLoopStart, exportItemCount.
    rewrite ask_bind, Hfolder.
    rewrite !(bind_run_ok _ _ _ _ _ _ (addNewNodeByClass_run LABELMAP_CLASS st)).
    rewrite addNewNodeByClass_run. run_seq. intros Hattribute.
    rewrite for_each_unusable; [done|].
    unfold frameChoice. by rewrite Hattribute. }
  rewrite Hrun. cbn [outcome calls]. split; [done|]. split; [done|].
  unfold pngFiles. rewrite omap_app. cbn [omap list_omap app]. clear.
  induction (range _) as [|i l IH]; [done|]. exact IH.
Qed.

(** X12. Every file [exportPngSequence] writes is the segmentation or the
    ultrasound PNG, in the output folder, of an item [0 <= i < n] of the
    segmentation sequence browser, and at most two files are written per
    item. *)
Theorem exportPngSequence_files_confined
    (selectedImage : Node) (selectedImageSequence : option Node)
    (selectedSegmentation selectedSegmentationSequence : Node)
    (outputFolder baseName : string) (st : St) :
  let r := exportPngSequence selectedImage selectedImageSequence selectedSegmentation
             selectedSegmentationSequence outputFolder baseName st in
  let count := exportItemCount selectedSegmentationSequence st in
  (∀ fileName, fileName ∈ pngFiles (calls r) →
     ∃ i, (0 ≤ i < count)%Z ∧
          (fileName = path_join outputFolder (segmentationFileName baseName i) ∨
           fileName = path_join outputFolder (ultrasoundFileName baseName i))) ∧
  (length (pngFiles (calls r)) ≤ 2 * Z.to_nat count)%nat.
Proof.
  cbv zeta.
  pose proof (exportPngSequence_run selectedImage selectedImageSequence
    selectedSegmentation selectedSegmentationSequence outputFolder baseName st) as Hrun.
  cbv zeta in Hrun. destruct (hostPathExists (world st) outputFolder).
  - destruct Hrun as (_ & -> & Hturns).
    set (turns := itemStates _ _ _) in *.
    assert (Hfiles :
      pngFiles ([AddNewNodeByClass LABELMAP_CLASS (hostNewNode (world st) LABELMAP_CLASS);
                 SelectFirstItem selectedSegmentationSequence]
                ++ concat (map (λ turn, calls
                     (exportPngItem selectedImage selectedImageSequence
                        selectedSegmentation selectedSegmentationSequence outputFolder
                        baseName (hostNewNode (world st) LABELMAP_CLASS) turn.1 turn.2))
                     turns))
      = concat (map (turnFiles selectedImageSequence selectedSegmentation
                       outputFolder baseName) turns)).
    { unfold pngFiles at 1. rewrite omap_app. cbn [omap list_omap app].
      fold pngFiles. rewrite pngFiles_concat, map_map.
      f_equal. apply map_ext. intros turn. apply pngFiles_turn. }
    rewrite Hfiles. split.
    + intros fileName Hin.
      apply list_elem_of_In, in_concat in Hin as (files & Hfrom & Hin).
      apply in_map_iff in Hfrom as (turn & <- & Hturn).
      apply list_elem_of_In in Hturn, Hin.
      exists turn.1. split.
      * assert (Hrange : turn.1 ∈ range (exportItemCount selectedSegmentationSequence st)).
        { rewrite <- Hturns. apply list_elem_of_fmap. by exists turn. }
        unfold range in Hrange. apply elem_of_seqZ in Hrange. lia.
      * unfold turnFiles in Hin.
        destruct (frameChoice (world turn.2) selectedImageSequence selectedSegmentation);
          [| |by apply elem_of_nil in Hin];
          (apply elem_of_cons in Hin as [->|Hin]; [by left|];
           apply elem_of_cons in Hin as [->|Hin]; [by right|];
           by apply elem_of_nil in Hin).
    + assert (Hlength : length turns
                        = Z.to_nat (exportItemCount selectedSegmentationSequence st)).
      { rewrite <- (length_fmap fst turns), Hturns. unfold range. apply length_seqZ. }
      rewrite <- Hlength. clear Hturns Hfiles Hlength.
      induction turns as [|turn turns IH]; [done|].
      cbn [map concat length]. rewrite length_app.
      assert (length (turnFiles selectedImageSequence selectedSegmentation
                        outputFolder baseName turn) ≤ 2)%nat.
      { unfold turnFiles.
        destruct (frameChoice (world turn.2) selectedImageSequence selectedSegmentation);
          cbn [length]; lia. }
      lia.
  - rewrite Hrun. cbn [calls pngFiles omap list_omap length]. split; [|lia].
    intros fileName Hin. by apply elem_of_nil in Hin.
Qed.

(** ** onExportButton *)

(** X13. [onExportButton] with no segmentation, no segmentation browser or
    no image selected logs one error and changes nothing. *)
Theorem onExportButton_null_selector (st : St) :
  None ∈ [inputSegmentationSelector (widget st);
          segmentationBrowserSelector (widget st);
          inputVolumeSelector (widget st)] →
  ∃ msg, onExportButton st = mkRun (Ok ()) st [LoggingError msg].
Proof.
  intros Hnone. unfold onExportButton. rewrite !self_bind.
  destruct (inputSegmentationSelector (widget st)) as [segmentation|];
    [|eexists; unfold perform; cbn [applyCall]; by rewrite state_eta].
  destruct (segmentationBrowserSelector (widget st)) as [segmentationSequence|];
    [|eexists; unfold perform; cbn [applyCall]; by rewrite state_eta].
  destruct (inputVolumeSelector (widget st)) as [image|];
    [|eexists; unfold perform; cbn [applyCall]; by rewrite state_eta].
  exfalso. repeat (apply elem_of_cons in Hnone as [?|Hnone]; [done|]).
  by apply elem_of_nil in Hnone.
Qed.

(** X14. [onExportButton] never reports a missing image sequence browser:
    its fourth guard tests the image again, so the message
    "No image sequence browser selected!" is logged in no state. *)
Theorem onExportButton_never_reports_image_browser (st : St) :
  LoggingError NO_IMAGE_BROWSER_TEXT ∉ calls (onExportButton st).
Proof.
  set (P := λ c : Call, c ≠ LoggingError NO_IMAGE_BROWSER_TEXT).
  assert (Hemits : emits P onExportButton).
  { unfold onExportButton.
    apply emits_bind; [apply emits_self|]. intros selectedSegmentationSequence.
    apply emits_bind; [apply emits_self|]. intros selectedSegmentation.
    apply emits_bind; [apply emits_self|]. intros selectedImage.
    apply emits_bind; [apply emits_self|]. intros selectedImageSequence.
    apply emits_bind; [apply emits_self|]. intros outputFolder.
    apply emits_bind; [apply emits_self|]. intros baseName.
    destruct selectedSegmentation; [|by apply emits_perform].
    destruct selectedSegmentationSequence; [|by apply emits_perform].
    destruct selectedImage; [|by apply emits_perform].
    apply emits_bind; [apply emits_self|]. intros exportTransform.
    assert (Hnode : emits P (addNewNodeByClass LABELMAP_CLASS)).
    { unfold addNewNodeByClass. apply emits_bind; [apply emits_ask|]. intros node.
      apply emits_bind; [by apply emits_perform|]. intros _. apply emits_ret. }
    assert (Hbrowser : emits P (deref selectedImageSequence : Prog Node)).
    { destruct selectedImageSequence; [apply emits_ret|apply emits_raise]. }
    assert (Hwork : ∀ c, P c → emits P (arrayWork c)).
    { intros c Hc. unfold arrayWork. apply emits_bind; [apply emits_ask|].
      intros failure. apply emits_bind; [by apply emits_perform|]. intros _.
      destruct failure; [apply emits_raise|apply emits_ret]. }
    destruct exportTransform.
    - apply emits_bind.
      + unfold exportNumpySlice.
        apply emits_bind; [apply emits_ask|]. intros folderExists.
        destruct folderExists; [|by apply emits_perform].
        apply emits_bind; [exact Hnode|]. intros _.
        apply emits_bind; [exact Hbrowser|]. intros _. by apply Hwork.
      + intros _. unfold exportTransformToWorldSequence.
        apply emits_bind; [apply emits_ask|]. intros folderExists.
        destruct folderExists; [|by apply emits_perform].
        apply emits_bind; [apply emits_ask|]. intros [transformID|];
          [|by apply emits_perform].
        apply emits_bind; [exact Hbrowser|]. intros _. by apply Hwork.
    - unfold exportPngSequence.
      apply emits_bind; [apply emits_ask|]. intros folderExists.
      destruct folderExists; [|by apply emits_perform].
      apply emits_bind; [exact Hnode|].
      intros labelmapNode. apply emits_bind; [apply emits_ask|]. intros num_items.
      apply emits_bind; [by apply emits_perform|]. intros _.
      apply emits_for_each. intros i. unfold exportPngItem.
      apply emits_bind.
      + unfold selectOriginalImage.
        apply emits_bind; [apply emits_ask|]. intros [originalIndex|].
        * apply emits_try_except.
          -- apply emits_bind;
               [destruct selectedImageSequence; [apply emits_ret|apply emits_raise]|].
             intros browser. apply emits_bind.
             { unfold int_of_string.
               destruct (py_int originalIndex); [apply emits_ret|apply emits_raise]. }
             intros item. apply emits_bind; [|intros _; apply emits_ret].
             unfold callSetSelectedItemNumber.
             apply emits_bind; [apply emits_ask|]. intros raises.
             destruct raises; [apply emits_raise|by apply emits_perform].
          -- apply emits_bind; [by apply emits_perform|]. intros _. apply emits_ret.
        * apply emits_bind; [by apply emits_perform|]. intros _. apply emits_ret.
      + intros proceed. destruct proceed; [|apply emits_ret].
        do 5 (apply emits_bind; [by apply emits_perform|]; intros _).
        apply emits_bind; [|intros _; by apply emits_perform].
        unfold callSelectNextItem. apply emits_bind; [apply emits_ask|]. intros v.
        apply emits_bind; [by apply emits_perform|]. intros _. apply emits_ret. }
  intros Hin. specialize (Hemits st).
  rewrite Forall_forall in Hemits. by apply (Hemits _ Hin).
Qed.

(** ** getCompositeNode and getDefaultMasterVolumeNodeID *)

Lemma getCompositeNodeLoop_run (layoutName : string) (st : St) (m k : nat) :
  k + m = length (nodesByClass (world st) COMPOSITE_CLASS) →
  getCompositeNodeLoop layoutName (seqZ (Z.of_nat k) (Z.of_nat m)) st
  = mkRun (Ok (snd <$> list_find (acceptsLayout (world st) layoutName)
                         (drop k (nodesByClass (world st) COMPOSITE_CLASS))))
      st [].
Proof.
  revert k. induction m as [|m IH]; intros k Hlen.
  - rewrite drop_ge by lia. done.
  - rewrite seqZ_S. cbn [getCompositeNodeLoop]. unfold GetNthNodeByClass.
    rewrite ask_bind, decide_True, Nat2Z.id by lia.
    destruct (lookup_lt_is_Some_2 (nodesByClass (world st) COMPOSITE_CLASS) k)
      as [compNode Hk]; [lia|].
    rewrite Hk, (drop_S _ _ _ Hk). cbn [list_find].
    unfold truthy, acceptsLayout at 1.
    destruct (decide (layoutName = "")) as [->|Hname].
    + rewrite bool_decide_true by done. cbn [negb].
      rewrite ret_bind, ret_run, decide_True by (by left). done.
    + rewrite bool_decide_false by done. cbn [negb deref].
      rewrite bind_assoc, ret_bind, bind_assoc, ask_bind, ret_bind.
      destruct (decide (hostGetLayoutName (world st) compNode = Some layoutName))
        as [Hlayout|Hlayout].
      * rewrite bool_decide_false by (by intros ?).
        rewrite ret_run, decide_True by (by right). done.
      * rewrite bool_decide_true by done.
        rewrite decide_False by (by intros [?|?]).
        rewrite IH by lia.
        by destruct (list_find _ (drop (S k) _)) as [[i c]|].
Qed.

Lemma getCompositeNode_run (layoutName : string) (st : St) :
  getCompositeNode layoutName st
  = mkRun (Ok (compositeNodeOf (world st) layoutName)) st [].
Proof.
  unfold getCompositeNode. rewrite ask_bind.
  by rewrite (getCompositeNodeLoop_run layoutName st _ 0).
Qed.

(** X15. [getCompositeNode] changes nothing and never raises.  It returns
    the first slice composite node of the scene whose layout name is
    [layoutName], or the very first one when [layoutName] is empty, and
    [None] when the scene has no such node. *)
Theorem getCompositeNode_first_match (layoutName : string) (st : St) :
  let r := getCompositeNode layoutName st in
  let compositeNodes := nodesByClass (world st) COMPOSITE_CLASS in
  after r = st ∧ calls r = [] ∧
  ∃ found, outcome r = Ok found ∧
    match found with
    | Some compNode =>
        ∃ i : nat,
          compositeNodes !! i = Some compNode ∧
          acceptsLayout (world st) layoutName compNode ∧
          ∀ (j : nat) other, compositeNodes !! j = Some other → (j < i)%nat →
                     ¬ acceptsLayout (world st) layoutName other
    | None =>
        ∀ other, other ∈ compositeNodes → ¬ acceptsLayout (world st) layoutName other
    end.
Proof.
  cbv zeta. rewrite getCompositeNode_run. cbn [outcome after calls].
  split; [done|]. split; [done|]. eexists. split; [done|].
  unfold compositeNodeOf.
  destruct (list_find _ _) as [[i compNode]|] eqn:Hfind; cbn [fmap option_fmap option_map snd].
  - apply list_find_Some in Hfind as (Hi & Haccepts & Hbefore).
    exists i. split_and!; [done|done|]. intros j other Hj Hlt. by eapply Hbefore.
  - apply list_find_None in Hfind. intros other Hin.
    rewrite Forall_forall in Hfind. by apply Hfind.
Qed.

Lemma firstVolumeID_run (GetVolumeID : World H O → Node → option string)
    (layoutNames : list string) (st : St) :
  firstVolumeID GetVolumeID layoutNames st
  = mkRun (firstViewWithVolume (world st) GetVolumeID layoutNames) st [].
Proof.
  induction layoutNames as [|layoutName rest IH]; [done|].
  cbn [firstVolumeID firstViewWithVolume].
  rewrite bind_assoc.
  rewrite (bind_run_ok _ _ _ _ _ _ (getCompositeNode_run layoutName st)).
  unfold prepend. cbn [app].
  destruct (compositeNodeOf (world st) layoutName) as [compNode|]; cbn [deref].
  - rewrite ret_bind, ask_bind.
    destruct (truthyOption (GetVolumeID (world st) compNode)).
    + by rewrite ret_run.
    + rewrite IH. done.
  - by rewrite run_bind, raise_run.
Qed.

Lemma firstViewWithVolume_found (w : World H O)
    (GetVolumeID : World H O → Node → option string)
    (before rest : list string) (layoutName : string) (compNode : Node) :
  Forall (viewWithout w GetVolumeID) before →
  compositeNodeOf w layoutName = Some compNode →
  truthyOption (GetVolumeID w compNode) = true →
  firstViewWithVolume w GetVolumeID (before ++ layoutName :: rest)
  = Ok (GetVolumeID w compNode).
Proof.
  intros Hbefore Hnode Hvolume. induction Hbefore as [|name before Hname _ IH].
  - cbn [app firstViewWithVolume]. by rewrite Hnode, Hvolume.
  - destruct Hname as (c & Hc & Hnone).
    cbn [app firstViewWithVolume]. by rewrite Hc, Hnone.
Qed.

Lemma firstViewWithVolume_missing (w : World H O)
    (GetVolumeID : World H O → Node → option string)
    (before rest : list string) (layoutName : string) :
  Forall (viewWithout w GetVolumeID) before →
  compositeNodeOf w layoutName = None →
  firstViewWithVolume w GetVolumeID (before ++ layoutName :: rest)
  = Raise AttributeError.
Proof.
  intros Hbefore Hnode. induction Hbefore as [|name before Hname _ IH].
  - cbn [app firstViewWithVolume]. by rewrite Hnode.
  - destruct Hname as (c & Hc & Hnone).
    cbn [app firstViewWithVolume]. by rewrite Hc, Hnone.
Qed.

Lemma firstViewWithVolume_none (w : World H O)
    (GetVolumeID : World H O → Node → option string) (layoutNames : list string) :
  Forall (viewWithout w GetVolumeID) layoutNames →
  firstViewWithVolume w GetVolumeID layoutNames = Ok None.
Proof.
  intros Hall. induction Hall as [|name names Hname _ IH]; [done|].
  destruct Hname as (c & Hc & Hnone).
  cbn [firstViewWithVolume]. by rewrite Hc, Hnone.
Qed.

(** X16. [getDefaultMasterVolumeNodeID] returns the background volume ID
    of the first slice view that has one, whatever the foreground volumes
    are: the views before it have a composite node and no background
    volume.  Nothing is changed. *)
Theorem getDefaultMasterVolumeNodeID_background_first (st : St)
    (before rest : list string) (layoutName : string) (compNode : Node) :
  hostSliceViewNames (world st) = before ++ layoutName :: rest →
  Forall (viewWithout (world st) hostGetBackgroundVolumeID) before →
  compositeNodeOf (world st) layoutName = Some compNode →
  truthyOption (hostGetBackgroundVolumeID (world st) compNode) = true →
  getDefaultMasterVolumeNodeID st
  = mkRun (Ok (hostGetBackgroundVolumeID (world st) compNode)) st [].
Proof.
  intros Hnames Hbefore Hnode Hvolume. unfold getDefaultMasterVolumeNodeID.
  rewrite bind_assoc, ask_bind, Hnames, run_bind, firstVolumeID_run.
  rewrite (firstViewWithVolume_found _ _ _ _ _ compNode) by done.
  cbn [outcome after calls].
  destruct (hostGetBackgroundVolumeID (world st) compNode); [done|].
  discriminate Hvolume.
Qed.

(** X17. [getDefaultMasterVolumeNodeID] raises [AttributeError] when it
    reaches a slice view that has no composite node before it has found a
    background volume: [getCompositeNode] returns [None] for that view and
    [GetBackgroundVolumeID] is called on it. *)
Theorem getDefaultMasterVolumeNodeID_missing_view (st : St)
    (before rest : list string) (layoutName : string) :
  hostSliceViewNames (world st) = before ++ layoutName :: rest →
  Forall (viewWithout (world st) hostGetBackgroundVolumeID) before →
  compositeNodeOf (world st) layoutName = None →
  getDefaultMasterVolumeNodeID st = mkRun (Raise AttributeError) st [].
Proof.
  intros Hnames Hbefore Hnode. unfold getDefaultMasterVolumeNodeID.
  rewrite bind_assoc, ask_bind, Hnames, run_bind, firstVolumeID_run.
  by rewrite firstViewWithVolume_missing.
Qed.

Lemma getDefaultMasterVolumeNodeID_no_background (st : St) :
  Forall (viewWithout (world st) hostGetBackgroundVolumeID)
    (hostSliceViewNames (world st)) →
  getDefaultMasterVolumeNodeID st
  = match firstViewWithVolume (world st) hostGetForegroundVolumeID
            (hostSliceViewNames (world st)) with
    | Ok volumeID => mkRun (Ok volumeID) st []
    | Raise e => mkRun (Raise e) st []
    end.
Proof.
  intros Hbackground. unfold getDefaultMasterVolumeNodeID.
  rewrite bind_assoc, ask_bind, run_bind, firstVolumeID_run.
  rewrite firstViewWithVolume_none by done. cbn [outcome after calls app].
  rewrite bind_assoc, ask_bind, run_bind, firstVolumeID_run. cbn [outcome after calls].
  by destruct (firstViewWithVolume _ _ _) as [[volumeID|]|e].
Qed.

(** X18. When no slice view has a background volume,
    [getDefaultMasterVolumeNodeID] falls back on the foreground volumes: it
    returns the foreground volume ID of the first view that has one. *)
Theorem getDefaultMasterVolumeNodeID_foreground_fallback (st : St)
    (before rest : list string) (layoutName : string) (compNode : Node) :
  Forall (viewWithout (world st) hostGetBackgroundVolumeID)
    (hostSliceViewNames (world st)) →
  hostSliceViewNames (world st) = before ++ layoutName :: rest →
  Forall (viewWithout (world st) hostGetForegroundVolumeID) before →
  compositeNodeOf (world st) layoutName = Some compNode →
  truthyOption (hostGetForegroundVolumeID (world st) compNode) = true →
  getDefaultMasterVolumeNodeID st
  = mkRun (Ok (hostGetForegroundVolumeID (world st) compNode)) st [].
Proof.
  intros Hbackground Hnames Hbefore Hnode Hvolume.
  rewrite getDefaultMasterVolumeNodeID_no_background by done.
  rewrite Hnames. by rewrite (firstViewWithVolume_found _ _ _ _ _ compNode).
Qed.

(** X19. When every slice view has a composite node and none has a
    background or a foreground volume, [getDefaultMasterVolumeNodeID]
    returns [None]; an empty volume ID counts as none. *)
Theorem getDefaultMasterVolumeNodeID_nothing_found (st : St) :
  Forall (viewWithout (world st) hostGetBackgroundVolumeID)
    (hostSliceViewNames (world st)) →
  Forall (viewWithout (world st) hostGetForegroundVolumeID)
    (hostSliceViewNames (world st)) →
  getDefaultMasterVolumeNodeID st = mkRun (Ok None) st [].
Proof.
  intros Hbackground Hforeground.
  rewrite getDefaultMasterVolumeNodeID_no_background by done.
  by rewrite firstViewWithVolume_none.
Qed.

(** ** onLayoutSelectButton *)

Lemma landmarkingScanLoop_found (fuel : nat) (i : Z) (browser : option Node) (st : St) :
  landmarkingScanLoop fuel i true browser st = mkRun (Ok browser) st [].
Proof. by destruct fuel. Qed.

Lemma landmarkingScanLoop_past (fuel : nat) (i : Z) (found : bool)
    (browser : option Node) (st : St) :
  (6 ≤ i)%Z → landmarkingScanLoop fuel i found browser st = mkRun (Ok browser) st [].
Proof.
  intros Hi. destruct fuel; [done|]. cbn [landmarkingScanLoop].
  rewrite bool_decide_false by lia. by rewrite andb_false_r.
Qed.

Lemma landmarkingScanLoop_some (fuel : nat) (i : Z) (browser : Node) (st : St) :
  landmarkingScanLoop fuel i false (Some browser) st = mkRun (Ok (Some browser)) st [].
Proof.
  destruct fuel; [done|]. cbn [landmarkingScanLoop negb andb].
  case_bool_decide; [|done]. apply landmarkingScanLoop_found.
Qed.

Lemma landmarkingScanLoop_turn (fuel : nat) (i : Z) (st : St) :
  (i < 6)%Z →
  landmarkingScanLoop (S fuel) i false None st =
  match hostGetFirstNodeByClassByName (world st) BROWSER_CLASS
          ("LandmarkingScan_" +:+ py_str i) with
  | Some browser => mkRun (Ok (Some browser)) st []
  | None => landmarkingScanLoop fuel (i + 1) false None st
  end.
Proof.
  intros Hi. cbn [landmarkingScanLoop negb andb].
  rewrite bool_decide_true by lia. rewrite ask_bind.
  destruct (hostGetFirstNodeByClassByName _ _ _); [|done].
  apply landmarkingScanLoop_found.
Qed.

(** X20. The search for the landmarking browser in [onLayoutSelectButton]
    ends within five turns of its loop, changes nothing, and yields the
    first sequence browser found under the names "LandmarkingScan",
    "LandmarkingScan_1", ..., "LandmarkingScan_5" tried in that order, or
    [None] when none of them exists. *)
Theorem landmarkingScanBrowser_first_existing (fuel : nat) (st : St) :
  (5 ≤ fuel)%nat →
  landmarkingScanBrowser fuel st
  = mkRun (Ok (firstBrowserNamed (world st) landmarkingScanNames)) st [].
Proof.
  intros Hfuel.
  do 5 (destruct fuel as [|fuel]; [lia|]). clear Hfuel.
  unfold landmarkingScanBrowser. rewrite ask_bind.
  cbn [firstBrowserNamed landmarkingScanNames].
  destruct (hostGetFirstNodeByClassByName (world st) BROWSER_CLASS "LandmarkingScan");
    [apply landmarkingScanLoop_some|].
  rewrite landmarkingScanLoop_turn by lia.
  change ("LandmarkingScan_" +:+ py_str 1) with "LandmarkingScan_1".
  destruct (hostGetFirstNodeByClassByName (world st) BROWSER_CLASS "LandmarkingScan_1");
    [done|].
  rewrite landmarkingScanLoop_turn by lia.
  change ("LandmarkingScan_" +:+ py_str (1 + 1)) with "LandmarkingScan_2".
  destruct (hostGetFirstNodeByClassByName (world st) BROWSER_CLASS "LandmarkingScan_2");
    [done|].
  rewrite landmarkingScanLoop_turn by lia.
  change ("LandmarkingScan_" +:+ py_str (1 + 1 + 1)) with "LandmarkingScan_3".
  destruct (hostGetFirstNodeByClassByName (world st) BROWSER_CLASS "LandmarkingScan_3");
    [done|].
  rewrite landmarkingScanLoop_turn by lia.
  change ("LandmarkingScan_" +:+ py_str (1 + 1 + 1 + 1)) with "LandmarkingScan_4".
  destruct (hostGetFirstNodeByClassByName (world st) BROWSER_CLASS "LandmarkingScan_4");
    [done|].
  rewrite landmarkingScanLoop_turn by lia.
  change ("LandmarkingScan_" +:+ py_str (1 + 1 + 1 + 1 + 1)) with "LandmarkingScan_5".
  destruct (hostGetFirstNodeByClassByName (world st) BROWSER_CLASS "LandmarkingScan_5");
    [done|].
  by apply landmarkingScanLoop_past.
Qed.

(** X21. The layout switch of [onLayoutSelectButton] moves to one of the
    layouts 501, 502 and 6, never stays on the current layout, and from
    the first click on cycles 501, 502, 6. *)
Theorem nextLayout_cycle (currentLayout : Z) :
  nextLayout currentLayout ∈ [501; 502; 6]%Z ∧
  nextLayout currentLayout ≠ currentLayout ∧
  nextLayout (nextLayout (nextLayout (nextLayout currentLayout)))
  = nextLayout currentLayout.
Proof.
  destruct (decide (currentLayout = 501)%Z) as [->|Hcustom];
    [|destruct (decide (currentLayout = 502)%Z) as [->|Hdual]].
  - split_and!; [|done|done].
    apply elem_of_cons. right. apply elem_of_cons. by left.
  - split_and!; [|done|done].
    do 2 (apply elem_of_cons; right). apply elem_of_cons. by left.
  - assert (Hnext : nextLayout currentLayout = 501%Z)
      by (unfold nextLayout; by rewrite !decide_False).
    rewrite !Hnext. split_and!; [|congruence|done].
    apply elem_of_cons. by left.
Qed.

(** ** Overwriting a stored segmentation *)

Lemma emits_captureSlice_with (P : Call → Prop)
    (segmentationSequenceBrowser selectedSegmentation : Node) (inputImage : option Node) :
  (∀ msg, P (LoggingError msg)) →
  P (SaveProxyNodesState segmentationSequenceBrowser) →
  (∀ sequence indexValue, P (SetDataNodeAtValue sequence selectedSegmentation indexValue)) →
  emits P (captureSlice segmentationSequenceBrowser selectedSegmentation inputImage).
Proof.
  intros Herror Hsave Hset. unfold captureSlice.
  apply emits_bind; [apply emits_ask|]. intros [imageSequence|].
  - apply emits_bind; [apply emits_ask|]. intros [segmentationSequence|].
    + apply emits_bind; [apply emits_ask|]. intros original.
      apply emits_bind; [apply emits_ask|]. intros n.
      apply emits_bind; [apply emits_findRecordedOriginalIndex|]. intros found.
      apply emits_bind.
      * apply emits_try_except; [|apply emits_ret].
        apply emits_bind; [|intros; apply emits_ret].
        destruct found; [apply emits_ret|apply emits_raise].
      * intros [i|]; [|by apply emits_perform].
        apply emits_bind; [apply emits_ask|]. intros v. by apply emits_perform.
    + apply emits_bind; [apply emits_ask|]. intros name. by apply emits_perform.
  - apply emits_bind; [destruct inputImage; [apply emits_ret|apply emits_raise]|].
    intros n. apply emits_bind; [apply emits_ask|]. intros name. by apply emits_perform.
Qed.

(** X22. [onCaptureButton] on the overwrite path (the two browsers and the
    segmentation selected, the capture not counting as new) keeps the
    drawing: no segment is erased, the segmentation is not marked modified
    and no attribute is set, so [ORIGINAL_IMAGE_INDEX] is not reset. *)
Theorem onCaptureButton_overwrite_keeps_canvas (st : St)
    (inputBrowserNode selectedSegmentation outputBrowserNode : Node) :
  inputSequenceBrowserSelector (widget st) = Some inputBrowserNode →
  inputSegmentationSelector (widget st) = Some selectedSegmentation →
  segmentationBrowserSelector (widget st) = Some outputBrowserNode →
  treatedAsNew (world st) selectedSegmentation inputBrowserNode = false →
  Forall keepsCanvas (calls (onCaptureButton st)).
Proof.
  intros Hib Hseg Hob Hold.
  rewrite (onCaptureButton_steps st _ _ _ Hib Hseg Hob), Hold.
  unfold overwriteSegmentation.
  apply (emits_bind keepsCanvas).
  - by apply emits_captureSlice_with.
  - intros _. apply emits_advance; [done|done|by repeat constructor].
Qed.

(** ** What the selection callbacks leave alone *)

Lemma keepsRole_for_each {A} role (l : list A) (body : A → Prog unit) :
  (∀ x, keepsRole role (body x)) → keepsRole role (for_each l body).
Proof.
  intros Hbody. induction l as [|x l IH]; cbn [for_each].
  - apply keepsRole_ret.
  - apply keepsRole_bind; [apply Hbody|done].
Qed.

Lemma keepsRole_mark (className role name : string) (currentNode : option Node) :
  role ≠ name →
  keepsRole name
    (nodes ← getNodesByClass className;
     for_each nodes (λ n, perform (SetAttribute n role "False"));;
     match currentNode with
     | None => mret ()
     | Some c => perform (SetAttribute c role "True")
     end : Prog unit).
Proof.
  intros Hne.
  apply keepsRole_bind; [apply keepsRole_ask|]. intros nodes.
  apply keepsRole_bind.
  - apply keepsRole_for_each. intros n. by apply keepsRole_SetAttribute.
  - intros _. destruct currentNode; [by apply keepsRole_SetAttribute|apply keepsRole_ret].
Qed.

(** X23. A selection callback touches nothing but its own attributes:
    [onSegmentationBrowserChanged] changes no attribute other than
    [OUTPUT_BROWSER], [onSegmentationChanged] none other than
    [SEGMENTATION], and [onInputBrowserChanged] none other than
    [INPUT_BROWSER] and [INPUT_SKIP_NUMBER]; none of them adds or removes a
    node.  This holds on every node and also when the callback raises. *)
Theorem selection_keeps_other_attributes (cb : SelectionCallback)
    (currentNode : option Node) (st : St) (n : Node) (name : string) :
  name ∉ ownAttributes cb →
  let r := selectionCallback cb currentNode st in
  sceneNodes (world (after r)) = sceneNodes (world st) ∧
  attributes (world (after r)) n name = attributes (world st) n name.
Proof.
  intros Hname. cbv zeta.
  assert (Hkeeps : keepsRole name (selectionCallback cb currentNode)).
  { destruct cb; cbn [selectionCallback ownAttributes] in *.
    - apply not_elem_of_cons in Hname as [Hbrowser Hname].
      apply not_elem_of_cons in Hname as [Hskip _].
      unfold onInputBrowserChanged.
      apply keepsRole_bind; [apply keepsRole_ask|]. intros nodes.
      apply keepsRole_bind.
      { apply keepsRole_for_each. intros b. by apply keepsRole_SetAttribute. }
      intros _. destruct currentNode as [c|]; [|apply keepsRole_ret].
      apply keepsRole_bind; [by apply keepsRole_SetAttribute|]. intros _.
      apply keepsRole_bind; [apply keepsRole_ask|]. intros saved.
      apply keepsRole_bind.
      + destruct saved as [s|].
        * apply keepsRole_bind.
          -- unfold int_of_string.
             destruct (py_int s); [apply keepsRole_ret|apply keepsRole_raise].
          -- intros v. by apply keepsRole_assignSkipImagesSpinBox.
        * apply keepsRole_bind; [apply keepsRole_self|]. intros numSkip.
          by apply keepsRole_SetAttribute.
      + intros _. apply keepsRole_bind; [apply keepsRole_ask|]. intros nodeName.
        apply keepsRole_LoggingDebug.
    - apply not_elem_of_cons in Hname as [Hne _].
      by apply (keepsRole_mark BROWSER_CLASS OUTPUT_BROWSER name currentNode).
    - apply not_elem_of_cons in Hname as [Hne _].
      by apply (keepsRole_mark SEGMENTATION_CLASS SEGMENTATION name currentNode). }
  destruct (Hkeeps st) as [Hnodes Hattr]. split; [exact Hnodes|apply Hattr].
Qed.

End Properties.

(** * Concrete runs on the reference host *)

Import Reference.

Lemma captureSlice_replaces_or_appends_witness :
  hostGetSequenceNode (world recaptured) outputBrowser (Some volume)
    = Some imageSequence ∧
  hostGetSequenceNode (world recaptured) outputBrowser (Some segmentation)
    = Some segmentationSequence ∧
  captureSlice outputBrowser segmentation (Some volume) recaptured
    = called (SetDataNodeAtValue segmentationSequence segmentation "0") recaptured.
Proof.
  assert (Himage : hostGetSequenceNode (world recaptured) outputBrowser (Some volume)
                   = Some imageSequence) by reflexivity.
  assert (Hsegmentation :
            hostGetSequenceNode (world recaptured) outputBrowser (Some segmentation)
            = Some segmentationSequence) by reflexivity.
  split; [exact Himage|]. split; [exact Hsegmentation|].
  destruct (captureSlice_replaces_or_appends recaptured outputBrowser segmentation
              (Some volume) imageSequence segmentationSequence Himage Hsegmentation)
    as (Hmatch & _ & _).
  apply (Hmatch 0%nat). split.
  - exists ("0", storedSegmentation). split; reflexivity.
  - intros j item Hj. lia.
Defined.

(** C1, as stated, fails when the attribute is absent on both sides: no
    stored node has an attribute equal, as a string, to the current
    segmentation's, and yet the stored entry is written over and
    [SaveProxyNodesState] is not called. *)
Lemma captureSlice_absent_attributes_counterexample :
  hostGetSequenceNode (world unindexed) outputBrowser (Some volume)
    = Some imageSequence ∧
  hostGetSequenceNode (world unindexed) outputBrowser (Some segmentation)
    = Some segmentationSequence ∧
  (¬ ∃ i item s,
      sequenceItems (world unindexed) segmentationSequence !! i = Some item ∧
      attributes (world unindexed) item.2 ORIGINAL_IMAGE_INDEX = Some s ∧
      attributes (world unindexed) segmentation ORIGINAL_IMAGE_INDEX = Some s) ∧
  calls (captureSlice outputBrowser segmentation (Some volume) unindexed)
    = [SetDataNodeAtValue segmentationSequence segmentation "0"] ∧
  SaveProxyNodesState outputBrowser
    ∉ calls (captureSlice outputBrowser segmentation (Some volume) unindexed).
Proof.
  split; [reflexivity|]. split; [reflexivity|]. split.
  - intros (i & item & s & _ & _ & Hcurrent). discriminate Hcurrent.
  - split; [reflexivity|].
    intros Hin. apply elem_of_cons in Hin as [Heq|Hin]; [discriminate Heq|].
    by apply elem_of_nil in Hin.
Qed.

(** On the reference host no call changes which segments have a labelmap,
    so a segmentation is erasable as soon as none of its segments is listed
    as unlabelled. *)
Lemma unlabelled_worldAfter (cs : list Call) (w : Scene) :
  unlabelled (hidden (worldAfter cs w)) = unlabelled (hidden w).
Proof.
  revert w. induction cs as [|c cs IH]; intros w; [done|].
  change (worldAfter (c :: cs) w) with (worldAfter cs (applyCall c w)).
  rewrite IH. destruct c; try done; cbn [applyCall hostReact host react];
    try case_decide; done.
Qed.

Lemma labelled_allErasable (w : Scene) (selectedSegmentation : Node) :
  unlabelled (hidden w) = [] → allErasable w selectedSegmentation.
Proof.
  intros Hnone i _. unfold erasable, erasedBelow, labelmapOf.
  cbn [hostGetBinaryLabelmapRepresentation host]. unfold binaryLabelmap.
  rewrite unlabelled_worldAfter, Hnone. by rewrite decide_False by apply not_elem_of_nil.
Qed.



Lemma wraparound_detected_iff_witness :
  (SkipButton ≠ ConvertButton) ∧
  (None ∉ checkedSelectors SkipButton (widget lastFrame)) ∧
  outcome (callback SkipButton lastFrame) = Ok () ∧
  advancesAndChecks (world lastFrame) (widget lastFrame)
    (calls (callback SkipButton lastFrame)) ∧
  calls (callback SkipButton lastFrame)
    = [EraseSegment segmentation 0; GetSelectedItemNumber inputBrowser 9;
       SelectNextItem inputBrowser 4 3; LoggingDebug WRAPPED_TEXT;
       MessageBox WRAPPED_TEXT WRAPPED_INFORMATIVE_TEXT].
Proof.
  assert (Hcb : SkipButton ≠ ConvertButton) by discriminate.
  assert (Hsel : None ∉ checkedSelectors SkipButton (widget lastFrame)).
  { intros Hin. apply elem_of_cons in Hin as [Heq|Hin]; [discriminate Heq|].
    apply elem_of_cons in Hin as [Heq|Hin]; [discriminate Heq|].
    by apply elem_of_nil in Hin. }
  assert (Hok : outcome (callback SkipButton lastFrame) = Ok ()) by reflexivity.
  split; [exact Hcb|]. split; [exact Hsel|]. split; [exact Hok|].
  split; [exact (wraparound_detected_iff SkipButton lastFrame Hcb Hsel Hok)|].
  vm_compute. reflexivity.
Defined.

Lemma exportPngSequence_repositions_image_browser_witness :
  hostPathExists (world recaptured) "/data" = true ∧
  calls (exportPngSequence volume (Some inputBrowser) segmentation outputBrowser
           "/data" "scan" recaptured)
    = [AddNewNodeByClass LABELMAP_CLASS 7%positive; SelectFirstItem outputBrowser;
       SetSelectedItemNumber inputBrowser 3; UpdateAllProxyNodes;
       ExportVisibleSegmentsToLabelmapNode segmentation 7%positive volume;
       ScaleLabelmap 7%positive 255;
       PngWrite "/data/scan_0000_segmentation.png" 7%positive;
       PngWrite "/data/scan_0000_ultrasound.png" volume;
       SelectNextItem outputBrowser 1 0; UpdateAllProxyNodes].
Proof.
  assert (Hfolder : hostPathExists (world recaptured) "/data" = true) by reflexivity.
  split; [exact Hfolder|].
  destruct (exportPngSequence_repositions_image_browser volume (Some inputBrowser)
              segmentation outputBrowser "/data" "scan" recaptured Hfolder)
    as (Hcalls & _ & _).
  rewrite Hcalls. vm_compute. reflexivity.
Defined.


(** C6 at the failing input: with no image sequence browser selected,
    [onExportButton] logs no "No image sequence browser selected!" error and
    does not return; it starts the export with [None] for the browser. *)
Theorem onExportButton_without_image_browser :
  inputSequenceBrowserSelector (widget noInputBrowser) = None ∧
  onExportButton noInputBrowser
    = exportPngSequence volume None segmentation outputBrowser "/data" "scan"
        noInputBrowser ∧
  calls (onExportButton noInputBrowser)
    = [AddNewNodeByClass LABELMAP_CLASS 7%positive; SelectFirstItem outputBrowser;
       LoggingError "Original image not found for segmentation 0 - skipping"].
Proof. repeat split; vm_compute; reflexivity. Qed.

Lemma null_selector_logs_error_and_returns_witness :
  None ∈ checkedSelectors CaptureButton (widget noOutputBrowser) ∧
  ∃ msg, callback CaptureButton noOutputBrowser
         = mkRun (Ok ()) noOutputBrowser [LoggingError msg].
Proof.
  assert (Hnone : None ∈ checkedSelectors CaptureButton (widget noOutputBrowser)).
  { apply elem_of_cons. right. apply elem_of_cons. right. apply elem_of_cons. by left. }
  split; [exact Hnone|].
  exact (null_selector_logs_error_and_returns CaptureButton noOutputBrowser Hnone).
Defined.

(** C7, as stated, fails for [onSkipButton] with no output browser
    selected: no error is logged, the segmentation is erased and the input
    browser advances. *)
Lemma onSkipButton_without_output_browser_counterexample :
  segmentationBrowserSelector (widget noOutputBrowser) = None ∧
  outcome (onSkipButton noOutputBrowser) = Ok () ∧
  calls (onSkipButton noOutputBrowser)
    = [EraseSegment segmentation 0; GetSelectedItemNumber inputBrowser 9;
       SelectNextItem inputBrowser 4 3; LoggingDebug WRAPPED_TEXT;
       MessageBox WRAPPED_TEXT WRAPPED_INFORMATIVE_TEXT] ∧
  hostSelectedItemNumber (world noOutputBrowser) inputBrowser = 9%Z ∧
  hostSelectedItemNumber (world (after (onSkipButton noOutputBrowser))) inputBrowser
    = 3%Z.
Proof. repeat split; vm_compute; reflexivity. Qed.

(** ** Concrete runs of the further properties *)

Lemma eraseCurrentSegmentation_erases_all_witness :
  allErasable (world lastFrame) segmentation ∧
  eraseCurrentSegmentation segmentation lastFrame
  = mkRun (Ok ())
      (mkState (worldAfter [EraseSegment segmentation 0] (world lastFrame))
         (widget lastFrame))
      [EraseSegment segmentation 0].
Proof.
  assert (Herasable : allErasable (world lastFrame) segmentation)
    by (by apply labelled_allErasable).
  split; [exact Herasable|].
  exact (eraseCurrentSegmentation_erases_all segmentation lastFrame Herasable).
Defined.

Lemma eraseCurrentSegmentation_stops_at_missing_labelmap_witness :
  (0 ≤ 1 < hostGetNumberOfSegments (world threeSegments) segmentation)%Z ∧
  (∀ i, (0 ≤ i < 1)%Z → erasable (world threeSegments) segmentation i) ∧
  eraseFailure (labelmapOf (erasedBelow (world threeSegments) segmentation 1)
                  segmentation 1) = Some AttributeError ∧
  eraseCurrentSegmentation segmentation threeSegments
  = mkRun (Raise AttributeError)
      (mkState (worldAfter [EraseSegment segmentation 0] (world threeSegments))
         (widget threeSegments))
      [EraseSegment segmentation 0].
Proof.
  assert (Hk : (0 ≤ 1 < hostGetNumberOfSegments (world threeSegments) segmentation)%Z).
  { change (hostGetNumberOfSegments (world threeSegments) segmentation) with 3%Z. lia. }
  assert (Hbefore : ∀ i, (0 ≤ i < 1)%Z → erasable (world threeSegments) segmentation i).
  { intros i Hi. assert (i = 0%Z) as -> by lia. reflexivity. }
  assert (Hfails :
    eraseFailure (labelmapOf (erasedBelow (world threeSegments) segmentation 1)
                    segmentation 1) = Some AttributeError) by reflexivity.
  split; [exact Hk|]. split; [exact Hbefore|]. split; [exact Hfails|].
  exact (eraseCurrentSegmentation_stops_at_missing_labelmap segmentation threeSegments
           1 AttributeError Hk Hbefore Hfails).
Defined.

Lemma onClearButton_erases_only_witness :
  (∀ selectedSegmentation,
     inputSegmentationSelector (widget lastFrame) = Some selectedSegmentation →
     allErasable (world lastFrame) selectedSegmentation) ∧
  onClearButton lastFrame
  = mkRun (Ok ())
      (mkState (worldAfter [EraseSegment segmentation 0] (world lastFrame))
         (widget lastFrame))
      [EraseSegment segmentation 0].
Proof.
  assert (Herasable : ∀ selectedSegmentation,
    inputSegmentationSelector (widget lastFrame) = Some selectedSegmentation →
    allErasable (world lastFrame) selectedSegmentation)
    by (intros selectedSegmentation _; by apply labelled_allErasable).
  split; [exact Herasable|].
  exact (onClearButton_erases_only lastFrame Herasable).
Defined.

Lemma onSkipButton_output_or_input_witness :
  inputSequenceBrowserSelector (widget lastFrame) = Some inputBrowser ∧
  inputSegmentationSelector (widget lastFrame) = Some segmentation ∧
  segmentationBrowserSelector (widget lastFrame) = Some outputBrowser ∧
  (hostActiveBrowserNode (world lastFrame) ≠ Some outputBrowser →
   allErasable (world lastFrame) segmentation) ∧
  outcome (onSkipButton lastFrame) = Ok () ∧
  calls (onSkipButton lastFrame)
    = [EraseSegment segmentation 0; GetSelectedItemNumber inputBrowser 9;
       SelectNextItem inputBrowser 4 3; LoggingDebug WRAPPED_TEXT;
       MessageBox WRAPPED_TEXT WRAPPED_INFORMATIVE_TEXT].
Proof.
  assert (Herasable :
    hostActiveBrowserNode (world lastFrame) ≠ Some outputBrowser →
    allErasable (world lastFrame) segmentation)
    by (intros _; by apply labelled_allErasable).
  split; [reflexivity|]. split; [reflexivity|]. split; [reflexivity|].
  split; [exact Herasable|].
  destruct (onSkipButton_output_or_input lastFrame inputBrowser segmentation
              outputBrowser eq_refl eq_refl eq_refl Herasable) as [Hok Hcalls].
  split; [exact Hok|]. rewrite Hcalls. vm_compute. reflexivity.
Defined.

Lemma onSkipButton_unselected_output_witness :
  inputSequenceBrowserSelector (widget noBrowserActive) = Some inputBrowser ∧
  inputSegmentationSelector (widget noBrowserActive) = Some segmentation ∧
  segmentationBrowserSelector (widget noBrowserActive) = None ∧
  (hostActiveBrowserNode (world noBrowserActive) ≠ None →
   allErasable (world noBrowserActive) segmentation) ∧
  onSkipButton noBrowserActive = mkRun (Raise AttributeError) noBrowserActive [].
Proof.
  assert (Herasable :
    hostActiveBrowserNode (world noBrowserActive) ≠ None →
    allErasable (world noBrowserActive) segmentation)
    by (intros _; by apply labelled_allErasable).
  split; [reflexivity|]. split; [reflexivity|]. split; [reflexivity|].
  split; [exact Herasable|].
  exact (onSkipButton_unselected_output noBrowserActive inputBrowser segmentation
           eq_refl eq_refl eq_refl Herasable).
Defined.

Lemma onCaptureButton_without_volume_witness :
  inputSequenceBrowserSelector (widget noVolume) = Some inputBrowser ∧
  inputSegmentationSelector (widget noVolume) = Some segmentation ∧
  segmentationBrowserSelector (widget noVolume) = Some outputBrowser ∧
  inputVolumeSelector (widget noVolume) = None ∧
  (∀ w, hostGetSequenceNode w outputBrowser None = None) ∧
  outcome (onCaptureButton noVolume) = Raise AttributeError ∧
  calls (onCaptureButton noVolume)
    = [GetSelectedItemNumber inputBrowser 9;
       SetAttribute segmentation ORIGINAL_IMAGE_INDEX "9"] ∧
  attributes (world (after (onCaptureButton noVolume))) segmentation
    ORIGINAL_IMAGE_INDEX = Some "9".
Proof.
  assert (Hnone : ∀ w : Scene, hostGetSequenceNode w outputBrowser None = None)
    by (intros w; reflexivity).
  split; [reflexivity|]. split; [reflexivity|]. split; [reflexivity|].
  split; [reflexivity|]. split; [exact Hnone|].
  destruct (onCaptureButton_without_volume noVolume inputBrowser segmentation
              outputBrowser eq_refl eq_refl eq_refl eq_refl Hnone) as [Hraise Hnew].
  split; [exact Hraise|]. exact Hnew.
Defined.

Lemma skip_number_round_trip_witness :
  inputSequenceBrowserSelector (widget lastFrame) = Some inputBrowser ∧
  py_int (py_str 7) = Some 7%Z ∧
  outcome ((onSkipImagesNumChanged 7;; onInputBrowserChanged (Some inputBrowser))
             lastFrame) = Ok () ∧
  skipImagesSpinBox
    (widget (after ((onSkipImagesNumChanged 7;;
                     onInputBrowserChanged (Some inputBrowser)) lastFrame))) = 7%Z.
Proof.
  split; [reflexivity|]. split; [reflexivity|].
  exact (skip_number_round_trip inputBrowser 7 lastFrame eq_refl eq_refl).
Defined.

Lemma exportPngSequence_skip_repeats_witness :
  frameChoice (world noInputBrowser) None segmentation = Unusable ∧
  for_each [0; 1]%Z
    (exportPngItem volume None segmentation outputBrowser "/data" "scan" 7%positive)
    noInputBrowser
  = mkRun (Ok ()) noInputBrowser
      [LoggingError (skippingError 0); LoggingError (skippingError 1)].
Proof.
  split; [reflexivity|].
  destruct (exportPngSequence_skip_repeats volume None segmentation outputBrowser
              "/data" "scan" 7%positive [] [0; 1]%Z noInputBrowser eq_refl)
    as (Hok & Hafter & Hcalls).
  change ([] ++ [0; 1]%Z) with [0; 1]%Z in Hok, Hafter, Hcalls.
  rewrite <- (run_eta (for_each _ _ _)), Hok, Hafter, Hcalls. reflexivity.
Defined.

Lemma exportPngSequence_no_browser_no_files_witness :
  hostPathExists (world noInputBrowser) "/data" = true ∧
  attributes (world (exportLoopStart outputBrowser noInputBrowser)) segmentation
    ORIGINAL_IMAGE_INDEX = Some "3" ∧
  pngFiles (calls (exportPngSequence volume None segmentation outputBrowser
                     "/data" "scan" noInputBrowser)) = [].
Proof.
  assert (Hfolder : hostPathExists (world noInputBrowser) "/data" = true)
    by reflexivity.
  assert (Hattribute :
    attributes (world (exportLoopStart outputBrowser noInputBrowser)) segmentation
      ORIGINAL_IMAGE_INDEX = Some "3") by reflexivity.
  split; [exact Hfolder|]. split; [exact Hattribute|].
  apply (exportPngSequence_no_browser_no_files volume segmentation outputBrowser
           "/data" "scan" "3" noInputBrowser Hfolder Hattribute).
Defined.

Lemma onExportButton_null_selector_witness :
  None ∈ [inputSegmentationSelector (widget noOutputBrowser);
          segmentationBrowserSelector (widget noOutputBrowser);
          inputVolumeSelector (widget noOutputBrowser)] ∧
  ∃ msg, onExportButton noOutputBrowser
         = mkRun (Ok ()) noOutputBrowser [LoggingError msg].
Proof.
  assert (Hnone : None ∈ [inputSegmentationSelector (widget noOutputBrowser);
                          segmentationBrowserSelector (widget noOutputBrowser);
                          inputVolumeSelector (widget noOutputBrowser)]).
  { apply elem_of_cons. right. apply elem_of_cons. by left. }
  split; [exact Hnone|].
  exact (onExportButton_null_selector noOutputBrowser Hnone).
Defined.

Lemma getDefaultMasterVolumeNodeID_background_first_witness :
  hostSliceViewNames (world backgroundInYellow) = ["Red"] ++ "Yellow" :: ["Green"] ∧
  Forall (viewWithout (world backgroundInYellow) hostGetBackgroundVolumeID) ["Red"] ∧
  compositeNodeOf (world backgroundInYellow) "Yellow" = Some yellowComposite ∧
  truthyOption (hostGetBackgroundVolumeID (world backgroundInYellow) yellowComposite)
    = true ∧
  getDefaultMasterVolumeNodeID backgroundInYellow
  = mkRun (Ok (Some "vtkMRMLScalarVolumeNode1")) backgroundInYellow [].
Proof.
  assert (Hbefore :
    Forall (viewWithout (world backgroundInYellow) hostGetBackgroundVolumeID) ["Red"]).
  { constructor; [|constructor]. exists redComposite. split; reflexivity. }
  split; [reflexivity|]. split; [exact Hbefore|]. split; [reflexivity|].
  split; [reflexivity|].
  exact (getDefaultMasterVolumeNodeID_background_first backgroundInYellow
           ["Red"] ["Green"] "Yellow" yellowComposite eq_refl Hbefore eq_refl eq_refl).
Defined.

Lemma getDefaultMasterVolumeNodeID_missing_view_witness :
  hostSliceViewNames (world greenMissing) = ["Red"; "Yellow"] ++ "Green" :: [] ∧
  Forall (viewWithout (world greenMissing) hostGetBackgroundVolumeID)
    ["Red"; "Yellow"] ∧
  compositeNodeOf (world greenMissing) "Green" = None ∧
  getDefaultMasterVolumeNodeID greenMissing
  = mkRun (Raise AttributeError) greenMissing [].
Proof.
  assert (Hbefore :
    Forall (viewWithout (world greenMissing) hostGetBackgroundVolumeID)
      ["Red"; "Yellow"]).
  { constructor; [|constructor; [|constructor]].
    - exists redComposite. split; reflexivity.
    - exists yellowComposite. split; reflexivity. }
  split; [reflexivity|]. split; [exact Hbefore|]. split; [reflexivity|].
  exact (getDefaultMasterVolumeNodeID_missing_view greenMissing
           ["Red"; "Yellow"] [] "Green" eq_refl Hbefore eq_refl).
Defined.

Lemma getDefaultMasterVolumeNodeID_foreground_fallback_witness :
  Forall (viewWithout (world foregroundInYellow) hostGetBackgroundVolumeID)
    (hostSliceViewNames (world foregroundInYellow)) ∧
  hostSliceViewNames (world foregroundInYellow) = ["Red"] ++ "Yellow" :: ["Green"] ∧
  Forall (viewWithout (world foregroundInYellow) hostGetForegroundVolumeID) ["Red"] ∧
  compositeNodeOf (world foregroundInYellow) "Yellow" = Some yellowComposite ∧
  truthyOption (hostGetForegroundVolumeID (world foregroundInYellow) yellowComposite)
    = true ∧
  getDefaultMasterVolumeNodeID foregroundInYellow
  = mkRun (Ok (Some "vtkMRMLScalarVolumeNode2")) foregroundInYellow [].
Proof.
  assert (Hbackground :
    Forall (viewWithout (world foregroundInYellow) hostGetBackgroundVolumeID)
      (hostSliceViewNames (world foregroundInYellow))).
  { constructor; [|constructor; [|constructor; [|constructor]]].
    - exists redComposite. split; reflexivity.
    - exists yellowComposite. split; reflexivity.
    - exists greenComposite. split; reflexivity. }
  assert (Hbefore :
    Forall (viewWithout (world foregroundInYellow) hostGetForegroundVolumeID) ["Red"]).
  { constructor; [|constructor]. exists redComposite. split; reflexivity. }
  split; [exact Hbackground|]. split; [reflexivity|]. split; [exact Hbefore|].
  split; [reflexivity|]. split; [reflexivity|].
  exact (getDefaultMasterVolumeNodeID_foreground_fallback foregroundInYellow
           ["Red"] ["Green"] "Yellow" yellowComposite Hbackground eq_refl Hbefore
           eq_refl eq_refl).
Defined.

Lemma getDefaultMasterVolumeNodeID_nothing_found_witness :
  Forall (viewWithout (world emptyViews) hostGetBackgroundVolumeID)
    (hostSliceViewNames (world emptyViews)) ∧
  Forall (viewWithout (world emptyViews) hostGetForegroundVolumeID)
    (hostSliceViewNames (world emptyViews)) ∧
  getDefaultMasterVolumeNodeID emptyViews = mkRun (Ok None) emptyViews [].
Proof.
  assert (Hbackground :
    Forall (viewWithout (world emptyViews) hostGetBackgroundVolumeID)
      (hostSliceViewNames (world emptyViews))).
  { constructor; [|constructor; [|constructor; [|constructor]]].
    - exists redComposite. split; reflexivity.
    - exists yellowComposite. split; reflexivity.
    - exists greenComposite. split; reflexivity. }
  assert (Hforeground :
    Forall (viewWithout (world emptyViews) hostGetForegroundVolumeID)
      (hostSliceViewNames (world emptyViews))).
  { constructor; [|constructor; [|constructor; [|constructor]]].
    - exists redComposite. split; reflexivity.
    - exists yellowComposite. split; reflexivity.
    - exists greenComposite. split; reflexivity. }
  split; [exact Hbackground|]. split; [exact Hforeground|].
  exact (getDefaultMasterVolumeNodeID_nothing_found emptyViews Hbackground Hforeground).
Defined.

Lemma landmarkingScanBrowser_first_existing_witness :
  (5 ≤ 5)%nat ∧
  landmarkingScanBrowser 5 landmarking = mkRun (Ok (Some outputBrowser)) landmarking [].
Proof.
  assert (Hfuel : (5 ≤ 5)%nat) by lia.
  split; [exact Hfuel|].
  rewrite (landmarkingScanBrowser_first_existing 5 landmarking Hfuel).
  reflexivity.
Defined.

Lemma onCaptureButton_overwrite_keeps_canvas_witness :
  inputSequenceBrowserSelector (widget recaptured) = Some inputBrowser ∧
  inputSegmentationSelector (widget recaptured) = Some segmentation ∧
  segmentationBrowserSelector (widget recaptured) = Some outputBrowser ∧
  treatedAsNew (world recaptured) segmentation inputBrowser = false ∧
  Forall keepsCanvas (calls (onCaptureButton recaptured)).
Proof.
  split; [reflexivity|]. split; [reflexivity|]. split; [reflexivity|].
  split; [reflexivity|].
  exact (onCaptureButton_overwrite_keeps_canvas recaptured inputBrowser segmentation
           outputBrowser eq_refl eq_refl eq_refl eq_refl).
Defined.

Lemma selection_keeps_other_attributes_witness :
  (ORIGINAL_IMAGE_INDEX ∉ ownAttributes SegmentationChanged) ∧
  sceneNodes (world (after (onSegmentationChanged (Some segmentation) recaptured)))
    = sceneNodes (world recaptured) ∧
  attributes (world (after (onSegmentationChanged (Some segmentation) recaptured)))
    segmentation ORIGINAL_IMAGE_INDEX = Some "3".
Proof.
  assert (Hname : ORIGINAL_IMAGE_INDEX ∉ ownAttributes SegmentationChanged).
  { intros Hin. apply elem_of_cons in Hin as [Heq|Hin]; [discriminate Heq|].
    by apply elem_of_nil in Hin. }
  split; [exact Hname|].
  exact (selection_keeps_other_attributes SegmentationChanged (Some segmentation)
           recaptured segmentation ORIGINAL_IMAGE_INDEX Hname).
Defined.
